(** * besobot: the backtest / decision engine, embedded and verified

    A shallow embedding of the numeric core of the trading bot:
    - [src/backtesting/backtest_engine.py]  (indicators, entry/exit state
      machine, equity curve, report),
    - [src/core/risk_manager.py]            (position sizing),
    - [src/strategies/exit_strategies.py]   (trailing stop, partial profits),
    - [src/analytics/performance_tracker.py] and [src/analytics/optimizer.py].

    Numbers.  The Python code computes on IEEE doubles.  Here a finite
    double is a rational ([Q]) and the operations of the embedded
    functions are exact.  Statements about sums are written in the order
    in which the code adds, with syntactic equality, so that they use no
    property of addition that doubles lack; where rounding decides a
    question, [Binary64] gives the doubles' own addition.  The
    special values the code itself produces or tests for are explicit:
    a NaN cell of a pandas column is [None], and [float('inf')],
    [-float('inf')] and the result of a numpy division by zero are the
    constructors of [xnum]. *)

From Stdlib Require Import ZArith QArith Qabs Qround Qminmax Lqa Lia Bool Sorted.
From stdpp Require Import base option list gmap strings.

Open Scope Q_scope.

(** ** Python numerics *)

Module Py.

(** [a <= b] and [a < b] on floats, as booleans. *)
Definition leb (a b : Q) : bool := Qle_bool a b.
Definition ltb (a b : Q) : bool := negb (Qle_bool b a).

(** The builtin [max(a, b)]: [b] replaces [a] only when [b > a]. *)
Definition max (a b : Q) : Q := if ltb a b then b else a.

(** The builtin [min(a, b)]: [b] replaces [a] only when [b < a]. *)
Definition min (a b : Q) : Q := if ltb b a then b else a.

(** [round(x, 2)]: nearest multiple of 1/100, exact ties to the even one. *)
Definition round2 (x : Q) : Q :=
  let y := x * 100 in
  let n := Qfloor y in
  let r := y - inject_Z n in
  let m := if ltb r (1 # 2) then n
           else if ltb (1 # 2) r then (n + 1)%Z
           else if Z.even n then n else (n + 1)%Z in
  inject_Z m / 100.

(** [sum(xs)]: left to right from [0]. *)
Definition sum (xs : list Q) : Q := fold_left Qplus xs 0.

(** [np.mean(xs)] on a non-empty list. *)
Definition mean (xs : list Q) : Q := sum xs / inject_Z (Z.of_nat (length xs)).

Lemma leb_le a b : leb a b = true <-> a <= b.
Proof. apply Qle_bool_iff. Qed.

Lemma ltb_lt a b : ltb a b = true <-> a < b.
Proof.
  unfold ltb. rewrite negb_true_iff, <- not_true_iff_false, Qle_bool_iff.
  split; [apply Qnot_le_lt | apply Qlt_not_le].
Qed.

Lemma ltb_ge a b : ltb a b = false <-> b <= a.
Proof. unfold ltb. rewrite negb_false_iff. apply Qle_bool_iff. Qed.

Lemma leb_gt a b : leb a b = false <-> b < a.
Proof.
  unfold leb. rewrite <- not_true_iff_false, Qle_bool_iff.
  split; [apply Qnot_le_lt | apply Qlt_not_le].
Qed.

Lemma ltb_irrefl a : ltb a a = false.
Proof. apply ltb_ge. apply Qle_refl. Qed.

Lemma max_spec a b : max a b == Qmax a b.
Proof.
  unfold max. destruct (ltb a b) eqn:E.
  - apply ltb_lt in E. symmetry. apply Q.max_r. now apply Qlt_le_weak.
  - apply ltb_ge in E. symmetry. now apply Q.max_l.
Qed.

Lemma min_spec a b : min a b == Qmin a b.
Proof.
  unfold min. destruct (ltb b a) eqn:E.
  - apply ltb_lt in E. symmetry. apply Q.min_r. now apply Qlt_le_weak.
  - apply ltb_ge in E. symmetry. now apply Q.min_l.
Qed.

Lemma clamp_bounds lo hi x : lo <= hi -> lo <= max lo (min hi x) <= hi.
Proof.
  intros Hlh. unfold max, min.
  destruct (ltb x hi) eqn:E1; destruct (ltb lo _) eqn:E2;
    repeat match goal with
           | H : ltb _ _ = true |- _ => apply ltb_lt in H
           | H : ltb _ _ = false |- _ => apply ltb_ge in H
           end; split; lra.
Qed.

Example round2_samples :
  Qred (round2 (30 / (30001 # 100))) = 1 # 10 /\
  Qred (round2 (125 # 1000)) = 3 # 25 /\
  Qred (round2 (135 # 1000)) = 7 # 50 /\
  Qred (round2 (- (125 # 1000))) = -3 # 25.
Proof. vm_compute. repeat split; reflexivity. Qed.

End Py.

(** ** The doubles

    A finite double is the rational it denotes.  [round] is the rounding of
    every arithmetic operation and of every decimal literal: to the nearest
    double, ties to the even significand (53 bits, subnormals below
    2^-1022).  Overflow to infinity is outside this range. *)

Module Binary64.

Definition pow2 (e : Z) : Q :=
  if (0 <=? e)%Z then inject_Z (2 ^ e) else 1 / inject_Z (2 ^ (- e)).

(** The nearest integer, the even one of two equally near. *)
Definition nearest_even (x : Q) : Z :=
  let f := Qfloor x in
  match Qcompare (x - inject_Z f) (1 # 2) with
  | Lt => f
  | Gt => (f + 1)%Z
  | Eq => if Z.even f then f else (f + 1)%Z
  end.

(** The exponent [e] of the last place of [x]:
    [2^52 <= |x| / 2^e < 2^53], and [e = -1074] for a subnormal. *)
Definition ulp_exponent (x : Q) : Z :=
  let a := Qabs x in
  let k := (Z.log2 (Qnum a) - Z.log2 (Zpos (Qden a)))%Z in
  let k := if Qle_bool (pow2 k) a then k else (k - 1)%Z in
  Z.max (k - 52) (-1074).

Definition round (x : Q) : Q :=
  if Qeq_bool x 0 then 0
  else
    let e := ulp_exponent x in
    Qred (inject_Z (nearest_even (x / pow2 e)) * pow2 e).

(** [a + b], [a - b] and [a * b] on doubles. *)
Definition add (a b : Q) : Q := round (a + b).
Definition sub (a b : Q) : Q := round (a - b).
Definition mul (a b : Q) : Q := round (a * b).

(** The literals [0.1] and [0.2] and their sum [0.30000000000000004]. *)
Example tenth_plus_fifth :
  round (1 # 10) = 3602879701896397 # 36028797018963968 /\
  round (2 # 10) = 3602879701896397 # 18014398509481984 /\
  add (round (1 # 10)) (round (2 # 10)) = 1351079888211149 # 4503599627370496.
Proof. vm_compute. repeat split; reflexivity. Qed.

End Binary64.

(** ** Indicators: [calculate_rsi]

    [BacktestEngine.calculate_rsi] and [DataManager.calculate_rsi] have the
    same body.  A pandas column is a list of cells; a NaN cell is [None]. *)

Module Indicators.

Abbreviation series := (list (option Q)).

(** [1e-12] *)
Definition epsilon : Q := 1 # 1000000000000.

(** [series.diff()]: cell [i] is [s[i] - s[i-1]]; the first cell, and any
    cell with a NaN operand, is NaN. *)
Fixpoint diff_from (prev : option Q) (s : series) : series :=
  match s with
  | [] => []
  | x :: rest =>
      (match x, prev with
       | Some a, Some b => Some (a - b)
       | _, _ => None
       end) :: diff_from x rest
  end.

Definition diff (s : series) : series := diff_from None s.

(** [delta.clip(lower=0)] and [delta.clip(upper=0)]; NaN stays NaN. *)
Definition clip_lower0 (s : series) : series :=
  option_map (fun d => if Py.ltb d 0 then 0 else d) <$> s.

Definition clip_upper0 (s : series) : series :=
  option_map (fun d => if Py.ltb 0 d then 0 else d) <$> s.

(** Unary minus on a column. *)
Definition neg (s : series) : series := option_map Qopp <$> s.

(** The observations (non-NaN cells) of a window. *)
Definition observations (w : series) : list Q := omap id w.

(** The window of [rolling(window=period)] ending at cell [i]: the cells
    [max(0, i+1-period) .. i]. *)
Definition window (period i : nat) (s : series) : series :=
  drop (i + 1 - period) (take (i + 1) s).

(** [rolling(window=period, min_periods=1).mean()]: the mean of the
    observations of the window, NaN when there is none. *)
Definition rolling_mean_at (period : nat) (s : series) (i : nat) : option Q :=
  match observations (window period i s) with
  | [] => None
  | obs => Some (Py.mean obs)
  end.

Definition rolling_mean (period : nat) (s : series) : series :=
  rolling_mean_at period s <$> seq 0 (length s).

(** Cell-wise division; a NaN operand gives NaN, and so does a zero divisor
    (the double would be NaN or infinite, neither a defined value). *)
Definition cell_div (a b : option Q) : option Q :=
  match a, b with
  | Some x, Some y => if Qeq_bool y 0 then None else Some (x / y)
  | _, _ => None
  end.

Definition cell_add_const (c : Q) (a : option Q) : option Q :=
  option_map (fun x => x + c) a.

(** [rs = ma_up / (ma_down + 1e-12)] *)
Definition rs_cell (ma_up ma_down : option Q) : option Q :=
  cell_div ma_up (cell_add_const epsilon ma_down).

(** [100 - (100 / (1 + rs))] *)
Definition rsi_cell (rs : option Q) : option Q :=
  option_map (fun q => 100 - q) (cell_div (Some 100) (option_map (fun r => 1 + r) rs)).

Definition calculate_rsi (s : series) (period : nat) : series :=
  let delta := diff s in
  let up := clip_lower0 delta in
  let down := neg (clip_upper0 delta) in
  let ma_up := rolling_mean period up in
  let ma_down := rolling_mean period down in
  (fun '(u, d) => rsi_cell (rs_cell u d)) <$> zip ma_up ma_down.

(** *** Facts about the RSI pipeline *)

(** Every defined cell of a column is non-negative. *)
Definition nonneg_cells (s : series) : Prop :=
  Forall (fun c => forall v, c = Some v -> 0 <= v) s.

Lemma clip_lower0_nonneg s : nonneg_cells (clip_lower0 s).
Proof.
  unfold nonneg_cells, clip_lower0. apply Forall_fmap, Forall_forall.
  intros [d|] _ v Hv; simpl in Hv; [|discriminate].
  injection Hv as <-. destruct (Py.ltb d 0) eqn:E; [lra|].
  now apply Py.ltb_ge in E.
Qed.

Lemma neg_clip_upper0_nonneg s : nonneg_cells (neg (clip_upper0 s)).
Proof.
  unfold nonneg_cells, neg, clip_upper0. rewrite <- list_fmap_compose.
  apply Forall_fmap, Forall_forall.
  intros [d|] _ v Hv; simpl in Hv; [|discriminate].
  injection Hv as <-. destruct (Py.ltb 0 d) eqn:E; [lra|].
  apply Py.ltb_ge in E. lra.
Qed.

Lemma observations_nonneg w :
  nonneg_cells w -> Forall (fun v => 0 <= v) (observations w).
Proof.
  unfold nonneg_cells, observations. induction 1 as [|c w Hc _ IH]; simpl.
  - constructor.
  - destruct c as [v|]; simpl; [constructor; auto | exact IH].
Qed.

Lemma fold_sum_nonneg xs : forall acc,
  0 <= acc -> Forall (fun v => 0 <= v) xs -> 0 <= fold_left Qplus xs acc.
Proof.
  induction xs as [|x xs IH]; intros acc Hacc Hxs; simpl; [exact Hacc|].
  inversion Hxs; subst. apply IH; [lra | assumption].
Qed.

Lemma mean_nonneg xs : Forall (fun v => 0 <= v) xs -> xs <> [] -> 0 <= Py.mean xs.
Proof.
  intros Hxs Hne. unfold Py.mean.
  apply Qle_shift_div_l.
  - change 0 with (inject_Z 0). rewrite <- Zlt_Qlt.
    destruct xs; [congruence | simpl; lia].
  - rewrite Qmult_0_l. apply fold_sum_nonneg; [lra | assumption].
Qed.

Lemma rolling_mean_at_nonneg period s i v :
  nonneg_cells s -> rolling_mean_at period s i = Some v -> 0 <= v.
Proof.
  intros Hs. unfold rolling_mean_at.
  assert (Hw : Forall (fun v => 0 <= v) (observations (window period i s))).
  { apply observations_nonneg. unfold window, nonneg_cells.
    apply Forall_drop, Forall_take, Hs. }
  destruct (observations (window period i s)) as [|x xs] eqn:E; [discriminate|].
  intros [= <-]. apply mean_nonneg; [assumption | discriminate].
Qed.

Lemma rolling_mean_lookup period s i c :
  rolling_mean period s !! i = Some c ->
  (i < length s)%nat /\ c = rolling_mean_at period s i.
Proof.
  unfold rolling_mean. rewrite list_lookup_fmap.
  destruct (seq 0 (length s) !! i) as [j|] eqn:E; simpl; [|discriminate].
  apply lookup_seq in E as [-> Hlt]. intros [= <-]. auto.
Qed.

Lemma rs_cell_nonneg u d r :
  (forall v, u = Some v -> 0 <= v) -> (forall v, d = Some v -> 0 <= v) ->
  rs_cell u d = Some r -> 0 <= r.
Proof.
  intros Hu Hd. unfold rs_cell, cell_div, cell_add_const.
  destruct u as [x|]; [|discriminate]. destruct d as [y|]; simpl; [|discriminate].
  destruct (Qeq_bool (y + epsilon) 0); [discriminate|]. intros [= <-].
  specialize (Hu x eq_refl). specialize (Hd y eq_refl).
  apply Qle_shift_div_l; [unfold epsilon in *; lra | lra].
Qed.

Lemma rsi_cell_bounds rs v :
  (forall r, rs = Some r -> 0 <= r) -> rsi_cell rs = Some v -> 0 <= v <= 100.
Proof.
  intros Hrs. unfold rsi_cell, cell_div.
  destruct rs as [r|]; simpl; [|discriminate].
  destruct (Qeq_bool (1 + r) 0); simpl; [discriminate|]. intros [= <-].
  specialize (Hrs r eq_refl).
  assert (H1 : 100 / (1 + r) <= 100) by (apply Qle_shift_div_r; lra).
  assert (H2 : 0 <= 100 / (1 + r)) by (apply Qle_shift_div_l; lra).
  lra.
Qed.

Lemma calculate_rsi_lookup s period i c :
  calculate_rsi s period !! i = Some c ->
  exists u d,
    rolling_mean period (clip_lower0 (diff s)) !! i = Some u /\
    rolling_mean period (neg (clip_upper0 (diff s))) !! i = Some d /\
    c = rsi_cell (rs_cell u d).
Proof.
  unfold calculate_rsi. rewrite list_lookup_fmap.
  destruct (zip _ _ !! i) as [[u d]|] eqn:E; simpl; [|discriminate].
  intros [= <-]. apply lookup_zip_with_Some in E as (u' & d' & [= -> ->] & Hu & Hd).
  eauto.
Qed.

Lemma calculate_rsi_in_bounds s period i v :
  calculate_rsi s period !! i = Some (Some v) -> 0 <= v <= 100.
Proof.
  intros H. apply calculate_rsi_lookup in H as (u & d & Hu & Hd & Hc).
  apply rolling_mean_lookup in Hu as [_ ->]. apply rolling_mean_lookup in Hd as [_ ->].
  symmetry in Hc. eapply rsi_cell_bounds; [|exact Hc].
  intros r Hr. eapply rs_cell_nonneg; [| |exact Hr]; intros w Hw.
  - eapply rolling_mean_at_nonneg; [apply clip_lower0_nonneg | exact Hw].
  - eapply rolling_mean_at_nonneg; [apply neg_clip_upper0_nonneg | exact Hw].
Qed.

(** Definedness: on a series without NaN every cell after the first has a
    value, because [ma_down + epsilon] and [1 + rs] are never zero. *)

Lemma diff_from_length s : forall prev, length (diff_from prev s) = length s.
Proof. induction s as [|x s IH]; intros prev; simpl; [reflexivity | now rewrite IH]. Qed.

Lemma diff_from_defined s : forall p i,
  Forall is_Some s -> (i < length s)%nat ->
  exists d, diff_from (Some p) s !! i = Some (Some d).
Proof.
  induction s as [|x s IH]; intros p i Hs Hi; simpl in *; [lia|].
  inversion Hs as [|? ? [a ->] Hs']; subst.
  destruct i as [|i]; simpl; [eauto|]. apply IH; [assumption | lia].
Qed.

Lemma diff_defined s i :
  Forall is_Some s -> (1 <= i < length s)%nat ->
  exists d, diff s !! i = Some (Some d).
Proof.
  intros Hs Hi. destruct s as [|x s]; simpl in *; [lia|].
  inversion Hs as [|? ? [a ->] Hs']; subst.
  destruct i as [|i]; [lia|]. unfold diff; simpl.
  apply diff_from_defined; [assumption | lia].
Qed.

Lemma window_last period i (s : series) c :
  (1 <= period)%nat -> s !! i = Some c ->
  window period i s !! (i - (i + 1 - period))%nat = Some c.
Proof.
  intros Hp Hc. unfold window. rewrite lookup_drop, lookup_take_lt by lia.
  replace (i + 1 - period + (i - (i + 1 - period)))%nat with i by lia. exact Hc.
Qed.

Lemma observations_defined (w : series) k v :
  w !! k = Some (Some v) -> observations w <> [].
Proof.
  unfold observations. revert k. induction w as [|c w IH]; intros k Hk; [discriminate|].
  destruct k as [|k]; simpl in Hk.
  - injection Hk as ->. simpl. discriminate.
  - simpl. destruct c; simpl; [discriminate | eauto].
Qed.

Lemma rolling_mean_defined period (s : series) i v :
  (1 <= period)%nat -> s !! i = Some (Some v) ->
  exists m, rolling_mean period s !! i = Some (Some m).
Proof.
  intros Hp Hc. unfold rolling_mean. rewrite list_lookup_fmap.
  rewrite lookup_seq_lt by (eapply lookup_lt_Some; exact Hc). simpl.
  unfold rolling_mean_at.
  pose proof (observations_defined _ _ _ (window_last period i s _ Hp Hc)) as Hne.
  destruct (observations (window period i s)); [congruence | eauto].
Qed.

Lemma calculate_rsi_defined s period i :
  (1 <= period)%nat -> Forall is_Some s -> (1 <= i < length s)%nat ->
  exists v, calculate_rsi s period !! i = Some (Some v).
Proof.
  intros Hp Hs Hi. destruct (diff_defined s i Hs Hi) as [d Hd].
  destruct (rolling_mean_defined period (clip_lower0 (diff s)) i
              (if Py.ltb d 0 then 0 else d) Hp) as [u Hu].
  { unfold clip_lower0. now rewrite list_lookup_fmap, Hd. }
  destruct (rolling_mean_defined period (neg (clip_upper0 (diff s))) i
              (- (if Py.ltb 0 d then 0 else d)) Hp) as [w Hw].
  { unfold neg, clip_upper0. now rewrite !list_lookup_fmap, Hd. }
  unfold calculate_rsi. rewrite list_lookup_fmap.
  rewrite (proj2 (lookup_zip_with_Some pair _ _ i (Some u, Some w)))
    by (exists (Some u), (Some w); auto).
  simpl.
  assert (Hu0 : 0 <= u).
  { apply rolling_mean_lookup in Hu as [_ Hu].
    eapply rolling_mean_at_nonneg; [apply clip_lower0_nonneg | symmetry; exact Hu]. }
  assert (Hw0 : 0 <= w).
  { apply rolling_mean_lookup in Hw as [_ Hw].
    eapply rolling_mean_at_nonneg; [apply neg_clip_upper0_nonneg | symmetry; exact Hw]. }
  unfold rsi_cell, rs_cell, cell_div, cell_add_const. simpl.
  destruct (Qeq_bool (w + epsilon) 0) eqn:E1.
  { apply Qeq_bool_eq in E1. unfold epsilon in E1. lra. }
  simpl. destruct (Qeq_bool (1 + u / (w + epsilon)) 0) eqn:E2; simpl; [|eauto].
  apply Qeq_bool_eq in E2.
  assert (0 <= u / (w + epsilon)) by (apply Qle_shift_div_l; unfold epsilon; lra).
  lra.
Qed.

(** C3. For every price series and every period of at least 1, each
    defined cell of the RSI column lies in [0, 100]; and on a series without
    NaN every cell after the first is defined, the guard [1e-12] keeping the
    divisor away from zero. *)
Theorem rsi_within_bounds (s : series) (period : nat) :
  (1 <= period)%nat ->
  (forall i v, calculate_rsi s period !! i = Some (Some v) -> 0 <= v <= 100) /\
  (Forall is_Some s -> forall i, (1 <= i < length s)%nat ->
     exists v, calculate_rsi s period !! i = Some (Some v) /\ 0 <= v <= 100).
Proof.
  intros Hp. split.
  - intros i v. apply calculate_rsi_in_bounds.
  - intros Hs i Hi. destruct (calculate_rsi_defined s period i Hp Hs Hi) as [v Hv].
    exists v. split; [exact Hv|]. eapply calculate_rsi_in_bounds, Hv.
Qed.

(** A rising, falling, then flat series, with period 2. *)
Definition sample_closes : series := [Some 10; Some 11; Some 9; Some 9; Some 12].

Example sample_rsi :
  option_map Qred <$> calculate_rsi sample_closes 2 =
  [None; Some (100000000000000 # 1000000000001);
   Some (50000000000000 # 1500000000001); Some 0;
   Some (150000000000000 # 1500000000001)].
Proof. vm_compute. reflexivity. Qed.

Lemma rsi_within_bounds_witness :
  (1 <= 2)%nat /\
  (forall i v, calculate_rsi sample_closes 2 !! i = Some (Some v) -> 0 <= v <= 100) /\
  (Forall is_Some sample_closes -> forall i, (1 <= i < length sample_closes)%nat ->
     exists v, calculate_rsi sample_closes 2 !! i = Some (Some v) /\ 0 <= v <= 100).
Proof. split; [lia | apply (rsi_within_bounds sample_closes 2); lia]. Defined.

End Indicators.

(** ** Shared vocabulary *)

(** ['buy'] / ['sell'].  The code tests [direction == 'buy'] and treats
    everything else as a sell. *)
Inductive side := Buy | Sell.

Definition opposite (d : side) : side :=
  match d with Buy => Sell | Sell => Buy end.

(** [sub in s] on strings. *)
Definition contains (sub s : string) : bool :=
  match String.index 0 sub s with
  | Some _ => true
  | None => false
  end.

(** A double that may be infinite or NaN: [float('inf')], [-float('inf')]
    and the outcome of a numpy division by zero. *)
Inductive xnum := Fin (q : Q) | PInf | NInf | NaN.

Module X.

(** [a / b] on numpy doubles: a zero divisor gives NaN or an infinity (with
    a warning), never an exception. *)
Definition div (a b : Q) : xnum :=
  if Qeq_bool b 0 then
    if Qeq_bool a 0 then NaN else if Py.ltb 0 a then PInf else NInf
  else Fin (a / b).

Definition abs (x : xnum) : xnum :=
  match x with
  | Fin q => Fin (Qabs q)
  | PInf | NInf => PInf
  | NaN => NaN
  end.

(** [x > y]; false as soon as an operand is NaN. *)
Definition gtb (x y : xnum) : bool :=
  match x, y with
  | NaN, _ | _, NaN => false
  | PInf, PInf => false
  | PInf, _ => true
  | _, PInf => false
  | NInf, _ => false
  | Fin _, NInf => true
  | Fin a, Fin b => Py.ltb b a
  end.

(** Equality of values: [Fin] up to equality of rationals. *)
Definition eq (x y : xnum) : Prop :=
  match x, y with
  | Fin a, Fin b => a == b
  | PInf, PInf | NInf, NInf | NaN, NaN => True
  | _, _ => False
  end.

(** [x <= y] as a proposition, for values that are not NaN. *)
Definition le (x y : xnum) : Prop :=
  match x, y with
  | NaN, _ | _, NaN => False
  | NInf, _ => True
  | _, PInf => True
  | Fin a, Fin b => a <= b
  | _, _ => False
  end.

Definition is_nan (x : xnum) : bool :=
  match x with NaN => true | _ => false end.

(** [abs(a / b)] is [|a| / |b|], also when [b] is zero. *)
Lemma abs_div a b : eq (abs (div a b)) (div (Qabs a) (Qabs b)).
Proof.
  unfold div.
  destruct (Qeq_bool b 0) eqn:Eb.
  - apply Qeq_bool_eq in Eb.
    assert (Hb : Qeq_bool (Qabs b) 0 = true).
    { apply Qeq_bool_iff. rewrite Eb. reflexivity. }
    rewrite Hb. destruct (Qeq_bool a 0) eqn:Ea.
    + apply Qeq_bool_eq in Ea.
      assert (Ha : Qeq_bool (Qabs a) 0 = true).
      { apply Qeq_bool_iff. rewrite Ea. reflexivity. }
      rewrite Ha. exact I.
    + apply Qeq_bool_neq in Ea.
      assert (Hpos : 0 < Qabs a).
      { destruct (Qlt_le_dec 0 (Qabs a)) as [H|H]; [exact H|].
        exfalso. apply Ea. revert H. apply Qabs_case; intros; lra. }
      assert (Ha : Qeq_bool (Qabs a) 0 = false).
      { apply not_true_iff_false. intros H. apply Qeq_bool_eq in H. lra. }
      rewrite Ha. apply Py.ltb_lt in Hpos. rewrite Hpos.
      destruct (Py.ltb 0 a); exact I.
  - apply Qeq_bool_neq in Eb.
    assert (Hb : Qeq_bool (Qabs b) 0 = false).
    { apply not_true_iff_false. intros H. apply Qeq_bool_eq in H.
      apply Eb. revert H. apply Qabs_case; intros; lra. }
    rewrite Hb. cbn [abs eq]. unfold Qdiv. now rewrite Qabs_Qmult, Qabs_Qinv.
Qed.

(** Order facts used by the grid search. *)

Lemma le_refl x : is_nan x = false -> le x x.
Proof. destruct x; simpl; intros; try exact I; try discriminate. apply Qle_refl. Qed.

Lemma gtb_not_nan x y : gtb x y = true -> is_nan x = false /\ is_nan y = false.
Proof. destruct x, y; simpl; intros; try discriminate; auto. Qed.

Lemma gtb_le x y : gtb x y = true -> le y x.
Proof.
  destruct x, y; simpl; intros H; try discriminate; try exact I.
  apply Py.ltb_lt in H. now apply Qlt_le_weak.
Qed.

Lemma not_gtb_le x y :
  gtb x y = false -> is_nan x = false -> is_nan y = false -> le x y.
Proof.
  destruct x, y; simpl; intros H Hx Hy; try discriminate; try exact I.
  now apply Py.ltb_ge in H.
Qed.

Lemma le_gtb_trans t b s : le t b -> gtb s b = true -> gtb s t = true.
Proof.
  destruct t, b, s; simpl; intros H1 H2; try discriminate; try tauto.
  apply Py.ltb_lt in H2. apply Py.ltb_lt. lra.
Qed.

Lemma le_trans x y z : le x y -> le y z -> le x z.
Proof.
  destruct x, y, z; simpl; intros H1 H2; try tauto. lra.
Qed.

Lemma not_gtb_NInf x : gtb x NInf = false -> is_nan x = false -> x = NInf.
Proof. destruct x; simpl; intros; try discriminate; reflexivity. Qed.

End X.

(** ** Winners and losers of a trade log

    Both report functions split the log by [pnl > 0] and [pnl <= 0]. *)

Module TradeLog.

Section Split.

Context {A : Type} (pnl : A -> Q).

Lemma no_losers_all_winners (l : list A) :
  List.filter (fun t => Py.leb (pnl t) 0) l = [] ->
  List.filter (fun t => Py.ltb 0 (pnl t)) l = l.
Proof.
  induction l as [|t l IH]; simpl; [reflexivity|].
  destruct (Py.leb (pnl t) 0) eqn:E; [discriminate|].
  intros H. apply Py.leb_gt, Py.ltb_lt in E. rewrite E. f_equal. auto.
Qed.

Lemma winners_positive (l : list A) :
  Forall (fun v => 0 < v) (pnl <$> List.filter (fun t => Py.ltb 0 (pnl t)) l).
Proof.
  induction l as [|t l IH]; simpl; [constructor|].
  destruct (Py.ltb 0 (pnl t)) eqn:E; [|exact IH].
  rewrite fmap_cons. constructor; [now apply Py.ltb_lt | exact IH].
Qed.

Lemma fold_sum_pos (xs : list Q) : forall acc,
  0 <= acc -> Forall (fun v => 0 < v) xs -> xs <> [] ->
  0 < fold_left Qplus xs acc.
Proof.
  induction xs as [|x xs IH]; intros acc Hacc Hxs Hne; [congruence|].
  inversion Hxs; subst. simpl. destruct xs as [|y xs'].
  - simpl. lra.
  - apply IH; [lra | assumption | discriminate].
Qed.

Lemma mean_pos (xs : list Q) :
  Forall (fun v => 0 < v) xs -> xs <> [] -> 0 < Py.mean xs.
Proof.
  intros Hxs Hne. unfold Py.mean. apply Qlt_shift_div_l.
  - change 0 with (inject_Z 0). rewrite <- Zlt_Qlt.
    destruct xs; [congruence | simpl; lia].
  - rewrite Qmult_0_l. apply fold_sum_pos; [lra | assumption | assumption].
Qed.

(** With winners only, [|avg_win * wins| / |0 * 0|] is plus infinity. *)
Lemma ratio_without_losers (l : list A) :
  l <> [] -> Forall (fun v => 0 < v) (pnl <$> l) ->
  X.div (Qabs (Py.mean (pnl <$> l) * inject_Z (Z.of_nat (length l))))
        (Qabs (0 * inject_Z (Z.of_nat 0)))
  = PInf.
Proof.
  intros Hne Hall.
  assert (Hm : 0 < Py.mean (pnl <$> l)).
  { apply mean_pos; [exact Hall|]. destruct l; [congruence | discriminate]. }
  assert (Hn : 0 < inject_Z (Z.of_nat (length l))).
  { change 0 with (inject_Z 0). rewrite <- Zlt_Qlt.
    destruct l; [congruence | simpl; lia]. }
  assert (Hprod : 0 < Py.mean (pnl <$> l) * inject_Z (Z.of_nat (length l))).
  { apply Qmult_lt_0_compat; assumption. }
  unfold X.div.
  assert (H0 : Qeq_bool (Qabs (0 * inject_Z (Z.of_nat 0))) 0 = true) by reflexivity.
  rewrite H0.
  assert (Hpos : 0 < Qabs (Py.mean (pnl <$> l) * inject_Z (Z.of_nat (length l)))).
  { rewrite Qabs_pos; [exact Hprod | now apply Qlt_le_weak]. }
  assert (H1 : Qeq_bool (Qabs (Py.mean (pnl <$> l) * inject_Z (Z.of_nat (length l)))) 0
               = false).
  { apply not_true_iff_false. intros H. apply Qeq_bool_eq in H. lra. }
  rewrite H1. apply Py.ltb_lt in Hpos. now rewrite Hpos.
Qed.

(** The profit factor as both report functions compute it, against the
    formula [|avg_win * wins| / |avg_loss * losses|]. *)
Lemma profit_factor_formula (l : list A) :
  l <> [] ->
  let winning := List.filter (fun t => Py.ltb 0 (pnl t)) l in
  let losing := List.filter (fun t => Py.leb (pnl t) 0) l in
  let a_win := match winning with
               | [] => 0
               | _ => Py.mean (pnl <$> winning)
               end in
  let a_loss := match losing with
                | [] => 0
                | _ => Py.mean ((fun t => Qabs (pnl t)) <$> losing)
                end in
  let pf := match losing with
            | [] => PInf
            | _ => X.abs (X.div (a_win * inject_Z (Z.of_nat (length winning)))
                                (a_loss * inject_Z (Z.of_nat (length losing))))
            end in
  X.eq pf (X.div (Qabs (a_win * inject_Z (Z.of_nat (length winning))))
                 (Qabs (a_loss * inject_Z (Z.of_nat (length losing))))) /\
  (length losing = 0%nat -> pf = PInf).
Proof.
  intros Hne. cbv zeta.
  destruct (List.filter (fun t => Py.leb (pnl t) 0) l) as [|x losing] eqn:EL.
  - split; [|reflexivity].
    rewrite (no_losers_all_winners l EL).
    pose proof (winners_positive l) as Hw. rewrite (no_losers_all_winners l EL) in Hw.
    destruct l as [|t l']; [congruence|].
    pose proof (ratio_without_losers (t :: l') ltac:(discriminate) Hw) as HR.
    change (length (@nil A)) with 0%nat. rewrite HR. exact I.
  - split; [apply X.abs_div | discriminate].
Qed.

End Split.

End TradeLog.

(** ** [core/risk_manager.py]: [RiskManager.calculate_position_size] *)

Module RiskManager.

(** What the call reads from the MetaTrader5 terminal.  Every query can
    come back [None]. *)
Record account := { equity : Q }.
Record tick := { ask : Q; bid : Q }.
Record symbol_information := { trade_contract_size : Q }.

Record mt5 := {
  account_info : option account;
  symbol_info_tick : string -> option tick;
  symbol_info : string -> option symbol_information
}.

Definition min_lot : Q := 1 # 100.
Definition max_lot : Q := 5.

(** The instrument-dependent branch of the function. *)
Definition risk_per_lot (symbol : string) (distance contract_size : Q) : Q :=
  if contains "XAU" symbol || contains "XAG" symbol then
    (distance / (1 # 100)) * 1
  else if contains "USOIL" symbol then
    distance * contract_size
  else
    distance * contract_size.

(** The body of the [try] block.  [None] is an exception raised inside it:
    [mt5.symbol_info(symbol)] is [None] and its attribute is read. *)
Definition position_size_try (t : mt5) (symbol : string) (stop_loss_price : Q)
    (side : side) (risk_percent : Q) : option Q :=
  match account_info t with
  | None => Some (1 # 100)
  | Some acct =>
      let risk_amount := equity acct * (risk_percent / 100) in
      match symbol_info_tick t symbol with
      | None => Some (1 # 100)
      | Some tk =>
          let price := match side with Buy => ask tk | Sell => bid tk end in
          let distance := Qabs (price - stop_loss_price) in
          if Py.leb distance 0 then Some (1 # 100)
          else
            info ← symbol_info t symbol;
            let contract_size := trade_contract_size info in
            let rpl := risk_per_lot symbol distance contract_size in
            if Py.leb rpl 0 then Some (1 # 100)
            else
              let lots := Py.round2 (risk_amount / rpl) in
              Some (Py.max min_lot (Py.min max_lot lots))
      end
  end.

(** [except Exception: return 0.01] *)
Definition calculate_position_size (t : mt5) (symbol : string)
    (stop_loss_price : Q) (side : side) (risk_percent : Q) : Q :=
  default (1 # 100) (position_size_try t symbol stop_loss_price side risk_percent).

(** The stop distance the function computes, when a tick is available. *)
Definition stop_distance (tk : tick) (side : side) (stop_loss_price : Q) : Q :=
  Qabs ((match side with Buy => ask tk | Sell => bid tk end) - stop_loss_price).

Lemma position_size_in_range t symbol sl side risk :
  min_lot <= calculate_position_size t symbol sl side risk <= max_lot.
Proof.
  assert (Hmin : min_lot <= 1 # 100 <= max_lot) by (unfold min_lot, max_lot; lra).
  unfold calculate_position_size, position_size_try.
  destruct (account_info t); simpl; [|exact Hmin].
  destruct (symbol_info_tick t symbol); simpl; [|exact Hmin].
  destruct (Py.leb _ 0); simpl; [exact Hmin|].
  destruct (symbol_info t symbol); simpl; [|exact Hmin].
  destruct (Py.leb _ 0); simpl; [exact Hmin|].
  apply Py.clamp_bounds. unfold min_lot, max_lot; lra.
Qed.

Lemma position_size_unavailable t symbol sl side risk :
  account_info t = None \/ symbol_info_tick t symbol = None \/
  symbol_info t symbol = None ->
  calculate_position_size t symbol sl side risk = min_lot.
Proof.
  unfold calculate_position_size, position_size_try, min_lot.
  intros H. destruct (account_info t); simpl; [|reflexivity].
  destruct (symbol_info_tick t symbol); simpl; [|reflexivity].
  destruct (Py.leb _ 0); simpl; [reflexivity|].
  destruct (symbol_info t symbol); simpl; [|reflexivity].
  destruct H as [H|[H|H]]; discriminate.
Qed.

Lemma position_size_no_risk t symbol sl side risk acct tk info :
  account_info t = Some acct -> symbol_info_tick t symbol = Some tk ->
  symbol_info t symbol = Some info ->
  risk_per_lot symbol (stop_distance tk side sl) (trade_contract_size info) <= 0 ->
  calculate_position_size t symbol sl side risk = min_lot.
Proof.
  unfold calculate_position_size, position_size_try, stop_distance, min_lot.
  intros -> -> -> H. apply Py.leb_le in H.
  destruct (Py.leb (Qabs _) 0); [reflexivity|].
  cbn [mbind option_bind]. now rewrite H.
Qed.

Lemma position_size_zero_distance t symbol sl side risk tk :
  symbol_info_tick t symbol = Some tk -> stop_distance tk side sl <= 0 ->
  calculate_position_size t symbol sl side risk = min_lot.
Proof.
  unfold calculate_position_size, position_size_try, stop_distance, min_lot.
  intros -> H. apply Py.leb_le in H.
  destruct (account_info t); [|reflexivity]. now rewrite H.
Qed.

End RiskManager.

(** ** [strategies/exit_strategies.py] *)

Module ExitStrategies.

(** The position dict as the exit rules use it.  ['sl_price'] is read with
    [.get] and may be absent; the dynamically named ['taken_<level>'] keys
    are the map [flags]. *)
Record position := {
  direction : side;
  entry_price : Q;
  sl_price : option Q;
  flags : gmap string bool
}.

(** *** [trailing_stop_atr] *)

(** For a sell the missing stop defaults to [float('inf')], and
    [min(new_sl, inf)] is [new_sl]. *)
Definition trailing_stop_atr (current_price : Q) (pos : position)
    (atr_value multiplier : Q) : Q :=
  match direction pos with
  | Buy =>
      let new_sl := current_price - (atr_value * multiplier) in
      let current_sl := default 0 (sl_price pos) in
      Py.max new_sl current_sl
  | Sell =>
      let new_sl := current_price + (atr_value * multiplier) in
      match sl_price pos with
      | Some current_sl => Py.min new_sl current_sl
      | None => new_sl
      end
  end.

(** The default [multiplier = 1.5]. *)
Definition default_multiplier : Q := 15 # 10.

(** C4. The trailing stop only tightens.  For a buy the result is the
    maximum of the new stop [price - ATR * multiplier] and the current stop
    (0 when the dict has none), so it is never below the current stop; for a
    sell it is the minimum of [price + ATR * multiplier] and the current
    stop, so it is never above it (with no current stop, the new stop). *)
Theorem trailing_stop_only_tightens (current_price : Q) (pos : position)
    (atr_value multiplier : Q) :
  let result := trailing_stop_atr current_price pos atr_value multiplier in
  match direction pos with
  | Buy =>
      let new_sl := current_price - atr_value * multiplier in
      let current_sl := default 0 (sl_price pos) in
      result == Qmax new_sl current_sl /\ current_sl <= result /\ new_sl <= result
  | Sell =>
      let new_sl := current_price + atr_value * multiplier in
      match sl_price pos with
      | Some current_sl =>
          result == Qmin new_sl current_sl /\ result <= current_sl /\ result <= new_sl
      | None => result = new_sl
      end
  end.
Proof.
  unfold trailing_stop_atr. destruct (direction pos); cbv zeta.
  - rewrite Py.max_spec. split; [reflexivity|]. split.
    + apply Q.le_max_r.
    + apply Q.le_max_l.
  - destruct (sl_price pos) as [c|]; [|reflexivity].
    rewrite Py.min_spec. split; [reflexivity|]. split.
    + apply Q.le_min_r.
    + apply Q.le_min_l.
Qed.

(** A long position at 1800 with its stop at 1790: a price of 1810 with
    ATR 4 raises the stop to 1804, a fall back to 1795 leaves it there. *)
Example trailing_stop_long :
  let pos := {| direction := Buy; entry_price := 1800;
                sl_price := Some 1790; flags := ∅ |} in
  trailing_stop_atr 1810 pos 4 default_multiplier == 1804 /\
  trailing_stop_atr 1795 {| direction := Buy; entry_price := 1800;
                            sl_price := Some 1804; flags := ∅ |} 4 default_multiplier
    == 1804.
Proof. split; vm_compute; reflexivity. Qed.

(** *** [partial_profit_taking] *)

Section PartialProfit.

(** How an f-string prints the number [level_pct]. *)
Variable float_str : Q -> string.

Definition level_key (level_pct : Q) : string := "taken_" +:+ float_str level_pct.

(** [position.get(level_key, False)] *)
Definition taken (pos : position) (level_pct : Q) : bool :=
  default false (flags pos !! level_key level_pct).

(** [position[level_key] = True] *)
Definition mark_taken (pos : position) (level_pct : Q) : position :=
  {| direction := direction pos;
     entry_price := entry_price pos;
     sl_price := sl_price pos;
     flags := <[level_key level_pct := true]> (flags pos) |}.

(** The profit in percent; [None] is the [ZeroDivisionError] of a zero
    entry price. *)
Definition profit_pct (pos : position) (current_price : Q) : option Q :=
  if Qeq_bool (entry_price pos) 0 then None
  else Some
    match direction pos with
    | Buy => (current_price - entry_price pos) / entry_price pos * 100
    | Sell => (entry_price pos - current_price) / entry_price pos * 100
    end.

(** The [for] loop: the first level that is reached and not yet taken. *)
Fixpoint first_level (pos : position) (profit : Q) (levels : list (Q * Q))
    : option (Q * Q) :=
  match levels with
  | [] => None
  | (level_pct, close_pct) :: rest =>
      if Py.leb level_pct profit && negb (taken pos level_pct)
      then Some (level_pct, close_pct)
      else first_level pos profit rest
  end.

(** The level a call signals, if any. *)
Definition signalled (pos : position) (current_price : Q)
    (levels : list (Q * Q)) : option (Q * Q) :=
  profit ← profit_pct pos current_price; first_level pos profit levels.

(** The function: the returned fraction and the dict as the call leaves it;
    [None] when it raises (the dict is then untouched). *)
Definition partial_profit_taking (pos : position) (current_price : Q)
    (levels : list (Q * Q)) : option (Q * position) :=
  profit ← profit_pct pos current_price;
  Some match first_level pos profit levels with
       | Some (level_pct, close_pct) => (close_pct, mark_taken pos level_pct)
       | None => (0, pos)
       end.

(** A position's life: successive calls on the one dict.  Each call gives
    the current price and the levels; the result lists the levels
    signalled, in order. *)
Fixpoint signals (pos : position) (calls : list (Q * list (Q * Q)))
    : list (Q * Q) :=
  match calls with
  | [] => []
  | (current_price, levels) :: rest =>
      match partial_profit_taking pos current_price levels with
      | None => signals pos rest
      | Some (_, pos') =>
          match signalled pos current_price levels with
          | Some lc => lc :: signals pos' rest
          | None => signals pos' rest
          end
      end
  end.

(** *** Facts: a level fires at most once *)

(** The flag stored under a key. *)
Definition key_taken (pos : position) (k : string) : bool :=
  default false (flags pos !! k).

Lemma mark_taken_same pos l : key_taken (mark_taken pos l) (level_key l) = true.
Proof. unfold key_taken, mark_taken; simpl. now rewrite lookup_insert_eq. Qed.

Lemma mark_taken_mono pos l k :
  key_taken pos k = true -> key_taken (mark_taken pos l) k = true.
Proof.
  unfold key_taken, mark_taken; simpl. intros H.
  destruct (decide (level_key l = k)) as [<-|Hne].
  - now rewrite lookup_insert_eq.
  - now rewrite lookup_insert_ne.
Qed.

Lemma first_level_Some pos profit levels l c :
  first_level pos profit levels = Some (l, c) ->
  key_taken pos (level_key l) = false /\ l <= profit /\ In (l, c) levels.
Proof.
  induction levels as [|[l' c'] rest IH]; simpl; [discriminate|].
  destruct (Py.leb l' profit && negb (taken pos l')) eqn:E.
  - intros [= -> ->]. apply andb_true_iff in E as [E1 E2].
    apply negb_true_iff in E2. apply Py.leb_le in E1. auto.
  - intros H. destruct (IH H) as (? & ? & ?). auto.
Qed.

(** What a call does to the dict. *)
Lemma partial_profit_taking_step pos price levels c pos' :
  partial_profit_taking pos price levels = Some (c, pos') ->
  match signalled pos price levels with
  | Some (l, c') => c = c' /\ pos' = mark_taken pos l /\
                    key_taken pos (level_key l) = false
  | None => c = 0 /\ pos' = pos
  end.
Proof.
  unfold partial_profit_taking, signalled.
  destruct (profit_pct pos price) as [profit|]; simpl; [|discriminate].
  destruct (first_level pos profit levels) as [[l c']|] eqn:E.
  - intros [= <- <-]. apply first_level_Some in E as (? & _ & _). auto.
  - intros [= <- <-]. auto.
Qed.

(** Once the flag of a key is set, no later call signals a level of that
    key, whatever the price. *)
Lemma signals_skip_taken calls : forall pos k,
  key_taken pos k = true ->
  ~ In k (level_key ∘ fst <$> signals pos calls).
Proof.
  induction calls as [|[price levels] rest IH]; intros pos k Hk; simpl; [tauto|].
  destruct (partial_profit_taking pos price levels) as [[c pos']|] eqn:E;
    [|now apply IH].
  apply partial_profit_taking_step in E.
  destruct (signalled pos price levels) as [[l c']|].
  - destruct E as (_ & -> & Hl). simpl. intros [Heq|Hin].
    + rewrite Heq in Hl. congruence.
    + revert Hin. apply IH. now apply mark_taken_mono.
  - destruct E as (_ & ->). now apply IH.
Qed.

Lemma signals_NoDup calls : forall pos,
  NoDup (level_key ∘ fst <$> signals pos calls).
Proof.
  induction calls as [|[price levels] rest IH]; intros pos; simpl; [constructor|].
  destruct (partial_profit_taking pos price levels) as [[c pos']|] eqn:E;
    [|apply IH].
  apply partial_profit_taking_step in E.
  destruct (signalled pos price levels) as [[l c']|].
  - destruct E as (_ & -> & _). simpl. constructor; [|apply IH].
    rewrite list_elem_of_In. apply signals_skip_taken, mark_taken_same.
  - apply IH.
Qed.

(** C5. Over the life of a position every level key is signalled at most
    once: the keys of the levels signalled by any sequence of calls are
    pairwise distinct.  A call that signals a level returns its [closePct]
    and sets its flag; with the flag set, no later call signals that level,
    at whatever price. *)
Theorem partial_profit_once_per_level (pos : position)
    (calls : list (Q * list (Q * Q))) :
  NoDup (level_key ∘ fst <$> signals pos calls) /\
  (forall price levels l c,
     signalled pos price levels = Some (l, c) ->
     exists pos',
       partial_profit_taking pos price levels = Some (c, pos') /\
       taken pos' l = true /\
       forall later, ~ In (level_key l) (level_key ∘ fst <$> signals pos' later)) /\
  (forall l, taken pos l = true ->
     forall price levels c, signalled pos price levels <> Some (l, c)).
Proof.
  split; [apply signals_NoDup|]. split.
  - intros price levels l c Hs. unfold partial_profit_taking.
    unfold signalled in Hs.
    destruct (profit_pct pos price) as [profit|]; simpl in *; [|discriminate].
    rewrite Hs. exists (mark_taken pos l). split; [reflexivity|].
    split; [apply mark_taken_same|].
    intros later. apply signals_skip_taken, mark_taken_same.
  - intros l Hl price levels c Hs. unfold signalled in Hs.
    destruct (profit_pct pos price) as [profit|]; simpl in Hs; [|discriminate].
    apply first_level_Some in Hs as (Hn & _). unfold taken in Hl.
    unfold key_taken in Hn. congruence.
Qed.

End PartialProfit.

(** The gold levels [(1.0, 0.3), (2.0, 0.3), (3.0, 0.4)] on a long position
    entered at 1800.  The price passes 1 %, hovers, passes 2 %, falls back
    and passes 1 % again: two signals, one per level. *)
Definition print_level (q : Q) : string :=
  if Qeq_bool q 1 then "1.0" else if Qeq_bool q 2 then "2.0" else "3.0".

Definition gold_levels : list (Q * Q) := [(1, 3 # 10); (2, 3 # 10); (3, 4 # 10)].

Definition long_1800 : position :=
  {| direction := Buy; entry_price := 1800; sl_price := Some 1790; flags := ∅ |}.

Example gold_levels_fire_once :
  signals print_level long_1800
    [(1819, gold_levels); (1820, gold_levels); (1840, gold_levels);
     (1810, gold_levels); (1825, gold_levels)]
  = [(1, 3 # 10); (2, 3 # 10)].
Proof. vm_compute. reflexivity. Qed.

End ExitStrategies.

(** ** [BacktestEngine.calculate_drawdown] *)

Module Drawdown.

(** The returned dict. *)
Record t := { max_drawdown : Q; max_drawdown_pct : Q }.

(** The [for] loop over the curve, on Python floats as the signature has
    it; [None] is the [ZeroDivisionError] of [drawdown / peak] at a zero
    peak. *)
Fixpoint scan (peak max_dd max_pct : Q) (curve : list Q) : option t :=
  match curve with
  | [] => Some {| max_drawdown := max_dd; max_drawdown_pct := max_pct |}
  | equity :: rest =>
      let peak := if Py.ltb peak equity then equity else peak in
      let drawdown := peak - equity in
      if Qeq_bool peak 0 then None
      else
        let drawdown_pct := (drawdown / peak) * 100 in
        if Py.ltb max_dd drawdown
        then scan peak drawdown drawdown_pct rest
        else scan peak max_dd max_pct rest
  end.

(** [None] is also the [IndexError] of [equity_curve[0]] on an empty
    curve. *)
Definition calculate_drawdown (equity_curve : list Q) : option t :=
  match equity_curve with
  | [] => None
  | first :: _ => scan first 0 0 equity_curve
  end.

(** What holds of the loop's variables once the points [done] are behind. *)
Record tracked (done : list Q) (peak max_dd max_pct : Q) : Prop := {
  peak_positive : 0 < peak;
  peak_seen : exists i, done !! i = Some peak;
  peak_above : forall e, In e done -> e <= peak;
  dd_nonneg : 0 <= max_dd;
  pct_nonneg : 0 <= max_pct;
  dd_bounds : forall i j ei ej, (i <= j)%nat ->
    done !! i = Some ei -> done !! j = Some ej -> ei - ej <= max_dd;
  dd_reached : max_dd = 0 \/
    exists i j ei ej, (i <= j)%nat /\
      done !! i = Some ei /\ done !! j = Some ej /\ max_dd = ei - ej
}.

Lemma tracked_step done peak max_dd max_pct equity :
  tracked done peak max_dd max_pct ->
  let peak' := if Py.ltb peak equity then equity else peak in
  let drawdown := peak' - equity in
  Qeq_bool peak' 0 = false /\
  (if Py.ltb max_dd drawdown
   then tracked (done ++ [equity]) peak' drawdown ((drawdown / peak') * 100)
   else tracked (done ++ [equity]) peak' max_dd max_pct).
Proof.
  intros [Hpos (ip & Hip) Habove Hdd Hpct Hbounds Hreached] peak' drawdown.
  assert (Hpk : peak <= peak' /\ equity <= peak').
  { subst peak'. destruct (Py.ltb peak equity) eqn:E.
    - apply Py.ltb_lt in E. split; lra.
    - apply Py.ltb_ge in E. split; lra. }
  destruct Hpk as [Hpk1 Hpk2].
  assert (Hpos' : 0 < peak') by lra.
  assert (Hseen' : exists i, (done ++ [equity]) !! i = Some peak').
  { subst peak'. destruct (Py.ltb peak equity).
    - exists (length done). now rewrite lookup_app_r, Nat.sub_diag by lia.
    - exists ip. rewrite lookup_app_l; [exact Hip|]. eapply lookup_lt_Some, Hip. }
  assert (Habove' : forall e, In e (done ++ [equity]) -> e <= peak').
  { intros e He. apply in_app_or in He as [He|[<-|[]]]; [|exact Hpk2].
    specialize (Habove e He). lra. }
  assert (Hnn : 0 <= drawdown) by (subst drawdown; lra).
  assert (Hnew : forall i ei, (done ++ [equity]) !! i = Some ei -> ei - equity <= drawdown).
  { intros i ei Hi. subst drawdown.
    assert (ei <= peak'); [|lra]. apply Habove'.
    apply list_elem_of_In, list_elem_of_lookup. eauto. }
  assert (Hpairs : forall m, max_dd <= m -> drawdown <= m ->
            forall i j ei ej, (i <= j)%nat ->
              (done ++ [equity]) !! i = Some ei -> (done ++ [equity]) !! j = Some ej ->
              ei - ej <= m).
  { intros m Hm1 Hm2 i j ei ej Hij Hi Hj.
    destruct (decide (j < length done)%nat) as [Hlt|Hge].
    - rewrite lookup_app_l in Hi, Hj by lia.
      specialize (Hbounds i j ei ej Hij Hi Hj). lra.
    - assert (j = length done).
      { apply lookup_lt_Some in Hj. rewrite length_app in Hj. simpl in Hj. lia. }
      subst j. rewrite lookup_app_r, Nat.sub_diag in Hj by lia. injection Hj as <-.
      specialize (Hnew i ei Hi). lra. }
  split.
  { apply not_true_iff_false. intros H. apply Qeq_bool_eq in H. lra. }
  destruct (Py.ltb max_dd drawdown) eqn:E.
  - apply Py.ltb_lt in E. constructor; try assumption.
    + assert (0 <= drawdown / peak') by (apply Qle_shift_div_l; lra). lra.
    + apply Hpairs; lra.
    + right. destruct Hseen' as (i & Hi). exists i, (length done), peak', equity.
      split; [apply lookup_lt_Some in Hi; rewrite length_app in Hi; simpl in Hi; lia|].
      split; [exact Hi|].
      split; [now rewrite lookup_app_r, Nat.sub_diag by lia | reflexivity].
  - apply Py.ltb_ge in E. constructor; try assumption.
    + apply Hpairs; lra.
    + destruct Hreached as [H0 | (i & j & ei & ej & Hij & Hi & Hj & Heq)];
        [left; exact H0|].
      right. exists i, j, ei, ej. split; [exact Hij|].
      rewrite !lookup_app_l by (eapply lookup_lt_Some; eassumption). auto.
Qed.

Lemma scan_tracked rest : forall done peak max_dd max_pct,
  tracked done peak max_dd max_pct ->
  exists d peak', scan peak max_dd max_pct rest = Some d /\
    tracked (done ++ rest) peak' (max_drawdown d) (max_drawdown_pct d).
Proof.
  induction rest as [|e rest IH]; intros done peak max_dd max_pct H; cbn [scan].
  - rewrite app_nil_r. eauto.
  - destruct (tracked_step done peak max_dd max_pct e H) as [Hz Hcase].
    cbv zeta in Hz, Hcase. rewrite Hz.
    replace (done ++ e :: rest) with ((done ++ [e]) ++ rest)
      by now rewrite <- app_assoc.
    destruct (Py.ltb max_dd _); eapply IH; exact Hcase.
Qed.

Lemma first_point_tracked first : 0 < first -> tracked [first] first 0 0.
Proof.
  intros H. constructor; try lra.
  - now exists 0%nat.
  - intros e [<-|[]]. lra.
  - intros [|i] [|j] ei ej _ Hi Hj; try discriminate;
      injection Hi as <-; injection Hj as <-. lra.
  - now left.
Qed.

(** A curve that starts at a positive equity has its drawdown; a curve
    that starts at zero divides by zero on its first point. *)
Lemma calculate_drawdown_first first rest :
  0 < first -> calculate_drawdown (first :: rest) = scan first 0 0 rest.
Proof.
  intros Hpos. unfold calculate_drawdown. cbn [scan]. rewrite Py.ltb_irrefl.
  assert (Hz : Qeq_bool first 0 = false).
  { apply not_true_iff_false. intros H. apply Qeq_bool_eq in H. lra. }
  rewrite Hz.
  assert (Hnot : Py.ltb 0 (first - first) = false) by (apply Py.ltb_ge; lra).
  now rewrite Hnot.
Qed.

Lemma calculate_drawdown_defined first rest :
  0 < first -> exists d, calculate_drawdown (first :: rest) = Some d.
Proof.
  intros Hpos. rewrite (calculate_drawdown_first first rest Hpos).
  destruct (scan_tracked rest [first] first 0 0 (first_point_tracked first Hpos))
    as (d & _ & Hd & _).
  now exists d.
Qed.

Lemma calculate_drawdown_zero first rest :
  first == 0 -> calculate_drawdown (first :: rest) = None.
Proof.
  intros H. unfold calculate_drawdown. cbn [scan]. rewrite Py.ltb_irrefl.
  apply Qeq_bool_iff in H. now rewrite H.
Qed.

(** X5. On a curve that starts at a positive equity the computation never
    divides by zero, and its maximum drawdown is the largest fall from a
    point of the curve to a later one: non-negative, at least [e_i - e_j]
    for every [i <= j], and either zero or equal to one such fall.  The
    percentage returned with it is non-negative.  The empty curve
    raises. *)
Theorem max_drawdown_is_largest_fall (first : Q) (rest : list Q) :
  0 < first ->
  calculate_drawdown [] = None /\
  exists d, calculate_drawdown (first :: rest) = Some d /\
    0 <= max_drawdown d /\ 0 <= max_drawdown_pct d /\
    (forall i j ei ej, (i <= j)%nat ->
       (first :: rest) !! i = Some ei -> (first :: rest) !! j = Some ej ->
       ei - ej <= max_drawdown d) /\
    (max_drawdown d = 0 \/
     exists i j ei ej, (i <= j)%nat /\
       (first :: rest) !! i = Some ei /\ (first :: rest) !! j = Some ej /\
       max_drawdown d = ei - ej).
Proof.
  intros Hpos. split; [reflexivity|].
  assert (Hfirst : calculate_drawdown (first :: rest) = scan first 0 0 rest).
  { unfold calculate_drawdown. cbn [scan]. rewrite Py.ltb_irrefl.
    assert (Hz : Qeq_bool first 0 = false).
    { apply not_true_iff_false. intros H. apply Qeq_bool_eq in H. lra. }
    rewrite Hz.
    assert (Hnot : Py.ltb 0 (first - first) = false) by (apply Py.ltb_ge; lra).
    now rewrite Hnot. }
  destruct (scan_tracked rest [first] first 0 0 (first_point_tracked first Hpos))
    as (d & peak' & Hd & [_ _ _ Hdd Hpct Hbounds Hreached]).
  exists d. rewrite Hfirst. auto 6.
Qed.

Lemma max_drawdown_is_largest_fall_witness :
  0 < 10000 /\
  calculate_drawdown [] = None /\
  exists d, calculate_drawdown [10000; 10049; 9899; 9950] = Some d /\
    0 <= max_drawdown d /\ 0 <= max_drawdown_pct d /\
    (forall i j ei ej, (i <= j)%nat ->
       [10000; 10049; 9899; 9950] !! i = Some ei ->
       [10000; 10049; 9899; 9950] !! j = Some ej ->
       ei - ej <= max_drawdown d) /\
    (max_drawdown d = 0 \/
     exists i j ei ej, (i <= j)%nat /\
       [10000; 10049; 9899; 9950] !! i = Some ei /\
       [10000; 10049; 9899; 9950] !! j = Some ej /\
       max_drawdown d = ei - ej).
Proof.
  split; [lra|]. apply (max_drawdown_is_largest_fall 10000 [10049; 9899; 9950]). lra.
Defined.

Example drawdown_of_gold_run :
  (fun d => (Qred (max_drawdown d), Qred (max_drawdown_pct d)))
    <$> calculate_drawdown [10000; 10000; 10049649 # 1000; 4949649 # 500]
  = Some (150351 # 1000, 5011700 # 3349883).
Proof. vm_compute. reflexivity. Qed.

End Drawdown.

(** ** [backtesting/backtest_engine.py] *)

Module BacktestEngine.

(** One row of the indicator frame: the bar and the columns that
    [calculate_indicators] adds.  [name] is the timestamp of the row, in
    seconds. *)
Record bar := {
  name : Z;
  open : Q; high : Q; low : Q; close : Q;
  tick_volume : Q;
  EMA_fast : option Q; EMA_slow : option Q;
  RSI : option Q; MACD_HIST : option Q; ATR : option Q
}.

(** The keys of the configuration dict that the engine reads.  The two
    keys read with [.get] may be absent. *)
Record config := {
  SYMBOL : string;
  MIN_CONFIRMATIONS : Q;
  RISK_PERCENT : Q;
  MIN_LOT : Q;
  MAX_LOT : Q;
  COMMISSION_PER_LOT : Q;
  SPREAD_SIMULATION : option Q;
  MAX_TRADE_HOURS : option Q
}.

Inductive bias := bull | bear | neutral.

(** The dict returned by [calculate_confirmations]. *)
Module Confirmations.
Record t := { buy : Q; sell : Q; reasons : list string }.
Definition score (c : t) (d : side) : Q :=
  match d with Buy => buy c | Sell => sell c end.
End Confirmations.

(** The return value of [check_exit_conditions]: ['sl'], ['tp'], ['time']. *)
Inductive exit_reason := sl | tp | time.

(** The open position (the dict [self.position]). *)
Module Position.
Record t := {
  entry_time : Z;
  direction : side;
  entry_price : Q;
  sl_price : Q;
  tp_price : Q;
  lots : Q;
  commission : Q;
  entry_index : nat
}.
End Position.

(** A closed trade (the dict [trade_info]). *)
Module Trade.
Record t := {
  entry_time : Z;
  exit_time : Z;
  direction : side;
  entry_price : Q;
  exit_price : Q;
  lots : Q;
  pnl : Q;
  commission : Q;
  reason : exit_reason;
  symbol : string
}.
End Trade.

Record equity_point := { timestamp : Z; equity : Q }.

(** The mutable attributes of the engine object. *)
Record engine := {
  initial_balance : Q;
  current_balance : Q;
  trades : list Trade.t;
  equity_curve : list equity_point;
  position : option Position.t
}.

(** The strategy object: [BaseStrategy] leaves [calculate_confirmations]
    abstract and gives [calculate_sl_tp] a body that subclasses override. *)
Class Strategy (fib_levels daily_levels : Type) := {
  calculate_confirmations :
    list bar -> fib_levels -> daily_levels -> bias -> Confirmations.t;
  calculate_sl_tp : Q -> Q -> side -> Q * Q
}.

(** [BaseStrategy.calculate_sl_tp], with the values of
    [SL_ATR_MULTIPLIER] and [TP_RR] (default [1.5] each). *)
Definition base_calculate_sl_tp (sl_multiplier tp_rr : Q)
    (current_price atr_val : Q) (d : side) : Q * Q :=
  match d with
  | Buy =>
      let sl_price := current_price - sl_multiplier * atr_val in
      let tp_price := current_price + tp_rr * (current_price - sl_price) in
      (sl_price, tp_price)
  | Sell =>
      let sl_price := current_price + sl_multiplier * atr_val in
      let tp_price := current_price - tp_rr * (sl_price - current_price) in
      (sl_price, tp_price)
  end.

(** The report dict, or [{'error': 'No trades executed'}]. *)
Record report := {
  r_initial_balance : Q;
  final_balance : Q;
  total_pnl : Q;
  total_trades : nat;
  winning_trades : nat;
  losing_trades : nat;
  win_rate : Q;
  avg_win : Q;
  avg_loss : Q;
  profit_factor : xnum;
  max_drawdown : Q;
  max_drawdown_pct : Q;
  r_trades : list Trade.t;
  r_equity_curve : list equity_point
}.

Inductive result := Error (msg : string) | Report (r : report).

Section Engine.

Context {fib_levels daily_levels : Type}.
Context (strategy : Strategy fib_levels daily_levels).
Variable cfg : config.

(** [get_fibonacci_levels] and [get_daily_levels] resample the bars seen so
    far by calendar week and day; here they are any functions of those
    bars. *)
Variable get_fibonacci_levels : list bar -> fib_levels * bias.
Variable get_daily_levels : list bar -> daily_levels.

(** The draw [np.random.normal(0, spread / 2)] made when a trade is entered
    at a bar index. *)
Variable slippage : nat -> Q.

(** *** Entry *)

(** The fill price: close, half the spread, and the slippage. *)
Definition fill_price (d : side) (current_bar : bar) (index : nat) : Q :=
  let spread := default (2 # 10000) (SPREAD_SIMULATION cfg) in
  match d with
  | Buy => close current_bar + spread / 2 + slippage index
  | Sell => close current_bar - spread / 2 + slippage index
  end.

(** The stop and target that [enter_trade] asks of the strategy. *)
Definition entry_sl_tp (d : side) (current_bar : bar) : Q * Q :=
  let atr_val := match ATR current_bar with
                 | Some a => a
                 | None => (1 # 10) * close current_bar
                 end in
  calculate_sl_tp (close current_bar) atr_val d.

Definition risk_per_lot (distance : Q) : Q :=
  if contains "XAU" (SYMBOL cfg) || contains "XAG" (SYMBOL cfg) then
    (distance / (1 # 100)) * 1
  else
    let point_value := 1 in
    distance * point_value.

(** The position that [enter_trade] creates; [None] when it returns early
    because the risk per lot is not positive. *)
Definition new_position (balance : Q) (d : side) (current_bar : bar)
    (index : nat) : option Position.t :=
  let '(sl_price, tp_price) := entry_sl_tp d current_bar in
  let fill := fill_price d current_bar index in
  let risk_amount := balance * (RISK_PERCENT cfg / 100) in
  let distance := Qabs (fill - sl_price) in
  let rpl := risk_per_lot distance in
  if Py.leb rpl 0 then None
  else
    let lots := Py.round2 (risk_amount / rpl) in
    let lots := Py.max (MIN_LOT cfg) (Py.min (MAX_LOT cfg) lots) in
    let commission := COMMISSION_PER_LOT cfg * lots in
    Some {| Position.entry_time := name current_bar;
            Position.direction := d;
            Position.entry_price := fill;
            Position.sl_price := sl_price;
            Position.tp_price := tp_price;
            Position.lots := lots;
            Position.commission := commission;
            Position.entry_index := index |}.

Definition set_position (st : engine) (p : option Position.t) : engine :=
  {| initial_balance := initial_balance st;
     current_balance := current_balance st;
     trades := trades st;
     equity_curve := equity_curve st;
     position := p |}.

Definition enter_trade (st : engine) (d : side) (current_bar : bar)
    (index : nat) : engine :=
  match new_position (current_balance st) d current_bar index with
  | Some p => set_position st (Some p)
  | None => st
  end.

(** The scores for the bars seen so far. *)
Definition confirmations_at (previous_bars : list bar) : Confirmations.t :=
  let '(fib, weekly_bias) := get_fibonacci_levels previous_bars in
  let daily := get_daily_levels previous_bars in
  calculate_confirmations previous_bars fib daily weekly_bias.

Definition check_entry_conditions (st : engine) (current_bar : bar)
    (previous_bars : list bar) (index : nat) : engine :=
  let confirmations := confirmations_at previous_bars in
  let min_confirmations := MIN_CONFIRMATIONS cfg in
  if Py.leb min_confirmations (Confirmations.buy confirmations)
     && Py.ltb (Confirmations.sell confirmations) (Confirmations.buy confirmations)
  then enter_trade st Buy current_bar index
  else if Py.leb min_confirmations (Confirmations.sell confirmations)
          && Py.ltb (Confirmations.buy confirmations) (Confirmations.sell confirmations)
  then enter_trade st Sell current_bar index
  else st.

(** *** Exit *)

(** Hours between entry and the current bar. *)
Definition hours_in_trade (p : Position.t) (current_bar : bar) : Q :=
  inject_Z (name current_bar - Position.entry_time p) / 3600.

Definition check_exit_conditions (st : engine) (current_bar : bar)
    : option exit_reason :=
  match position st with
  | None => None
  | Some p =>
      let current_price := close current_bar in
      let hard :=
        match Position.direction p with
        | Buy =>
            if Py.leb current_price (Position.sl_price p) then Some sl
            else if Py.leb (Position.tp_price p) current_price then Some tp
            else None
        | Sell =>
            if Py.leb (Position.sl_price p) current_price then Some sl
            else if Py.leb current_price (Position.tp_price p) then Some tp
            else None
        end in
      match hard with
      | Some r => Some r
      | None =>
          if Py.leb (default 72 (MAX_TRADE_HOURS cfg)) (hours_in_trade p current_bar)
          then Some time
          else None
      end
  end.

(** The trade record that closing position [p] at [current_bar] writes. *)
Definition close_position (p : Position.t) (current_bar : bar)
    (r : exit_reason) : Trade.t :=
  let exit_price := close current_bar in
  let gross :=
    match Position.direction p with
    | Buy => (exit_price - Position.entry_price p) * Position.lots p * 100
    | Sell => (Position.entry_price p - exit_price) * Position.lots p * 100
    end in
  {| Trade.entry_time := Position.entry_time p;
     Trade.exit_time := name current_bar;
     Trade.direction := Position.direction p;
     Trade.entry_price := Position.entry_price p;
     Trade.exit_price := exit_price;
     Trade.lots := Position.lots p;
     Trade.pnl := gross - Position.commission p;
     Trade.commission := Position.commission p;
     Trade.reason := r;
     Trade.symbol := SYMBOL cfg |}.

(** [exit_trade] is only called with a position open. *)
Definition exit_trade (st : engine) (current_bar : bar) (index : nat)
    (r : exit_reason) : engine :=
  match position st with
  | None => st
  | Some p =>
      let trade_info := close_position p current_bar r in
      {| initial_balance := initial_balance st;
         current_balance := current_balance st + Trade.pnl trade_info;
         trades := trades st ++ [trade_info];
         equity_curve := equity_curve st;
         position := None |}
  end.

Definition update_equity_curve (st : engine) (current_bar : bar)
    (index : nat) : engine :=
  {| initial_balance := initial_balance st;
     current_balance := current_balance st;
     trades := trades st;
     equity_curve := equity_curve st ++
       [{| timestamp := name current_bar; equity := current_balance st |}];
     position := position st |}.

(** *** The loop of [run_backtest] *)

(** The exit half of an iteration. *)
Definition exit_step (st : engine) (current_bar : bar) (i : nat) : engine :=
  match position st with
  | Some _ =>
      match check_exit_conditions st current_bar with
      | Some exit_signal => exit_trade st current_bar i exit_signal
      | None => st
      end
  | None => st
  end.

(** The entry half. *)
Definition entry_step (data : list bar) (st : engine) (current_bar : bar)
    (i : nat) : engine :=
  match position st with
  | None => check_entry_conditions st current_bar (take (i + 1) data) i
  | Some _ => st
  end.

(** One iteration of the loop body, for bar [i]. *)
Definition bar_step (data : list bar) (st : engine) (current_bar : bar)
    (i : nat) : engine :=
  let st := exit_step st current_bar i in
  let st := entry_step data st current_bar i in
  update_equity_curve st current_bar i.

Arguments bar_step : simpl never.

(** [for i in range(start, len(data))], over the rows from [start] on. *)
Fixpoint loop (data : list bar) (rows : list bar) (i : nat) (st : engine)
    : engine :=
  match rows with
  | [] => st
  | current_bar :: rows' => loop data rows' (S i) (bar_step data st current_bar i)
  end.

(** The attributes as [run_backtest] resets them; the first equity point
    carries the timestamp of the first row. *)
Definition reset (balance : Q) (first : bar) : engine :=
  {| initial_balance := balance;
     current_balance := balance;
     trades := [];
     equity_curve := [{| timestamp := name first; equity := balance |}];
     position := None |}.

(** *** The report *)

(** [None] is the exception that [calculate_drawdown] raises on a curve
    whose peak is zero. *)
Definition generate_report (st : engine) : option result :=
  match trades st with
  | [] => Some (Error "No trades executed")
  | _ =>
      let winning := List.filter (fun t => Py.ltb 0 (Trade.pnl t)) (trades st) in
      let losing := List.filter (fun t => Py.leb (Trade.pnl t) 0) (trades st) in
      let total := Py.sum (Trade.pnl <$> trades st) in
      let rate := inject_Z (Z.of_nat (length winning))
                  / inject_Z (Z.of_nat (length (trades st))) in
      let a_win := match winning with
                   | [] => 0
                   | _ => Py.mean (Trade.pnl <$> winning)
                   end in
      let a_loss := match losing with
                    | [] => 0
                    | _ => Py.mean ((fun t => Qabs (Trade.pnl t)) <$> losing)
                    end in
      let pf := match losing with
                | [] => PInf
                | _ => X.abs (X.div (a_win * inject_Z (Z.of_nat (length winning)))
                                    (a_loss * inject_Z (Z.of_nat (length losing))))
                end in
      let equity_values := equity <$> equity_curve st in
      match Drawdown.calculate_drawdown equity_values with
      | None => None
      | Some drawdown =>
          Some (Report
            {| r_initial_balance := initial_balance st;
               final_balance := current_balance st;
               total_pnl := total;
               total_trades := length (trades st);
               winning_trades := length winning;
               losing_trades := length losing;
               win_rate := rate;
               avg_win := a_win;
               avg_loss := a_loss;
               profit_factor := pf;
               max_drawdown := Drawdown.max_drawdown drawdown;
               max_drawdown_pct := Drawdown.max_drawdown_pct drawdown;
               r_trades := trades st;
               r_equity_curve := equity_curve st |})
      end
  end.

(** [run_backtest], on the frame that [calculate_indicators] returns.
    [None] is the [IndexError] of [data.index[0]] on an empty frame, or the
    exception of [generate_report]. *)
Definition run_backtest (balance : Q) (data : list bar) : option result :=
  match data with
  | [] => None
  | first :: _ =>
      generate_report (loop data (drop 100 data) 100 (reset balance first))
  end.

(** *** Facts about one iteration *)

Lemma new_position_direction balance d current_bar index p :
  new_position balance d current_bar index = Some p -> Position.direction p = d.
Proof.
  unfold new_position. destruct (entry_sl_tp d current_bar) as [s t].
  destruct (Py.leb _ 0); [discriminate|]. now intros [= <-].
Qed.

Lemma enter_trade_position st d current_bar index p :
  position st = None ->
  position (enter_trade st d current_bar index) = Some p ->
  Position.direction p = d.
Proof.
  intros Hflat. unfold enter_trade.
  destruct (new_position _ d current_bar index) as [q|] eqn:E; simpl.
  - intros [= <-]. eapply new_position_direction, E.
  - rewrite Hflat. discriminate.
Qed.

(** Entering never touches balance, trade log or equity curve. *)
Lemma enter_trade_keeps st d current_bar index :
  let st' := enter_trade st d current_bar index in
  current_balance st' = current_balance st /\ trades st' = trades st /\
  equity_curve st' = equity_curve st /\ initial_balance st' = initial_balance st.
Proof.
  unfold enter_trade. destruct (new_position _ d current_bar index); simpl; auto.
Qed.

Lemma check_entry_keeps st current_bar previous_bars index :
  let st' := check_entry_conditions st current_bar previous_bars index in
  current_balance st' = current_balance st /\ trades st' = trades st /\
  equity_curve st' = equity_curve st /\ initial_balance st' = initial_balance st.
Proof.
  unfold check_entry_conditions.
  destruct (_ && _); [apply enter_trade_keeps|].
  destruct (_ && _); [apply enter_trade_keeps|]. auto.
Qed.

Lemma entry_step_keeps data st current_bar i :
  let st' := entry_step data st current_bar i in
  current_balance st' = current_balance st /\ trades st' = trades st /\
  equity_curve st' = equity_curve st /\ initial_balance st' = initial_balance st.
Proof.
  unfold entry_step. destruct (position st); [auto | apply check_entry_keeps].
Qed.

(** The exit half either leaves the state alone or closes the open
    position for the reason that [check_exit_conditions] gave. *)
Lemma exit_step_cases st current_bar i :
  let st' := exit_step st current_bar i in
  (st' = st /\ (position st = None \/ check_exit_conditions st current_bar = None)) \/
  (exists p r, position st = Some p /\ check_exit_conditions st current_bar = Some r /\
     trades st' = trades st ++ [close_position p current_bar r] /\
     current_balance st' =
       current_balance st + Trade.pnl (close_position p current_bar r) /\
     equity_curve st' = equity_curve st /\
     initial_balance st' = initial_balance st /\ position st' = None).
Proof.
  unfold exit_step. destruct (position st) as [p|] eqn:Hp; [|auto].
  destruct (check_exit_conditions st current_bar) as [r|] eqn:Hr; [|auto].
  right. exists p, r. unfold exit_trade. rewrite Hp. simpl. auto 10.
Qed.

(** One iteration appends one equity point, carrying the balance the
    iteration ends with, and changes the balance only by closing a trade. *)
Lemma bar_step_effect data st current_bar i :
  let st' := bar_step data st current_bar i in
  equity_curve st' = equity_curve st ++
    [{| timestamp := name current_bar; equity := current_balance st' |}] /\
  initial_balance st' = initial_balance st /\
  ((trades st' = trades st /\ current_balance st' = current_balance st /\
    (position st = None \/ check_exit_conditions st current_bar = None)) \/
   (exists p r, position st = Some p /\
      check_exit_conditions st current_bar = Some r /\
      trades st' = trades st ++ [close_position p current_bar r] /\
      current_balance st' =
        current_balance st + Trade.pnl (close_position p current_bar r))).
Proof.
  unfold bar_step; simpl.
  destruct (entry_step_keeps data (exit_step st current_bar i) current_bar i)
    as (Hb & Ht & He & Hi).
  rewrite Hb, Ht, He, Hi.
  destruct (exit_step_cases st current_bar i)
    as [[-> Hn] | (p & r & Hp & Hr & Ht' & Hb' & He' & Hi' & _)].
  - split; [reflexivity|]. split; [reflexivity|]. left. auto.
  - rewrite He', Hi'. split; [reflexivity|]. split; [reflexivity|].
    right. exists p, r. auto.
Qed.

(** *** Facts about the sizing in [enter_trade] *)

(** The stop distance [abs(fill_price - sl_price)]. *)
Definition entry_distance (d : side) (current_bar : bar) (index : nat) : Q :=
  Qabs (fill_price d current_bar index - fst (entry_sl_tp d current_bar)).

Lemma new_position_skips balance d current_bar index :
  risk_per_lot (entry_distance d current_bar index) <= 0 ->
  new_position balance d current_bar index = None.
Proof.
  unfold new_position, entry_distance.
  destruct (entry_sl_tp d current_bar) as [s t]. simpl fst.
  intros H. apply Py.leb_le in H. now rewrite H.
Qed.

Lemma new_position_opens balance d current_bar index :
  0 < risk_per_lot (entry_distance d current_bar index) ->
  exists p, new_position balance d current_bar index = Some p.
Proof.
  unfold new_position, entry_distance.
  destruct (entry_sl_tp d current_bar) as [s t]. simpl fst.
  intros H. apply Py.leb_gt in H. rewrite H. eauto.
Qed.

Lemma new_position_lots_range balance d current_bar index p :
  MIN_LOT cfg <= MAX_LOT cfg ->
  new_position balance d current_bar index = Some p ->
  MIN_LOT cfg <= Position.lots p <= MAX_LOT cfg.
Proof.
  intros Hlots. unfold new_position.
  destruct (entry_sl_tp d current_bar) as [s t].
  destruct (Py.leb _ 0); [discriminate|]. intros [= <-].
  cbn [Position.lots]. now apply Py.clamp_bounds.
Qed.

(** *** Facts about the report *)

Lemma generate_report_profit_factor st r :
  generate_report st = Some (Report r) ->
  X.eq (profit_factor r)
       (X.div (Qabs (avg_win r * inject_Z (Z.of_nat (winning_trades r))))
              (Qabs (avg_loss r * inject_Z (Z.of_nat (losing_trades r))))) /\
  (losing_trades r = 0%nat -> profit_factor r = PInf).
Proof.
  unfold generate_report. destruct (trades st) as [|t l] eqn:Ht; [discriminate|].
  destruct (Drawdown.calculate_drawdown _); [|discriminate].
  intros [= <-]. cbn [profit_factor avg_win avg_loss winning_trades losing_trades].
  apply (TradeLog.profit_factor_formula Trade.pnl (t :: l)). discriminate.
Qed.

(** The split of a log that both reports start from. *)
Definition winners (log : list Trade.t) : list Trade.t :=
  List.filter (fun t => Py.ltb 0 (Trade.pnl t)) log.

Definition losers (log : list Trade.t) : list Trade.t :=
  List.filter (fun t => Py.leb (Trade.pnl t) 0) log.

Lemma winners_only log :
  Forall (fun t => 0 < Trade.pnl t) log -> losers log = [].
Proof.
  unfold losers. induction 1 as [|t l Ht _ IH]; [reflexivity|].
  cbn [List.filter]. assert (E : Py.leb (Trade.pnl t) 0 = false) by now apply Py.leb_gt.
  now rewrite E.
Qed.

(** What a report says of the split of its log. *)
Lemma generate_report_split st r :
  generate_report st = Some (Report r) ->
  trades st <> [] /\
  winning_trades r = length (winners (trades st)) /\
  losing_trades r = length (losers (trades st)) /\
  avg_win r = match winners (trades st) with
              | [] => 0
              | _ => Py.mean (Trade.pnl <$> winners (trades st))
              end /\
  avg_loss r = match losers (trades st) with
               | [] => 0
               | _ => Py.mean ((fun t => Qabs (Trade.pnl t)) <$> losers (trades st))
               end /\
  (losers (trades st) = [] -> profit_factor r = PInf).
Proof.
  unfold generate_report, winners, losers.
  destruct (trades st) as [|t l] eqn:Ht; [discriminate|].
  destruct (Drawdown.calculate_drawdown _); [|discriminate].
  set (W := List.filter (fun t => Py.ltb 0 (Trade.pnl t)) (t :: l)).
  set (L := List.filter (fun t => Py.leb (Trade.pnl t) 0) (t :: l)).
  intros H. injection H as <-.
  cbn [profit_factor avg_win avg_loss winning_trades losing_trades].
  split; [discriminate|]. repeat (split; [reflexivity|]).
  intros H. now rewrite H.
Qed.

(** A non-empty log whose equity curve starts at a positive balance gets
    its report; at a balance of zero the drawdown computation raises. *)
Lemma generate_report_defined st p :
  trades st <> [] -> head (equity_curve st) = Some p -> 0 < equity p ->
  exists r, generate_report st = Some (Report r).
Proof.
  intros Hne Hp Hpos. unfold generate_report.
  destruct (trades st); [congruence|].
  destruct (equity_curve st) as [|p0 curve]; [discriminate|].
  injection Hp as ->. rewrite fmap_cons.
  destruct (Drawdown.calculate_drawdown_defined (equity p) (equity <$> curve) Hpos)
    as (d & ->).
  eauto.
Qed.

Lemma generate_report_raises st p :
  trades st <> [] -> head (equity_curve st) = Some p -> equity p == 0 ->
  generate_report st = None.
Proof.
  intros Hne Hp Hz. unfold generate_report.
  destruct (trades st); [congruence|].
  destruct (equity_curve st) as [|p0 curve]; [discriminate|].
  injection Hp as ->. rewrite fmap_cons.
  now rewrite (Drawdown.calculate_drawdown_zero (equity p) (equity <$> curve) Hz).
Qed.

(** *** Facts about the loop *)

Lemma loop_app data rows1 rows2 : forall i st,
  loop data (rows1 ++ rows2) i st =
  loop data rows2 (i + length rows1) (loop data rows1 i st).
Proof.
  induction rows1 as [|b rows1 IH]; intros i st; simpl.
  - now rewrite Nat.add_0_r.
  - rewrite IH. f_equal. lia.
Qed.

(** The equity points that the loop appends, one per row. *)
Fixpoint recorded (data : list bar) (rows : list bar) (i : nat) (st : engine)
    : list equity_point :=
  match rows with
  | [] => []
  | current_bar :: rows' =>
      let st' := bar_step data st current_bar i in
      {| timestamp := name current_bar; equity := current_balance st' |}
        :: recorded data rows' (S i) st'
  end.

Lemma loop_equity_curve data rows : forall i st,
  equity_curve (loop data rows i st) = equity_curve st ++ recorded data rows i st.
Proof.
  induction rows as [|b rows IH]; intros i st; simpl.
  - now rewrite app_nil_r.
  - rewrite IH. destruct (bar_step_effect data st b i) as (-> & _).
    now rewrite <- app_assoc.
Qed.

Lemma recorded_length data rows : forall i st,
  length (recorded data rows i st) = length rows.
Proof. induction rows as [|b rows IH]; intros i st; simpl; [|rewrite IH]; reflexivity. Qed.

Lemma recorded_lookup data rows : forall i st k pt,
  recorded data rows i st !! k = Some pt ->
  exists current_bar, rows !! k = Some current_bar /\
    timestamp pt = name current_bar /\
    equity pt = current_balance (loop data (take (S k) rows) i st).
Proof.
  induction rows as [|b rows IH]; intros i st k pt; simpl; [discriminate|].
  destruct k as [|k]; simpl.
  - intros [= <-]. exists b. simpl. auto.
  - intros H. apply IH in H as (c & Hc & Ht & He). exists c. auto.
Qed.

Lemma bar_step_trades_length data st current_bar i :
  (length (trades st) <= length (trades (bar_step data st current_bar i)))%nat.
Proof.
  destruct (bar_step_effect data st current_bar i)
    as (_ & _ & [(-> & _) | (p & r & _ & _ & -> & _)]); [lia|].
  rewrite length_app. simpl. lia.
Qed.

Lemma loop_trades_length data rows : forall i st,
  (length (trades st) <= length (trades (loop data rows i st)))%nat.
Proof.
  induction rows as [|b rows IH]; intros i st; simpl; [lia|].
  etransitivity; [apply (bar_step_trades_length data st b i) | apply IH].
Qed.

(** While no trade is closed the balance, and with it every recorded
    equity value, stays where it was. *)
Lemma loop_no_close data rows : forall i st,
  length (trades (loop data rows i st)) = length (trades st) ->
  current_balance (loop data rows i st) = current_balance st /\
  recorded data rows i st =
    (fun b => {| timestamp := name b; equity := current_balance st |}) <$> rows.
Proof.
  induction rows as [|b rows IH]; intros i st Hlen; [simpl; auto|].
  cbn [loop recorded] in Hlen |- *.
  pose proof (loop_trades_length data rows (S i) (bar_step data st b i)) as Hge.
  destruct (bar_step_effect data st b i)
    as (_ & _ & [(Ht & Hb & _) | (p & r & _ & _ & Ht & _)]).
  - destruct (IH (S i) (bar_step data st b i)) as [Hb' Hrec].
    { now rewrite Ht. }
    rewrite Hb', Hrec, Hb. split; reflexivity.
  - rewrite Ht, length_app in Hge. simpl in Hge. lia.
Qed.

(** *** Balance conservation *)

(** The balance that the [+=] of [exit_trade] leaves when the trades of a
    log are closed one after the other. *)
Definition credited (balance : Q) (log : list Trade.t) : Q :=
  fold_left Qplus (Trade.pnl <$> log) balance.

(** The equality is syntactic: both sides are the same additions in the
    same order. *)
Definition conserved (st : engine) : Prop :=
  current_balance st = credited (initial_balance st) (trades st).

Lemma credited_snoc balance log t :
  credited balance (log ++ [t]) = credited balance log + Trade.pnl t.
Proof. unfold credited. now rewrite fmap_app, fold_left_app. Qed.

(** The last equity point carries the current balance. *)
Definition marked (st : engine) : Prop :=
  equity <$> last (equity_curve st) = Some (current_balance st).

Lemma bar_step_conserved data st current_bar i :
  conserved st -> conserved (bar_step data st current_bar i).
Proof.
  unfold conserved. intros H.
  destruct (bar_step_effect data st current_bar i)
    as (_ & -> & [(-> & -> & _) | (p & r & _ & _ & -> & ->)]); [exact H|].
  now rewrite credited_snoc, H.
Qed.

(** Each call of the loop body keeps the balance conserved. *)
Lemma exit_step_conserved st current_bar i :
  conserved st -> conserved (exit_step st current_bar i).
Proof.
  unfold conserved. intros H.
  destruct (exit_step_cases st current_bar i)
    as [[-> _] | (p & r & _ & _ & -> & -> & _ & -> & _)]; [exact H|].
  now rewrite credited_snoc, H.
Qed.

Lemma entry_step_conserved data st current_bar i :
  conserved st -> conserved (entry_step data st current_bar i).
Proof.
  unfold conserved. intros H.
  destruct (entry_step_keeps data st current_bar i) as (-> & -> & _ & ->). exact H.
Qed.

Lemma update_equity_curve_conserved st current_bar i :
  conserved st -> conserved (update_equity_curve st current_bar i).
Proof. intros H. exact H. Qed.

Lemma bar_step_marked data st current_bar i :
  marked (bar_step data st current_bar i).
Proof.
  unfold marked. destruct (bar_step_effect data st current_bar i) as (-> & _).
  now rewrite last_snoc.
Qed.

Lemma loop_conserved data rows : forall i st,
  conserved st -> conserved (loop data rows i st).
Proof.
  induction rows as [|b rows IH]; intros i st H; simpl; [exact H|].
  apply IH, bar_step_conserved, H.
Qed.

Lemma loop_marked data rows : forall i st,
  marked st -> marked (loop data rows i st).
Proof.
  induction rows as [|b rows IH]; intros i st H; simpl; [exact H|].
  apply IH, bar_step_marked.
Qed.

Lemma loop_initial_balance data rows : forall i st,
  initial_balance (loop data rows i st) = initial_balance st.
Proof.
  induction rows as [|b rows IH]; intros i st; simpl; [reflexivity|].
  rewrite IH. now destruct (bar_step_effect data st b i) as (_ & -> & _).
Qed.

Lemma reset_conserved balance first : conserved (reset balance first).
Proof. reflexivity. Qed.

Lemma reset_marked balance first : marked (reset balance first).
Proof. reflexivity. Qed.

Lemma generate_report_fields st r :
  generate_report st = Some (Report r) ->
  r_initial_balance r = initial_balance st /\
  final_balance r = current_balance st /\
  total_pnl r = Py.sum (Trade.pnl <$> trades st) /\
  r_trades r = trades st /\ r_equity_curve r = equity_curve st.
Proof.
  unfold generate_report. destruct (trades st); [discriminate|].
  destruct (Drawdown.calculate_drawdown _); [|discriminate].
  intros [= <-]. simpl. auto.
Qed.

(** *** The exit rules, one by one

    Following the words of the specification: each rule is a predicate of
    its own, and the rules are tried in a fixed order, the first that fires
    giving the exit reason. *)

Definition stop_loss_hit (p : Position.t) (current_bar : bar) : bool :=
  match Position.direction p with
  | Buy => Py.leb (close current_bar) (Position.sl_price p)
  | Sell => Py.leb (Position.sl_price p) (close current_bar)
  end.

Definition take_profit_hit (p : Position.t) (current_bar : bar) : bool :=
  match Position.direction p with
  | Buy => Py.leb (Position.tp_price p) (close current_bar)
  | Sell => Py.leb (close current_bar) (Position.tp_price p)
  end.

Definition time_limit_hit (p : Position.t) (current_bar : bar) : bool :=
  Py.leb (default 72 (MAX_TRADE_HOURS cfg)) (hours_in_trade p current_bar).

Fixpoint first_match (rules : list (bool * exit_reason)) : option exit_reason :=
  match rules with
  | [] => None
  | (fires, r) :: rest => if fires then Some r else first_match rest
  end.

Definition exit_rules (p : Position.t) (current_bar : bar)
    : list (bool * exit_reason) :=
  [ (stop_loss_hit p current_bar, sl);
    (take_profit_hit p current_bar, tp);
    (time_limit_hit p current_bar, time) ].

Lemma check_exit_first_match st current_bar p :
  position st = Some p ->
  check_exit_conditions st current_bar = first_match (exit_rules p current_bar).
Proof.
  intros Hp. unfold check_exit_conditions, exit_rules, first_match,
    stop_loss_hit, take_profit_hit, time_limit_hit.
  rewrite Hp. destruct (Position.direction p);
    repeat match goal with |- context [Py.leb ?a ?b] =>
      destruct (Py.leb a b) eqn:?; try reflexivity end.
Qed.

Lemma bar_step_trades data st current_bar i p r :
  position st = Some p -> check_exit_conditions st current_bar = Some r ->
  trades (bar_step data st current_bar i) =
    trades st ++ [close_position p current_bar r].
Proof.
  intros Hp Hr.
  destruct (bar_step_effect data st current_bar i)
    as (_ & _ & [(_ & _ & [H|H]) | (p' & r' & Hp' & Hr' & Ht & _)]);
    try congruence.
Qed.

(** C1. While the engine is flat, [check_entry_conditions] opens a position
    in a direction only if that direction's confirmation score is at least
    [MIN_CONFIRMATIONS] and strictly above the score of the opposite
    direction; when the two scores are equal no position is opened. *)
Theorem entry_needs_strict_majority st current_bar previous_bars index :
  position st = None ->
  let c := confirmations_at previous_bars in
  let st' := check_entry_conditions st current_bar previous_bars index in
  (forall p, position st' = Some p ->
     MIN_CONFIRMATIONS cfg <= Confirmations.score c (Position.direction p) /\
     Confirmations.score c (opposite (Position.direction p))
       < Confirmations.score c (Position.direction p)) /\
  (Confirmations.buy c == Confirmations.sell c -> position st' = None).
Proof.
  intros Hflat c st'. subst st'. unfold check_entry_conditions. fold c.
  destruct (Py.leb _ (Confirmations.buy c) && Py.ltb _ (Confirmations.buy c)) eqn:Eb;
    [|destruct (Py.leb _ (Confirmations.sell c) && Py.ltb _ (Confirmations.sell c)) eqn:Es].
  - apply andb_true_iff in Eb as [E1 E2].
    apply Py.leb_le in E1. apply Py.ltb_lt in E2. split.
    + intros p Hp. apply enter_trade_position in Hp; [|exact Hflat].
      rewrite Hp. simpl. auto.
    + intros Htie. rewrite Htie in E2. now apply Qlt_irrefl in E2.
  - apply andb_true_iff in Es as [E1 E2].
    apply Py.leb_le in E1. apply Py.ltb_lt in E2. split.
    + intros p Hp. apply enter_trade_position in Hp; [|exact Hflat].
      rewrite Hp. simpl. auto.
    + intros Htie. rewrite Htie in E2. now apply Qlt_irrefl in E2.
  - split; [|intros _; exact Hflat].
    intros p Hp. rewrite Hflat in Hp. discriminate.
Qed.

(** C6. With a position open, [check_exit_conditions] is first-match over
    the rules in the order stop-loss, take-profit, time limit: a stop-loss
    hit gives ['sl'] whatever the later rules say, a take-profit hit gives
    ['tp'] when the stop-loss did not fire, the time limit gives ['time']
    only when neither did; and the reason returned is the exit reason of the
    trade that the iteration records. *)
Theorem exit_first_match_wins data st current_bar i p :
  position st = Some p ->
  check_exit_conditions st current_bar = first_match (exit_rules p current_bar) /\
  (stop_loss_hit p current_bar = true ->
     check_exit_conditions st current_bar = Some sl) /\
  (stop_loss_hit p current_bar = false -> take_profit_hit p current_bar = true ->
     check_exit_conditions st current_bar = Some tp) /\
  (stop_loss_hit p current_bar = false -> take_profit_hit p current_bar = false ->
     check_exit_conditions st current_bar =
       if time_limit_hit p current_bar then Some time else None) /\
  (forall r, check_exit_conditions st current_bar = Some r ->
     exists t, trades (bar_step data st current_bar i) = trades st ++ [t] /\
       Trade.reason t = r).
Proof.
  intros Hp. rewrite (check_exit_first_match st current_bar p Hp).
  unfold exit_rules, first_match. repeat split.
  - now intros ->.
  - now intros -> ->.
  - now intros -> ->.
  - intros r Hr. exists (close_position p current_bar r). split; [|reflexivity].
    apply bar_step_trades; [exact Hp|].
    now rewrite (check_exit_first_match st current_bar p Hp).
Qed.

(** C7. The loop appends exactly one equity point per processed bar, and
    the point carries the realized balance at the end of that bar's
    iteration.  The balance differs between two consecutive bars only when
    the iteration closed a trade; while an open position is not closed it
    stays open with the balance unchanged, so as long as no trade is closed
    every recorded equity value equals the balance the stretch began
    with. *)
Theorem equity_moves_only_on_close data rows i st :
  let st' := loop data rows i st in
  (exists points,
     equity_curve st' = equity_curve st ++ points /\
     length points = length rows /\
     (forall k pt, points !! k = Some pt ->
        equity pt = current_balance (loop data (take (S k) rows) i st)) /\
     (length (trades st') = length (trades st) ->
        forall pt, In pt points -> equity pt = current_balance st)) /\
  (forall k,
     current_balance (loop data (take (S k) rows) i st)
       <> current_balance (loop data (take k rows) i st) ->
     length (trades (loop data (take (S k) rows) i st))
       = S (length (trades (loop data (take k rows) i st)))) /\
  (forall current_bar p,
     position st = Some p -> check_exit_conditions st current_bar = None ->
     position (bar_step data st current_bar i) = Some p /\
     current_balance (bar_step data st current_bar i) = current_balance st).
Proof.
  intros st'. subst st'. split; [|split].
  - exists (recorded data rows i st). split; [apply loop_equity_curve|].
    split; [apply recorded_length|]. split.
    + intros k pt H. apply recorded_lookup in H as (b & _ & _ & H). exact H.
    + intros Hlen pt Hin. apply loop_no_close in Hlen as [_ Hrec].
      rewrite Hrec in Hin. apply list_elem_of_In, list_elem_of_fmap in Hin.
      destruct Hin as (b & -> & _). reflexivity.
  - intros k Hne. destruct (rows !! k) as [b|] eqn:Hk.
    + rewrite (take_S_r _ _ _ Hk), loop_app in *. cbn [loop] in *.
      destruct (bar_step_effect data (loop data (take k rows) i st) b
                  (i + length (take k rows)))
        as (_ & _ & [(_ & Hb & _) | (q & r & _ & _ & Ht & _)]);
        [congruence|].
      rewrite Ht, length_app. simpl. lia.
    + apply lookup_ge_None in Hk.
      rewrite !take_ge in Hne by lia. congruence.
  - intros b p Hp Hx. unfold bar_step, exit_step, entry_step. rewrite Hp, Hx.
    simpl. rewrite Hp. simpl. auto.
Qed.

(** C10. After any number of processed bars the balance is the initial
    balance with the (net) PnL of every recorded trade added to it, one
    after the other in log order, and the last equity point carries that
    balance; each of the three calls of the loop body keeps it so; and in a
    report [final_balance] is that balance and the last value of the equity
    curve, and [total_pnl] is the PnL of the log added up from zero.  All
    the equalities are syntactic, so they hold of the code's doubles as of
    exact numbers; [final_balance = initial_balance + total_pnl] is not
    among them, since it regroups the additions. *)
Theorem balance_conservation balance data first :
  (forall k,
     let st := loop data (take k (drop 100 data)) 100 (reset balance first) in
     current_balance st = credited balance (trades st) /\
     equity <$> last (equity_curve st) = Some (current_balance st)) /\
  (forall st current_bar i,
     current_balance st = credited (initial_balance st) (trades st) ->
     let st1 := exit_step st current_bar i in
     let st2 := entry_step data st1 current_bar i in
     let st3 := update_equity_curve st2 current_bar i in
     current_balance st1 = credited (initial_balance st1) (trades st1) /\
     current_balance st2 = credited (initial_balance st2) (trades st2) /\
     current_balance st3 = credited (initial_balance st3) (trades st3)) /\
  (forall r, run_backtest balance data = Some (Report r) ->
     r_initial_balance r = balance /\
     final_balance r = credited (r_initial_balance r) (r_trades r) /\
     total_pnl r = fold_left Qplus (Trade.pnl <$> r_trades r) 0 /\
     equity <$> last (r_equity_curve r) = Some (final_balance r)).
Proof.
  split; [|split].
  - intros k st. split.
    + pose proof (loop_conserved data (take k (drop 100 data)) 100 _
                    (reset_conserved balance first)) as H.
      unfold conserved in H. now rewrite loop_initial_balance in H.
    + apply loop_marked, reset_marked.
  - intros st b i H st1 st2 st3.
    assert (H1 : conserved st1) by now apply exit_step_conserved.
    assert (H2 : conserved st2) by now apply entry_step_conserved.
    split; [exact H1|]. split; [exact H2|].
    now apply update_equity_curve_conserved.
  - intros r. unfold run_backtest. destruct data as [|b0 data']; [discriminate|].
    intros H. apply generate_report_fields in H as (Hi & Hf & Ht & Hl & He).
    rewrite Hi, Hf, Ht, Hl, He, loop_initial_balance. split; [reflexivity|]. split.
    + pose proof (loop_conserved (b0 :: data') (drop 100 (b0 :: data')) 100 _
                    (reset_conserved balance b0)) as H.
      unfold conserved in H. now rewrite loop_initial_balance in H.
    + split; [reflexivity|]. apply loop_marked, reset_marked.
Qed.

End Engine.

(** *** A run on 103 hourly bars

    Gold at 1800 for the warm-up, then 1805 and 1790.  The strategy always
    scores 3 to 1 for buying; no slippage is drawn. *)

Definition hourly (i : nat) (c : Q) : bar :=
  {| name := 3600 * Z.of_nat i;
     open := c; high := c; low := c; close := c; tick_volume := 100;
     EMA_fast := None; EMA_slow := None; RSI := None; MACD_HIST := None;
     ATR := Some 2 |}.

Definition always_long : Strategy unit unit :=
  {| calculate_confirmations := fun _ _ _ _ =>
       {| Confirmations.buy := 3; Confirmations.sell := 1;
          Confirmations.reasons := [] |};
     calculate_sl_tp := base_calculate_sl_tp (15 # 10) (15 # 10) |}.

Definition gold_config : config :=
  {| SYMBOL := "XAUUSD";
     MIN_CONFIRMATIONS := 3;
     RISK_PERCENT := 3 # 10;
     MIN_LOT := 1 # 100;
     MAX_LOT := 5;
     COMMISSION_PER_LOT := 35 # 10;
     SPREAD_SIMULATION := None;
     MAX_TRADE_HOURS := Some 72 |}.

Definition no_fib (_ : list bar) : unit * bias := (tt, neutral).
Definition no_daily (_ : list bar) : unit := tt.
Definition no_slippage (_ : nat) : Q := 0.

Definition gold_bars : list bar :=
  ((fun i => hourly i 1800) <$> seq 0 101) ++ [hourly 101 1805; hourly 102 1790].

Definition gold_run : option result :=
  run_backtest always_long gold_config no_fib no_daily no_slippage 10000 gold_bars.
(** The first trade is entered at bar 100 and closed at its target on bar
    101; the engine re-enters on that bar and is stopped out on bar 102. *)
Example gold_run_report :
  match gold_run with
  | Some (Report r) =>
      total_trades r = 2%nat /\
      Trade.reason <$> r_trades r = [tp; sl] /\
      Qred ∘ Trade.pnl <$> r_trades r = [49649 # 1000; -150351 # 1000] /\
      Qred ∘ Trade.lots <$> r_trades r = [1 # 10; 1 # 10] /\
      Qred ∘ equity <$> r_equity_curve r =
        [10000; 10000; 10049649 # 1000; 4949649 # 500] /\
      Qred (final_balance r) = 4949649 # 500
  | _ => False
  end.
Proof. vm_compute. repeat split; reflexivity. Qed.

(** *** The two sums of the report on doubles

    [exit_trade] adds each PnL to the balance as its trade closes;
    [generate_report] adds the PnL of the log up from zero.  With the
    addition of doubles the two groupings round differently. *)

(** [self.current_balance += pnl], trade after trade. *)
Definition credited64 (balance : Q) (pnls : list Q) : Q :=
  fold_left Binary64.add pnls balance.

(** [sum(t['pnl'] for t in self.trades)] *)
Definition total_pnl64 (pnls : list Q) : Q := fold_left Binary64.add pnls 0.

(** The two PnL of the gold run, 49.649 and -150.351, on an account of
    10000: the balance ends on 9899.297999999999, while the initial balance
    plus [total_pnl] is 9899.298. *)
Lemma final_balance_regrouped_differs :
  let pnls := [Binary64.round (49649 # 1000); Binary64.round (- (150351 # 1000))] in
  credited64 10000 pnls = 2721098314454925 # 274877906944 /\
  Binary64.add 10000 (total_pnl64 pnls) = 5442196628909851 # 549755813888 /\
  ~ credited64 10000 pnls == Binary64.add 10000 (total_pnl64 pnls).
Proof.
  split; [vm_compute; reflexivity|]. split; [vm_compute; reflexivity|].
  intros H. apply Qeq_bool_iff in H. vm_compute in H. discriminate.
Qed.

(** The engine just reset is flat; the strategy scores 3 to 1. *)
Lemma entry_needs_strict_majority_witness :
  let b := hourly 100 1800 in
  let st := reset 10000 b in
  let c := confirmations_at always_long no_fib no_daily [b] in
  let st' := check_entry_conditions always_long gold_config no_fib no_daily
               no_slippage st b [b] 100 in
  position st = None /\
  (forall p, position st' = Some p ->
     MIN_CONFIRMATIONS gold_config <= Confirmations.score c (Position.direction p) /\
     Confirmations.score c (opposite (Position.direction p))
       < Confirmations.score c (Position.direction p)) /\
  (Confirmations.buy c == Confirmations.sell c -> position st' = None).
Proof.
  split; [reflexivity|].
  apply (entry_needs_strict_majority always_long gold_config no_fib no_daily
           no_slippage (reset 10000 (hourly 100 1800)) (hourly 100 1800)
           [hourly 100 1800] 100).
  reflexivity.
Defined.

(** The state after bar 100 of the run: one position open. *)
Definition gold_after_entry : engine :=
  loop always_long gold_config no_fib no_daily no_slippage gold_bars
    [hourly 100 1800] 100 (reset 10000 (hourly 0 1800)).

Definition gold_position : Position.t :=
  {| Position.entry_time := 360000;
     Position.direction := Buy;
     Position.entry_price := 1800 + (2 # 10000) / 2 + 0;
     Position.sl_price := 1800 - (15 # 10) * 2;
     Position.tp_price := 1800 + (15 # 10) * (1800 - (1800 - (15 # 10) * 2));
     Position.lots := Py.max (1 # 100) (Py.min 5 (Py.round2
        (10000 * ((3 # 10) / 100)
         / (Qabs (1800 + (2 # 10000) / 2 + 0 - (1800 - (15 # 10) * 2)) / (1 # 100) * 1))));
     Position.commission := (35 # 10) * Py.max (1 # 100) (Py.min 5 (Py.round2
        (10000 * ((3 # 10) / 100)
         / (Qabs (1800 + (2 # 10000) / 2 + 0 - (1800 - (15 # 10) * 2)) / (1 # 100) * 1))));
     Position.entry_index := 100 |}.

Example gold_position_opened : position gold_after_entry = Some gold_position.
Proof. vm_compute. reflexivity. Qed.

Lemma exit_first_match_wins_witness :
  let st := set_position (reset 10000 (hourly 0 1800)) (Some gold_position) in
  let b := hourly 101 1805 in
  position st = Some gold_position /\
  check_exit_conditions gold_config st b =
    first_match (exit_rules gold_config gold_position b) /\
  (stop_loss_hit gold_position b = true ->
     check_exit_conditions gold_config st b = Some sl) /\
  (stop_loss_hit gold_position b = false -> take_profit_hit gold_position b = true ->
     check_exit_conditions gold_config st b = Some tp) /\
  (stop_loss_hit gold_position b = false -> take_profit_hit gold_position b = false ->
     check_exit_conditions gold_config st b =
       if time_limit_hit gold_config gold_position b then Some time else None) /\
  (forall r, check_exit_conditions gold_config st b = Some r ->
     exists t, trades (bar_step always_long gold_config no_fib no_daily no_slippage
                         gold_bars st b 101) = trades st ++ [t] /\
       Trade.reason t = r).
Proof.
  split; [reflexivity|].
  apply (exit_first_match_wins always_long gold_config no_fib no_daily no_slippage
           gold_bars (set_position (reset 10000 (hourly 0 1800)) (Some gold_position))
           (hourly 101 1805) 101 gold_position).
  reflexivity.
Defined.

(** On that bar the target is reached, and the time limit is far. *)
Example gold_exit_at_target :
  check_exit_conditions gold_config
    (set_position (reset 10000 (hourly 0 1800)) (Some gold_position))
    (hourly 101 1805) = Some tp.
Proof. vm_compute. reflexivity. Qed.

(** A bar that reaches both the stop and the time limit exits on the stop. *)
Example stop_before_time :
  check_exit_conditions gold_config
    (set_position (reset 10000 (hourly 0 1800)) (Some gold_position))
    (hourly 400 1790) = Some sl /\
  time_limit_hit gold_config gold_position (hourly 400 1790) = true.
Proof. vm_compute. split; reflexivity. Qed.

End BacktestEngine.

(** ** [analytics/performance_tracker.py] *)

Module PerformanceTracker.

Record tracker := {
  initial_balance : Q;
  current_balance : Q;
  trades : list BacktestEngine.Trade.t;
  equity_curve : list BacktestEngine.equity_point
}.

Definition add_trade (tr : tracker) (trade_info : BacktestEngine.Trade.t) : tracker :=
  let balance := current_balance tr + BacktestEngine.Trade.pnl trade_info in
  {| initial_balance := initial_balance tr;
     current_balance := balance;
     trades := trades tr ++ [trade_info];
     equity_curve := equity_curve tr ++
       [{| BacktestEngine.timestamp := BacktestEngine.Trade.exit_time trade_info;
           BacktestEngine.equity := balance |}] |}.

(** The entries of the ['summary'] and ['trade_stats'] blocks of the
    returned dict.  The ['risk_metrics'], ['time_metrics'] and
    ['monthly_performance'] blocks are numpy and datetime computations
    (standard deviation, square root, calendar months); their values are
    not carried here, and of their code only the division by the initial
    balance in [calculate_calmar_ratio] and the [equity_curve[-1]] of the
    time metrics can raise. *)
Record stats := {
  s_initial_balance : Q;
  final_balance : Q;
  total_pnl : Q;
  total_commission : Q;
  net_profit : Q;
  return_pct : Q;
  total_trades : nat;
  winning_trades : nat;
  losing_trades : nat;
  win_rate : Q;
  avg_win : Q;
  avg_loss : Q;
  largest_win : Q;
  largest_loss : Q;
  profit_factor : xnum;
  expectancy : Q
}.

(** The dict returned: [{}] for an empty log, or the statistics. *)
Inductive outcome := Empty | Stats (s : stats).

(** [max(xs) if xs else 0] and [min(xs) if xs else 0] *)
Definition largest (xs : list Q) : Q :=
  match xs with [] => 0 | x :: rest => fold_left Py.max rest x end.

Definition smallest (xs : list Q) : Q :=
  match xs with [] => 0 | x :: rest => fold_left Py.min rest x end.

(** [calculate_stats], on Python floats as the constructor's signature has
    them.  [None] is an exception: the [ZeroDivisionError] of the return
    on an initial balance of zero, or the [IndexError] of an empty equity
    curve. *)
Definition calculate_stats (tr : tracker) : option outcome :=
  match trades tr with
  | [] => Some Empty
  | _ =>
      let winning :=
        List.filter (fun t => Py.ltb 0 (BacktestEngine.Trade.pnl t)) (trades tr) in
      let losing :=
        List.filter (fun t => Py.leb (BacktestEngine.Trade.pnl t) 0) (trades tr) in
      let total := Py.sum (BacktestEngine.Trade.pnl <$> trades tr) in
      let commission := Py.sum (BacktestEngine.Trade.commission <$> trades tr) in
      let rate := inject_Z (Z.of_nat (length winning))
                  / inject_Z (Z.of_nat (length (trades tr))) in
      let a_win := match winning with
                   | [] => 0
                   | _ => Py.mean (BacktestEngine.Trade.pnl <$> winning)
                   end in
      let a_loss := match losing with
                    | [] => 0
                    | _ => Py.mean
                             ((fun t => Qabs (BacktestEngine.Trade.pnl t)) <$> losing)
                    end in
      let pf := match losing with
                | [] => PInf
                | _ => X.abs (X.div (a_win * inject_Z (Z.of_nat (length winning)))
                                    (a_loss * inject_Z (Z.of_nat (length losing))))
                end in
      if Qeq_bool (initial_balance tr) 0 then None
      else
        match equity_curve tr with
        | [] => None
        | _ =>
            Some (Stats
              {| s_initial_balance := initial_balance tr;
                 final_balance := current_balance tr;
                 total_pnl := total;
                 total_commission := commission;
                 net_profit := total - commission;
                 return_pct := (current_balance tr - initial_balance tr)
                               / initial_balance tr * 100;
                 total_trades := length (trades tr);
                 winning_trades := length winning;
                 losing_trades := length losing;
                 win_rate := rate * 100;
                 avg_win := a_win;
                 avg_loss := a_loss;
                 largest_win := largest (BacktestEngine.Trade.pnl <$> winning);
                 largest_loss := smallest (BacktestEngine.Trade.pnl <$> losing);
                 profit_factor := pf;
                 expectancy := (rate * a_win) - ((1 - rate) * a_loss) |})
        end
  end.

Lemma calculate_stats_profit_factor tr s :
  calculate_stats tr = Some (Stats s) ->
  X.eq (profit_factor s)
       (X.div (Qabs (avg_win s * inject_Z (Z.of_nat (winning_trades s))))
              (Qabs (avg_loss s * inject_Z (Z.of_nat (losing_trades s))))) /\
  (losing_trades s = 0%nat -> profit_factor s = PInf).
Proof.
  unfold calculate_stats. destruct (trades tr) as [|t l] eqn:Ht; [discriminate|].
  destruct (Qeq_bool _ 0); [discriminate|].
  destruct (equity_curve tr); [discriminate|].
  intros [= <-]. cbn [profit_factor avg_win avg_loss winning_trades losing_trades].
  apply (TradeLog.profit_factor_formula BacktestEngine.Trade.pnl (t :: l)). discriminate.
Qed.

(** What the statistics say of the split of the log. *)
Lemma calculate_stats_split tr s :
  calculate_stats tr = Some (Stats s) ->
  let log := trades tr in
  log <> [] /\
  winning_trades s = length (BacktestEngine.winners log) /\
  losing_trades s = length (BacktestEngine.losers log) /\
  avg_win s = match BacktestEngine.winners log with
              | [] => 0
              | _ => Py.mean (BacktestEngine.Trade.pnl <$> BacktestEngine.winners log)
              end /\
  avg_loss s = match BacktestEngine.losers log with
               | [] => 0
               | _ => Py.mean ((fun t => Qabs (BacktestEngine.Trade.pnl t))
                                 <$> BacktestEngine.losers log)
               end /\
  (BacktestEngine.losers log = [] -> profit_factor s = PInf).
Proof.
  unfold calculate_stats, BacktestEngine.winners, BacktestEngine.losers.
  destruct (trades tr) as [|t l] eqn:Ht; [discriminate|].
  destruct (Qeq_bool _ 0); [discriminate|].
  destruct (equity_curve tr); [discriminate|].
  set (W := List.filter (fun t => Py.ltb 0 (BacktestEngine.Trade.pnl t)) (t :: l)).
  set (L := List.filter (fun t => Py.leb (BacktestEngine.Trade.pnl t) 0) (t :: l)).
  intros H. injection H as <-.
  cbn [profit_factor avg_win avg_loss winning_trades losing_trades].
  split; [discriminate|]. repeat (split; [reflexivity|]).
  intros H. now rewrite H.
Qed.

Lemma calculate_stats_defined tr :
  trades tr <> [] -> ~ initial_balance tr == 0 -> equity_curve tr <> [] ->
  exists s, calculate_stats tr = Some (Stats s).
Proof.
  intros Hne Hb Hc. unfold calculate_stats.
  destruct (trades tr); [congruence|].
  destruct (Qeq_bool (initial_balance tr) 0) eqn:E.
  - apply Qeq_bool_iff in E. contradiction.
  - destruct (equity_curve tr); [congruence | eauto].
Qed.

Lemma calculate_stats_raises tr :
  trades tr <> [] -> initial_balance tr == 0 -> calculate_stats tr = None.
Proof.
  intros Hne Hb. unfold calculate_stats. destruct (trades tr); [congruence|].
  apply Qeq_bool_iff in Hb. now rewrite Hb.
Qed.

(** Two winners of 30 and 10, one loser of 20: the factor is 2.  Winners
    only: the factor is infinite. *)
Definition closed (p : Q) : BacktestEngine.Trade.t :=
  {| BacktestEngine.Trade.entry_time := 0;
     BacktestEngine.Trade.exit_time := 3600;
     BacktestEngine.Trade.direction := Buy;
     BacktestEngine.Trade.entry_price := 1800;
     BacktestEngine.Trade.exit_price := 1800 + p;
     BacktestEngine.Trade.lots := 1 # 100;
     BacktestEngine.Trade.pnl := p;
     BacktestEngine.Trade.commission := 0;
     BacktestEngine.Trade.reason := BacktestEngine.tp;
     BacktestEngine.Trade.symbol := "XAUUSD" |}.

(** [PerformanceTracker(initial_balance)], created at time [now]. *)
Definition create (balance : Q) (now : Z) : tracker :=
  {| initial_balance := balance;
     current_balance := balance;
     trades := [];
     equity_curve :=
       [{| BacktestEngine.timestamp := now; BacktestEngine.equity := balance |}] |}.

Definition fresh : tracker := create 10000 0.

Example mixed_log_factor :
  match calculate_stats (foldl add_trade fresh [closed 30; closed (-20); closed 10]) with
  | Some (Stats s) => X.eq (profit_factor s) (Fin 2)
  | _ => False
  end.
Proof. vm_compute. reflexivity. Qed.

Example winners_only_factor :
  match calculate_stats (foldl add_trade fresh [closed 30; closed 10]) with
  | Some (Stats s) => profit_factor s = PInf
  | _ => False
  end.
Proof. vm_compute. reflexivity. Qed.

End PerformanceTracker.

(** ** The claims that span two components *)

(** C8. In the report of the backtest engine and in the statistics of the
    performance tracker alike: whenever a report is produced, its counts
    and averages are those of the winners (PnL > 0) and the losers
    (PnL <= 0) of the log, its profit factor is
    [|avg_win * winCount| / |avg_loss * lossCount|], and when no trade of
    the log is a loser the profit factor is plus infinity itself.  The
    engine produces the report for every non-empty log whose equity curve
    starts at a positive balance, the tracker for every non-empty log on a
    non-zero initial balance with its equity curve.  The empty log gets no
    profit factor: the engine returns the error dict, the tracker the empty
    dict. *)
Theorem profit_factor_convention :
  (forall st,
     (forall r, BacktestEngine.generate_report st = Some (BacktestEngine.Report r) ->
        let log := BacktestEngine.trades st in
        log <> [] /\
        BacktestEngine.winning_trades r = length (BacktestEngine.winners log) /\
        BacktestEngine.losing_trades r = length (BacktestEngine.losers log) /\
        BacktestEngine.avg_win r
        = match BacktestEngine.winners log with
          | [] => 0
          | _ => Py.mean (BacktestEngine.Trade.pnl <$> BacktestEngine.winners log)
          end /\
        BacktestEngine.avg_loss r
        = match BacktestEngine.losers log with
          | [] => 0
          | _ => Py.mean ((fun t => Qabs (BacktestEngine.Trade.pnl t))
                            <$> BacktestEngine.losers log)
          end /\
        X.eq (BacktestEngine.profit_factor r)
          (X.div
             (Qabs (BacktestEngine.avg_win r
                    * inject_Z (Z.of_nat (BacktestEngine.winning_trades r))))
             (Qabs (BacktestEngine.avg_loss r
                    * inject_Z (Z.of_nat (BacktestEngine.losing_trades r))))) /\
        (Forall (fun t => 0 < BacktestEngine.Trade.pnl t) log ->
           BacktestEngine.profit_factor r = PInf)) /\
     (forall p, BacktestEngine.trades st <> [] ->
        head (BacktestEngine.equity_curve st) = Some p ->
        0 < BacktestEngine.equity p ->
        exists r, BacktestEngine.generate_report st = Some (BacktestEngine.Report r)) /\
     (BacktestEngine.trades st = [] ->
        BacktestEngine.generate_report st
        = Some (BacktestEngine.Error "No trades executed"))) /\
  (forall tr,
     (forall s, PerformanceTracker.calculate_stats tr = Some (PerformanceTracker.Stats s) ->
        let log := PerformanceTracker.trades tr in
        log <> [] /\
        PerformanceTracker.winning_trades s = length (BacktestEngine.winners log) /\
        PerformanceTracker.losing_trades s = length (BacktestEngine.losers log) /\
        PerformanceTracker.avg_win s
        = match BacktestEngine.winners log with
          | [] => 0
          | _ => Py.mean (BacktestEngine.Trade.pnl <$> BacktestEngine.winners log)
          end /\
        PerformanceTracker.avg_loss s
        = match BacktestEngine.losers log with
          | [] => 0
          | _ => Py.mean ((fun t => Qabs (BacktestEngine.Trade.pnl t))
                            <$> BacktestEngine.losers log)
          end /\
        X.eq (PerformanceTracker.profit_factor s)
          (X.div
             (Qabs (PerformanceTracker.avg_win s
                    * inject_Z (Z.of_nat (PerformanceTracker.winning_trades s))))
             (Qabs (PerformanceTracker.avg_loss s
                    * inject_Z (Z.of_nat (PerformanceTracker.losing_trades s))))) /\
        (Forall (fun t => 0 < BacktestEngine.Trade.pnl t) log ->
           PerformanceTracker.profit_factor s = PInf)) /\
     (PerformanceTracker.trades tr <> [] ->
        ~ PerformanceTracker.initial_balance tr == 0 ->
        PerformanceTracker.equity_curve tr <> [] ->
        exists s, PerformanceTracker.calculate_stats tr = Some (PerformanceTracker.Stats s)) /\
     (PerformanceTracker.trades tr = [] ->
        PerformanceTracker.calculate_stats tr = Some PerformanceTracker.Empty)).
Proof.
  split.
  - intros st. split; [|split].
    + intros r H log.
      destruct (BacktestEngine.generate_report_split st r H)
        as (Hne & Hw & Hl & Haw & Hal & Hinf).
      destruct (BacktestEngine.generate_report_profit_factor st r H) as [Hpf _].
      split; [exact Hne|]. split; [exact Hw|]. split; [exact Hl|].
      split; [exact Haw|]. split; [exact Hal|]. split; [exact Hpf|].
      intros Hall. apply Hinf. now apply BacktestEngine.winners_only.
    + intros p. apply BacktestEngine.generate_report_defined.
    + intros Hnil. unfold BacktestEngine.generate_report. now rewrite Hnil.
  - intros tr. split; [|split].
    + intros s H log.
      destruct (PerformanceTracker.calculate_stats_split tr s H)
        as (Hne & Hw & Hl & Haw & Hal & Hinf).
      destruct (PerformanceTracker.calculate_stats_profit_factor tr s H) as [Hpf _].
      split; [exact Hne|]. split; [exact Hw|]. split; [exact Hl|].
      split; [exact Haw|]. split; [exact Hal|]. split; [exact Hpf|].
      intros Hall. apply Hinf. now apply BacktestEngine.winners_only.
    + apply PerformanceTracker.calculate_stats_defined.
    + intros Hnil. unfold PerformanceTracker.calculate_stats. now rewrite Hnil.
Qed.

(** The empty log has no losing trade, and no profit factor is reported
    for it: the engine just reset returns the error dict, the tracker just
    created the empty dict.  A log of one winner on an account opened at a
    balance of zero has no losing trade either, and both reports raise. *)
Lemma empty_log_has_no_profit_factor :
  let st := BacktestEngine.reset 10000 (BacktestEngine.hourly 0 1800) in
  let tr := PerformanceTracker.create 10000 0 in
  let winner := PerformanceTracker.closed 30 in
  let st0 :=
    {| BacktestEngine.initial_balance := 0;
       BacktestEngine.current_balance := 30;
       BacktestEngine.trades := [winner];
       BacktestEngine.equity_curve :=
         [{| BacktestEngine.timestamp := 0; BacktestEngine.equity := 0 |};
          {| BacktestEngine.timestamp := 3600; BacktestEngine.equity := 30 |}];
       BacktestEngine.position := None |} in
  let tr0 :=
    PerformanceTracker.add_trade (PerformanceTracker.create 0 0) winner in
  BacktestEngine.losers (BacktestEngine.trades st) = [] /\
  BacktestEngine.generate_report st
  = Some (BacktestEngine.Error "No trades executed") /\
  BacktestEngine.losers (PerformanceTracker.trades tr) = [] /\
  PerformanceTracker.calculate_stats tr = Some PerformanceTracker.Empty /\
  BacktestEngine.losers (BacktestEngine.trades st0) = [] /\
  BacktestEngine.generate_report st0 = None /\
  BacktestEngine.losers (PerformanceTracker.trades tr0) = [] /\
  PerformanceTracker.calculate_stats tr0 = None.
Proof. vm_compute. repeat split; reflexivity. Qed.

(** *** Position sizing *)

(** A quiet market: ATR is zero, the configured spread is zero and no
    slippage is drawn, so the fill sits on the stop. *)
Definition quiet_bar : BacktestEngine.bar :=
  {| BacktestEngine.name := 360000;
     BacktestEngine.open := 1800; BacktestEngine.high := 1800;
     BacktestEngine.low := 1800; BacktestEngine.close := 1800;
     BacktestEngine.tick_volume := 100;
     BacktestEngine.EMA_fast := None; BacktestEngine.EMA_slow := None;
     BacktestEngine.RSI := None; BacktestEngine.MACD_HIST := None;
     BacktestEngine.ATR := Some 0 |}.

Definition zero_spread_config : BacktestEngine.config :=
  {| BacktestEngine.SYMBOL := "XAUUSD";
     BacktestEngine.MIN_CONFIRMATIONS := 3;
     BacktestEngine.RISK_PERCENT := 3 # 10;
     BacktestEngine.MIN_LOT := 1 # 100;
     BacktestEngine.MAX_LOT := 5;
     BacktestEngine.COMMISSION_PER_LOT := 35 # 10;
     BacktestEngine.SPREAD_SIMULATION := Some 0;
     BacktestEngine.MAX_TRADE_HOURS := Some 72 |}.

(** The engine's sizing at a stop distance of zero: the risk per lot is
    zero, and [enter_trade] returns before any lot size exists; the engine
    stays flat, it does not trade the minimum lot. *)
Lemma engine_sizing_skips_zero_distance :
  BacktestEngine.risk_per_lot zero_spread_config
    (BacktestEngine.entry_distance BacktestEngine.always_long zero_spread_config
       BacktestEngine.no_slippage Buy quiet_bar 100) <= 0 /\
  ~ (exists p,
       BacktestEngine.new_position BacktestEngine.always_long zero_spread_config
         BacktestEngine.no_slippage 10000 Buy quiet_bar 100 = Some p /\
       BacktestEngine.MIN_LOT zero_spread_config <= BacktestEngine.Position.lots p
         <= BacktestEngine.MAX_LOT zero_spread_config) /\
  BacktestEngine.position
    (BacktestEngine.enter_trade BacktestEngine.always_long zero_spread_config
       BacktestEngine.no_slippage
       (BacktestEngine.reset 10000 quiet_bar) Buy quiet_bar 100) = None.
Proof.
  split; [vm_compute; discriminate|]. split; [|vm_compute; reflexivity].
  intros (p & Hp & _). vm_compute in Hp. discriminate.
Qed.

(** C2, as the code has it.  [RiskManager.calculate_position_size] always
    returns a lot size in [0.01, 5.0]; it returns 0.01 when an input is
    unavailable, when the stop distance is not positive and when the risk
    per lot is not positive.  The sizing inside [BacktestEngine.enter_trade]
    opens no position when the risk per lot is not positive; when it is
    positive it opens one, whose lots lie in [MIN_LOT, MAX_LOT] provided
    [MIN_LOT <= MAX_LOT]. *)
Theorem position_sizing_clamped :
  (forall t symbol stop_loss_price side risk_percent,
     let lots := RiskManager.calculate_position_size t symbol stop_loss_price
                   side risk_percent in
     RiskManager.min_lot <= lots <= RiskManager.max_lot /\
     (RiskManager.account_info t = None \/
      RiskManager.symbol_info_tick t symbol = None \/
      RiskManager.symbol_info t symbol = None -> lots = RiskManager.min_lot) /\
     (forall tk, RiskManager.symbol_info_tick t symbol = Some tk ->
        RiskManager.stop_distance tk side stop_loss_price <= 0 ->
        lots = RiskManager.min_lot) /\
     (forall acct tk info,
        RiskManager.account_info t = Some acct ->
        RiskManager.symbol_info_tick t symbol = Some tk ->
        RiskManager.symbol_info t symbol = Some info ->
        RiskManager.risk_per_lot symbol
          (RiskManager.stop_distance tk side stop_loss_price)
          (RiskManager.trade_contract_size info) <= 0 ->
        lots = RiskManager.min_lot)) /\
  (forall (fib_levels daily_levels : Type)
          (strategy : BacktestEngine.Strategy fib_levels daily_levels)
          cfg slippage balance d current_bar index,
     let distance :=
       BacktestEngine.entry_distance strategy cfg slippage d current_bar index in
     let opened :=
       BacktestEngine.new_position strategy cfg slippage balance d current_bar index in
     (BacktestEngine.risk_per_lot cfg distance <= 0 -> opened = None) /\
     (0 < BacktestEngine.risk_per_lot cfg distance -> exists p, opened = Some p) /\
     (BacktestEngine.MIN_LOT cfg <= BacktestEngine.MAX_LOT cfg ->
      forall p, opened = Some p ->
        BacktestEngine.MIN_LOT cfg <= BacktestEngine.Position.lots p
          <= BacktestEngine.MAX_LOT cfg)).
Proof.
  split.
  - intros t symbol sl side risk lots. subst lots. split; [|split; [|split]].
    + apply RiskManager.position_size_in_range.
    + apply RiskManager.position_size_unavailable.
    + intros tk. apply RiskManager.position_size_zero_distance.
    + intros acct tk info. apply RiskManager.position_size_no_risk.
  - intros fib daily strategy cfg slippage balance d b index distance opened.
    subst distance opened. split; [|split].
    + apply BacktestEngine.new_position_skips.
    + apply BacktestEngine.new_position_opens.
    + intros Hlots p. now apply BacktestEngine.new_position_lots_range.
Qed.

(** ** [analytics/optimizer.py]: [StrategyOptimizer] *)

Module StrategyOptimizer.

Section Optimizer.

(** Parameter values, and the dict that a backtest returns. *)
Context {V result : Type}.

(** [self.base_config] *)
Variable base_config : gmap string V.

(** The backtest of the [i]-th combination: a strategy and an engine are
    built from the configuration and [run_backtest(self.data)] is called.
    The index stands for the random slippage of that run. *)
Variable run_backtest : nat -> gmap string V -> result.

(** ['error' in result] and [result.get(key)]. *)
Variable has_error : result -> bool.
Variable get : result -> string -> option xnum.

(** One entry of [self.results]. *)
Record trial := {
  params : gmap string V;
  score : xnum;
  outcome : result
}.

(** The dict that [optimize_parameters] returns; [all_results] is the
    list object [self.results] itself. *)
Record optimum := {
  best_params : option (gmap string V);
  best_score : xnum;
  best_result : option result;
  all_results : list trial
}.

(** Every branch reads the metric's own key, with default 0. *)
Definition calculate_metric (r : result) (metric : string) : xnum :=
  if String.eqb metric "sharpe_ratio" then default (Fin 0) (get r "sharpe_ratio")
  else if String.eqb metric "profit_factor" then default (Fin 0) (get r "profit_factor")
  else if String.eqb metric "win_rate" then default (Fin 0) (get r "win_rate")
  else if String.eqb metric "total_pnl" then default (Fin 0) (get r "total_pnl")
  else if String.eqb metric "calmar_ratio" then default (Fin 0) (get r "calmar_ratio")
  else default (Fin 0) (get r metric).

(** [itertools.product] of the value lists: the last pool varies fastest. *)
Fixpoint product (values : list (list V)) : list (list V) :=
  match values with
  | [] => [[]]
  | pool :: rest => v ← pool; (fun combination => v :: combination) <$> product rest
  end.

(** The grid is a dict, so its keys are distinct; it is kept as the list of
    its items in insertion order. *)
Definition generate_parameter_combinations (param_grid : list (string * list V))
    : list (gmap string V) :=
  let keys := fst <$> param_grid in
  let values := snd <$> param_grid in
  (fun combination => list_to_map (zip keys combination)) <$> product values.

(** The body of the [for] loop, for combination [i]; the state is the three
    [best_*] locals and [self.results]. *)
Definition try_combination (metric : string) (s : optimum) (i : nat)
    (p : gmap string V) : optimum :=
  let current_config := p ∪ base_config in
  let r := run_backtest i current_config in
  if has_error r then s
  else
    let sc := calculate_metric r metric in
    let results := all_results s ++ [{| params := p; score := sc; outcome := r |}] in
    if X.gtb sc (best_score s) then
      {| best_params := Some p; best_score := sc; best_result := Some r;
         all_results := results |}
    else
      {| best_params := best_params s; best_score := best_score s;
         best_result := best_result s; all_results := results |}.

Fixpoint search (metric : string) (combinations : list (gmap string V)) (i : nat)
    (s : optimum) : optimum :=
  match combinations with
  | [] => s
  | p :: rest => search metric rest (S i) (try_combination metric s i p)
  end.

(** [optimize_parameters], called on an optimizer whose [self.results]
    holds [results]. *)
Definition optimize_parameters (results : list trial)
    (param_grid : list (string * list V)) (metric : string) : optimum :=
  search metric (generate_parameter_combinations param_grid) 0
    {| best_params := None; best_score := NInf; best_result := None;
       all_results := results |}.

(** *** The trials of one call *)

(** The entries that a call appends, and the number of combinations whose
    backtest carried the error marker. *)
Fixpoint trials_of (metric : string) (combinations : list (gmap string V)) (i : nat)
    : list trial :=
  match combinations with
  | [] => []
  | p :: rest =>
      let r := run_backtest i (p ∪ base_config) in
      if has_error r then trials_of metric rest (S i)
      else {| params := p; score := calculate_metric r metric; outcome := r |}
             :: trials_of metric rest (S i)
  end.






Lemma search_results metric combinations : forall i s,
  all_results (search metric combinations i s)
  = all_results s ++ trials_of metric combinations i.
Proof.
  induction combinations as [|p rest IH]; intros i s; simpl.
  - now rewrite app_nil_r.
  - rewrite IH. unfold try_combination.
    destruct (has_error _); [reflexivity|].
    destruct (X.gtb _ _); simpl; now rewrite <- app_assoc.
Qed.

(** What the [best_*] locals are with respect to the trials made so far. *)
Definition best_of (done : list trial) (s : optimum) : Prop :=
  X.is_nan (best_score s) = false /\
  Forall (fun t => X.le (score t) (best_score s)) done /\
  ((best_score s = NInf /\ best_params s = None /\ best_result s = None /\
    Forall (fun t => score t = NInf) done) \/
   (exists k t, done !! k = Some t /\ score t = best_score s /\
      best_params s = Some (params t) /\ best_result s = Some (outcome t) /\
      forall j t', (j < k)%nat -> done !! j = Some t' ->
        X.gtb (best_score s) (score t') = true)).

Lemma try_combination_best metric done s i p :
  best_of done s ->
  Forall (fun t => X.is_nan (score t) = false) (trials_of metric [p] i) ->
  best_of (done ++ trials_of metric [p] i) (try_combination metric s i p).
Proof.
  intros (Hnan & Hle & Hbest) Hsc. unfold try_combination. simpl in *.
  destruct (has_error _); [rewrite app_nil_r; repeat split; assumption|].
  apply Forall_cons in Hsc as [Hsc _]. simpl in Hsc.
  set (r := run_backtest i (p ∪ base_config)) in *.
  set (sc := calculate_metric r metric) in *.
  destruct (X.gtb sc (best_score s)) eqn:E; unfold best_of; simpl.
  - split; [exact Hsc|]. split.
    + apply Forall_app. split.
      * eapply Forall_impl; [exact Hle|]. intros t Ht. simpl in Ht.
        eapply X.le_trans; [exact Ht | now apply X.gtb_le].
      * constructor; [now apply X.le_refl | constructor].
    + right. exists (length done), {| params := p; score := sc; outcome := r |}.
      split; [now rewrite lookup_app_r, Nat.sub_diag by lia|].
      repeat split. intros j t' Hj Ht'. rewrite lookup_app_l in Ht' by exact Hj.
      eapply X.le_gtb_trans; [|exact E].
      eapply (proj1 (Forall_lookup _ _) Hle), Ht'.
  - split; [exact Hnan|]. split.
    + apply Forall_app. split; [exact Hle|].
      constructor; [now apply X.not_gtb_le | constructor].
    + destruct Hbest as [(Hb & Hp & Hr & Hall) | (k & t & Hk & Ht & Hp & Hr & Hfirst)].
      * left. repeat split; try assumption. apply Forall_app. split; [exact Hall|].
        constructor; [|constructor]. simpl. rewrite Hb in E.
        now apply X.not_gtb_NInf.
      * right. exists k, t. split.
        { rewrite lookup_app_l; [exact Hk|]. eapply lookup_lt_Some, Hk. }
        repeat split; try assumption. intros j t' Hj Ht'.
        apply (Hfirst j t' Hj). rewrite lookup_app_l in Ht'; [exact Ht'|].
        apply lookup_lt_Some in Hk. lia.
Qed.

Lemma trials_of_cons metric p rest i :
  trials_of metric (p :: rest) i
  = trials_of metric [p] i ++ trials_of metric rest (S i).
Proof. simpl. destruct (has_error _); reflexivity. Qed.

Lemma search_best metric combinations : forall i s done,
  best_of done s ->
  Forall (fun t => X.is_nan (score t) = false) (trials_of metric combinations i) ->
  best_of (done ++ trials_of metric combinations i) (search metric combinations i s).
Proof.
  induction combinations as [|p rest IH]; intros i s done Hs Hsc.
  - simpl. now rewrite app_nil_r.
  - rewrite trials_of_cons in Hsc |- *. apply Forall_app in Hsc as [H1 H2].
    cbn [search]. rewrite app_assoc. apply IH; [|exact H2].
    now apply try_combination_best.
Qed.

Lemma initial_best results :
  best_of [] {| best_params := None; best_score := NInf; best_result := None;
                all_results := results |}.
Proof. unfold best_of; simpl. split; [reflexivity|]. split; [constructor|]. left. auto. Qed.


End Optimizer.

(** *** An optimizer used twice

    A backtest that always reports a score of 1, on a grid of two values,
    run on an optimizer that already holds a trial of score 5 from an
    earlier call. *)

Definition flat_backtest (_ : nat) (_ : gmap string Q) : option xnum := Some (Fin 1).

Definition failed (r : option xnum) : bool :=
  match r with None => true | Some _ => false end.

Definition read (r : option xnum) (_ : string) : option xnum := r.

Definition earlier_trial : trial :=
  {| params := {["MIN_CONFIRMATIONS" := 4]}; score := Fin 5; outcome := Some (Fin 5) |}.

Definition two_values : list (string * list Q) := [("MIN_CONFIRMATIONS", [2; 3])].


(** The same call on a new optimizer returns the two trials. *)
Example new_optimizer_returns_grid :
  let out := optimize_parameters ∅ flat_backtest failed read
               [] two_values "total_pnl" in
  score <$> all_results out = [Fin 1; Fin 1] /\
  best_score out = Fin 1 /\
  best_params out = Some {["MIN_CONFIRMATIONS" := 2]}.
Proof. vm_compute. repeat split; reflexivity. Qed.

End StrategyOptimizer.

(** * Further properties of the code

    ** The backtest run as a whole *)

Module EngineRun.

Import BacktestEngine.

Section Run.

Context {fib_levels daily_levels : Type}.
Context (strategy : Strategy fib_levels daily_levels).
Variable cfg : config.
Variable get_fibonacci_levels : list bar -> fib_levels * bias.
Variable get_daily_levels : list bar -> daily_levels.
Variable slippage : nat -> Q.

Local Abbreviation confirmations_of :=
  (confirmations_at strategy get_fibonacci_levels get_daily_levels).
Local Abbreviation check_entry :=
  (check_entry_conditions strategy cfg get_fibonacci_levels get_daily_levels slippage).
Local Abbreviation step :=
  (bar_step strategy cfg get_fibonacci_levels get_daily_levels slippage).
Local Abbreviation run_loop :=
  (loop strategy cfg get_fibonacci_levels get_daily_levels slippage).
Local Abbreviation run :=
  (run_backtest strategy cfg get_fibonacci_levels get_daily_levels slippage).
Local Abbreviation open_position := (new_position strategy cfg slippage).

(** *** The warm-up *)

Lemma drop_all {A} (n : nat) (l : list A) : (length l <= n)%nat -> drop n l = [].
Proof. intros H. now apply drop_ge. Qed.

(** *** A strategy that never qualifies *)

(** A direction qualifies when its score reaches the minimum and is
    strictly above the other score. *)
Definition qualifies (c : Confirmations.t) (d : side) : Prop :=
  MIN_CONFIRMATIONS cfg <= Confirmations.score c d /\
  Confirmations.score c (opposite d) < Confirmations.score c d.

Lemma check_entry_no_signal st current_bar previous_bars index :
  ~ qualifies (confirmations_of previous_bars) Buy ->
  ~ qualifies (confirmations_of previous_bars) Sell ->
  check_entry st current_bar previous_bars index = st.
Proof.
  intros Hb Hs. unfold check_entry_conditions.
  set (c := confirmations_of previous_bars) in *.
  destruct (Py.leb _ (Confirmations.buy c) && Py.ltb _ (Confirmations.buy c)) eqn:E1.
  { exfalso. apply Hb. apply andb_true_iff in E1 as [H1 H2].
    apply Py.leb_le in H1. apply Py.ltb_lt in H2. unfold qualifies. simpl. auto. }
  destruct (Py.leb _ (Confirmations.sell c) && Py.ltb _ (Confirmations.sell c)) eqn:E2;
    [|reflexivity].
  exfalso. apply Hs. apply andb_true_iff in E2 as [H1 H2].
  apply Py.leb_le in H1. apply Py.ltb_lt in H2. unfold qualifies. simpl. auto.
Qed.

Lemma step_flat_no_signal data st current_bar i :
  position st = None ->
  ~ qualifies (confirmations_of (take (i + 1) data)) Buy ->
  ~ qualifies (confirmations_of (take (i + 1) data)) Sell ->
  step data st current_bar i = update_equity_curve st current_bar i.
Proof.
  intros Hflat Hb Hs. unfold bar_step, exit_step, entry_step.
  rewrite Hflat. simpl. rewrite Hflat.
  now rewrite check_entry_no_signal.
Qed.

Lemma loop_no_signal data rows : forall i st,
  position st = None ->
  (forall n, ~ qualifies (confirmations_of (take n data)) Buy /\
             ~ qualifies (confirmations_of (take n data)) Sell) ->
  let st' := run_loop data rows i st in
  trades st' = trades st /\ position st' = None /\
  current_balance st' = current_balance st /\
  equity_curve st' = equity_curve st ++
    ((fun b => {| timestamp := name b; equity := current_balance st |}) <$> rows).
Proof.
  induction rows as [|b rows IH]; intros i st Hflat Hno; cbn [loop].
  - simpl. rewrite app_nil_r. auto.
  - destruct (Hno (i + 1)%nat) as [Hb Hs].
    rewrite (step_flat_no_signal data st b i Hflat Hb Hs).
    destruct (IH (S i) (update_equity_curve st b i) Hflat Hno)
      as (Ht & Hp & Hbal & Heq).
    rewrite Ht, Hp, Hbal, Heq. simpl. rewrite <- app_assoc. auto.
Qed.

(** *** What an entry creates *)

Lemma new_position_fields balance d current_bar index p :
  open_position balance d current_bar index = Some p ->
  Position.entry_time p = name current_bar /\
  Position.entry_index p = index /\
  Position.commission p = COMMISSION_PER_LOT cfg * Position.lots p /\
  exists lots, Position.lots p = Py.max (MIN_LOT cfg) (Py.min (MAX_LOT cfg) lots).
Proof.
  unfold new_position. destruct (entry_sl_tp strategy d current_bar) as [s t].
  destruct (Py.leb _ 0); [discriminate|]. intros [= <-]. simpl. eauto.
Qed.

Lemma check_entry_cases st current_bar previous_bars index :
  position st = None ->
  let st' := check_entry st current_bar previous_bars index in
  trades st' = trades st /\
  (position st' = None \/
   exists d p, open_position (current_balance st) d current_bar index = Some p /\
     position st' = Some p).
Proof.
  intros Hflat st'. subst st'.
  destruct (check_entry_keeps strategy cfg get_fibonacci_levels get_daily_levels
              slippage st current_bar previous_bars index) as (_ & Ht & _).
  split; [exact Ht|]. unfold check_entry_conditions, enter_trade.
  set (c := confirmations_of previous_bars).
  destruct (Py.leb _ (Confirmations.buy c) && Py.ltb _ (Confirmations.buy c)).
  { destruct (open_position (current_balance st) Buy current_bar index) eqn:E;
      simpl; [right; eauto | left; exact Hflat]. }
  destruct (Py.leb _ (Confirmations.sell c) && Py.ltb _ (Confirmations.sell c)).
  { destruct (open_position (current_balance st) Sell current_bar index) eqn:E;
      simpl; [right; eauto | left; exact Hflat]. }
  left. exact Hflat.
Qed.

(** One iteration, with what it does to the position: the exit half either
    keeps the state or closes the open position; the entry half then either
    keeps the position or, being flat, opens one at this bar. *)
Lemma step_cases data st current_bar i :
  let st' := step data st current_bar i in
  (trades st' = trades st \/
   exists p r, position st = Some p /\
     trades st' = trades st ++ [close_position cfg p current_bar r]) /\
  (position st' = None \/
   (position st' = position st /\ trades st' = trades st) \/
   exists balance d p, open_position balance d current_bar i = Some p /\
     position st' = Some p).
Proof.
  unfold bar_step. cbn [trades position update_equity_curve].
  set (st1 := exit_step cfg st current_bar i).
  assert (H1 : (st1 = st) \/
               (exists p r, position st = Some p /\ position st1 = None /\
                  trades st1 = trades st ++ [close_position cfg p current_bar r])).
  { destruct (exit_step_cases cfg st current_bar i)
      as [[H _] | (p & r & Hp & _ & Ht & _ & _ & _ & Hn)]; [left; exact H|].
    right. exists p, r. auto. }
  unfold entry_step. destruct (position st1) as [q|] eqn:Hq.
  - destruct H1 as [H1 | (p & r & _ & Hn & _)]; [|congruence].
    rewrite Hq. rewrite H1 in *. split; [left; reflexivity|]. right. left. auto.
  - destruct (check_entry_cases st1 current_bar (take (i + 1) data) i Hq)
      as (Ht & Hpos).
    rewrite Ht. split.
    + destruct H1 as [-> | (p & r & Hp & _ & Ht1)]; [left; reflexivity|].
      right. exists p, r. auto.
    + destruct Hpos as [Hn | (d & p & Ho & Hp)]; [left; exact Hn|].
      right. right. exists (current_balance st1), d, p. auto.
Qed.

(** *** Trades do not overlap *)

(** Trade [a] is over when trade [b] begins. *)
Definition before (a b : Trade.t) : Prop :=
  (Trade.exit_time a <= Trade.entry_time b)%Z.

Definition ordered (now : Z) (st : engine) : Prop :=
  StronglySorted before (trades st) /\
  Forall (fun t => (Trade.entry_time t <= Trade.exit_time t)%Z) (trades st) /\
  Forall (fun t => (Trade.exit_time t <= now)%Z) (trades st) /\
  match position st with
  | Some p =>
      Forall (fun t => (Trade.exit_time t <= Position.entry_time p)%Z) (trades st) /\
      (Position.entry_time p <= now)%Z
  | None => True
  end.

Lemma StronglySorted_snoc {A} (R : A -> A -> Prop) (l : list A) (x : A) :
  StronglySorted R l -> Forall (fun a => R a x) l -> StronglySorted R (l ++ [x]).
Proof.
  induction 1 as [|a l Hl IH Ha]; intros Hx; simpl.
  - repeat constructor.
  - inversion Hx; subst. constructor; [auto|].
    apply Forall_app. split; [exact Ha | repeat constructor; assumption].
Qed.

Lemma step_ordered data st current_bar i now :
  ordered now st -> (now <= name current_bar)%Z ->
  ordered (name current_bar) (step data st current_bar i).
Proof.
  intros (Hs & Hd & Hn & Hp) Hnow.
  destruct (step_cases data st current_bar i) as (Ht & Hpos).
  assert (Hn' : Forall (fun t => (Trade.exit_time t <= name current_bar)%Z) (trades st)).
  { eapply Forall_impl; [exact Hn|]. simpl. intros; lia. }
  assert (Hord : StronglySorted before (trades (step data st current_bar i)) /\
                 Forall (fun t => (Trade.entry_time t <= Trade.exit_time t)%Z)
                   (trades (step data st current_bar i)) /\
                 Forall (fun t => (Trade.exit_time t <= name current_bar)%Z)
                   (trades (step data st current_bar i))).
  { destruct Ht as [-> | (p & r & Hp' & ->)]; [auto|].
    rewrite Hp' in Hp. destruct Hp as [Hbef Hent]. split; [|split].
    - apply StronglySorted_snoc; [exact Hs | exact Hbef].
    - apply Forall_app. split; [exact Hd|]. repeat constructor. simpl. lia.
    - apply Forall_app. split; [exact Hn'|]. repeat constructor. simpl. lia. }
  destruct Hord as (Hs' & Hd' & Hnn). unfold ordered.
  split; [exact Hs'|]. split; [exact Hd'|]. split; [exact Hnn|].
  destruct Hpos as [-> | [[-> Hsame] | (balance & d & p & Ho & ->)]]; [exact I| |].
  - destruct (position st) as [p|]; [|exact I]. rewrite Hsame.
    destruct Hp as [Hbef Hent]. split; [exact Hbef | lia].
  - apply new_position_fields in Ho as (-> & _). split; [exact Hnn | lia].
Qed.

Lemma loop_ordered data rows : forall i st now,
  ordered now st ->
  Forall (fun b => (now <= name b)%Z) rows ->
  StronglySorted (fun a b => (name a <= name b)%Z) rows ->
  exists now', ordered now' (run_loop data rows i st).
Proof.
  induction rows as [|b rows IH]; intros i st now Hst Hnow Hsorted; cbn [loop].
  - eauto.
  - inversion Hnow; subst. inversion Hsorted; subst.
    eapply IH; [apply (step_ordered data st b i now); assumption | | assumption].
    assumption.
Qed.

(** *** Every trade is sized and priced by the rules *)

Definition gross (d : side) (entry_price exit_price lots : Q) : Q :=
  match d with
  | Buy => (exit_price - entry_price) * lots * 100
  | Sell => (entry_price - exit_price) * lots * 100
  end.

Definition trade_by_rules (t : Trade.t) : Prop :=
  MIN_LOT cfg <= Trade.lots t <= MAX_LOT cfg /\
  Trade.commission t = COMMISSION_PER_LOT cfg * Trade.lots t /\
  Trade.symbol t = SYMBOL cfg /\
  Trade.pnl t =
    gross (Trade.direction t) (Trade.entry_price t) (Trade.exit_price t) (Trade.lots t)
    - Trade.commission t.

Definition position_by_rules (p : Position.t) : Prop :=
  MIN_LOT cfg <= Position.lots p <= MAX_LOT cfg /\
  Position.commission p = COMMISSION_PER_LOT cfg * Position.lots p.

Definition by_rules (st : engine) : Prop :=
  Forall trade_by_rules (trades st) /\
  match position st with Some p => position_by_rules p | None => True end.

Lemma close_position_by_rules p current_bar r :
  position_by_rules p -> trade_by_rules (close_position cfg p current_bar r).
Proof.
  intros (Hl & Hc). unfold trade_by_rules, close_position, gross; simpl.
  repeat split; try apply Hl; try exact Hc; try now destruct (Position.direction p).
Qed.

Lemma step_by_rules data st current_bar i :
  MIN_LOT cfg <= MAX_LOT cfg ->
  by_rules st -> by_rules (step data st current_bar i).
Proof.
  intros Hlots (Ht & Hp).
  destruct (step_cases data st current_bar i) as (Htr & Hpos). split.
  - destruct Htr as [-> | (p & r & Hp' & ->)]; [exact Ht|].
    rewrite Hp' in Hp. apply Forall_app. split; [exact Ht|].
    constructor; [|constructor]. now apply close_position_by_rules.
  - destruct Hpos as [-> | [[-> _] | (balance & d & p & Ho & ->)]];
      [exact I | exact Hp |].
    split.
    + eapply new_position_lots_range; eassumption.
    + now apply new_position_fields in Ho as (_ & _ & Hc & _).
Qed.

Lemma loop_by_rules data rows : forall i st,
  MIN_LOT cfg <= MAX_LOT cfg ->
  by_rules st -> by_rules (run_loop data rows i st).
Proof.
  induction rows as [|b rows IH]; intros i st Hlots Hst; cbn [loop]; [exact Hst|].
  apply IH; [exact Hlots|]. now apply step_by_rules.
Qed.

Lemma reset_ordered balance first now : ordered now (reset balance first).
Proof. unfold ordered, reset; simpl. repeat split; constructor. Qed.

Lemma reset_by_rules balance first : by_rules (reset balance first).
Proof. unfold by_rules, reset; simpl. split; [constructor | exact I]. Qed.

Lemma run_report balance data r :
  run balance data = Some (Report r) ->
  exists first,
    head data = Some first /\
    r_trades r = trades (run_loop data (drop 100 data) 100 (reset balance first)).
Proof.
  unfold run_backtest. destruct data as [|first rest]; [discriminate|].
  intros [= H]. exists first. split; [reflexivity|].
  now apply generate_report_fields in H as (_ & _ & _ & -> & _).
Qed.

(** X1. A frame of at most 100 rows is all warm-up: the loop body never
    runs and the report is the error dict ['No trades executed']; on the
    empty frame [run_backtest] raises instead. *)
Theorem warm_up_yields_no_trades balance data :
  (length data <= 100)%nat ->
  run_backtest strategy cfg get_fibonacci_levels get_daily_levels slippage
    balance data =
    match data with
    | [] => None
    | _ :: _ => Some (Error "No trades executed")
    end.
Proof.
  intros Hlen. unfold run_backtest. destruct data as [|first rest]; [reflexivity|].
  now rewrite (drop_all 100 (first :: rest) Hlen).
Qed.

(** X2. When on no prefix of the frame a direction qualifies, the run never
    opens a position: the trade log stays empty, the balance stays the
    initial balance, the equity curve is flat at it with one point per
    processed row after the first, and the report is the error dict. *)
Theorem no_signal_no_trade balance data :
  (forall n, ~ qualifies (confirmations_of (take n data)) Buy /\
             ~ qualifies (confirmations_of (take n data)) Sell) ->
  forall first rest, data = first :: rest ->
    let st := run_loop data (drop 100 data) 100 (reset balance first) in
    trades st = [] /\ position st = None /\ current_balance st = balance /\
    equity <$> equity_curve st = replicate (1 + (length data - 100)) balance /\
    run balance data = Some (Error "No trades executed").
Proof.
  intros Hno first rest -> st.
  destruct (loop_no_signal (first :: rest) (drop 100 (first :: rest)) 100
              (reset balance first) eq_refl Hno) as (Ht & Hp & Hb & He).
  fold st in Ht, Hp, Hb, He.
  assert (Hrep : forall rows : list bar,
            equity <$> ((fun b => {| timestamp := name b; equity := balance |}) <$> rows)
            = replicate (length rows) balance).
  { induction rows as [|b rows IH]; [reflexivity|].
    rewrite !fmap_cons, IH. reflexivity. }
  split; [exact Ht|]. split; [exact Hp|]. split; [exact Hb|]. split.
  - rewrite He, fmap_app, Hrep, length_drop. reflexivity.
  - unfold run_backtest. fold st. unfold generate_report. now rewrite Ht.
Qed.

(** X3. When the processed rows come in time order, the trades of a report
    do not overlap: in log order every trade has ended when any later one
    begins, and none ends before it begins. *)
Theorem trades_never_overlap balance data :
  StronglySorted (fun a b => (name a <= name b)%Z) (drop 100 data) ->
  forall r, run balance data = Some (Report r) ->
    StronglySorted before (r_trades r) /\
    Forall (fun t => (Trade.entry_time t <= Trade.exit_time t)%Z) (r_trades r).
Proof.
  intros Hsorted r Hr. apply run_report in Hr as (first & _ & ->).
  destruct (drop 100 data) as [|b rows] eqn:Hrows.
  - simpl. split; constructor.
  - assert (Hnow : Forall (fun c => (name b <= name c)%Z) (b :: rows)).
    { inversion Hsorted; subst. constructor; [lia | assumption]. }
    destruct (loop_ordered data (b :: rows) 100 (reset balance first) (name b)
                (reset_ordered balance first (name b)) Hnow Hsorted)
      as (now' & Hs & Hd & _).
    auto.
Qed.

(** X4. With [0 < MIN_LOT <= MAX_LOT], every trade of a report is sized and
    priced by the rules: its lots lie in [MIN_LOT, MAX_LOT], its commission
    is [COMMISSION_PER_LOT] times its lots, it carries the configured
    symbol, and its PnL before commission is positive exactly when the
    price moved its way (up for a buy, down for a sell). *)
Theorem trades_follow_the_rules balance data :
  0 < MIN_LOT cfg -> MIN_LOT cfg <= MAX_LOT cfg ->
  forall r, run balance data = Some (Report r) ->
    Forall (fun t =>
      MIN_LOT cfg <= Trade.lots t <= MAX_LOT cfg /\
      Trade.commission t = COMMISSION_PER_LOT cfg * Trade.lots t /\
      Trade.symbol t = SYMBOL cfg /\
      match Trade.direction t with
      | Buy => 0 < Trade.pnl t + Trade.commission t <->
               Trade.entry_price t < Trade.exit_price t
      | Sell => 0 < Trade.pnl t + Trade.commission t <->
                Trade.exit_price t < Trade.entry_price t
      end) (r_trades r).
Proof.
  intros Hpos Hlots r Hr. apply run_report in Hr as (first & _ & ->).
  destruct (loop_by_rules data (drop 100 data) 100 (reset balance first) Hlots
              (reset_by_rules balance first)) as [Hall _].
  eapply Forall_impl; [exact Hall|]. intros t (Hl & Hc & Hsym & Hpnl).
  split; [exact Hl|]. split; [exact Hc|]. split; [exact Hsym|].
  assert (Hlt : 0 < Trade.lots t) by (destruct Hl; lra).
  rewrite Hpnl. unfold gross. destruct (Trade.direction t).
  - split; intros H.
    + assert (H' : 0 < (Trade.exit_price t - Trade.entry_price t) * Trade.lots t) by lra.
      destruct (Qlt_le_dec (Trade.entry_price t) (Trade.exit_price t)) as [|Hle];
        [assumption|].
      exfalso. assert (0 <= (Trade.entry_price t - Trade.exit_price t) * Trade.lots t)
        by (apply Qmult_le_0_compat; lra). lra.
    + assert (0 < (Trade.exit_price t - Trade.entry_price t) * Trade.lots t)
        by (apply Qmult_lt_0_compat; lra). lra.
  - split; intros H.
    + assert (H' : 0 < (Trade.entry_price t - Trade.exit_price t) * Trade.lots t) by lra.
      destruct (Qlt_le_dec (Trade.exit_price t) (Trade.entry_price t)) as [|Hle];
        [assumption|].
      exfalso. assert (0 <= (Trade.exit_price t - Trade.entry_price t) * Trade.lots t)
        by (apply Qmult_le_0_compat; lra). lra.
    + assert (0 < (Trade.entry_price t - Trade.exit_price t) * Trade.lots t)
        by (apply Qmult_lt_0_compat; lra). lra.
Qed.

End Run.

(** *** The runs used as instances *)

(** A strategy whose two scores are always equal. *)
Definition undecided : Strategy unit unit :=
  {| calculate_confirmations := fun _ _ _ _ =>
       {| Confirmations.buy := 3; Confirmations.sell := 3;
          Confirmations.reasons := [] |};
     calculate_sl_tp := base_calculate_sl_tp (15 # 10) (15 # 10) |}.

Lemma warm_up_yields_no_trades_witness :
  (length [hourly 0 1800; hourly 1 1801] <= 100)%nat /\
  run_backtest always_long gold_config no_fib no_daily no_slippage 10000
    [hourly 0 1800; hourly 1 1801]
  = Some (Error "No trades executed").
Proof.
  split; [simpl; lia|].
  apply (warm_up_yields_no_trades always_long gold_config no_fib no_daily
           no_slippage 10000 [hourly 0 1800; hourly 1 1801]).
  simpl; lia.
Defined.

Lemma undecided_never_qualifies n :
  ~ qualifies gold_config (confirmations_at undecided no_fib no_daily (take n gold_bars)) Buy /\
  ~ qualifies gold_config (confirmations_at undecided no_fib no_daily (take n gold_bars)) Sell.
Proof. unfold qualifies; simpl. split; intros [_ H]; lra. Qed.

Lemma no_signal_no_trade_witness :
  (forall n,
     ~ qualifies gold_config
         (confirmations_at undecided no_fib no_daily (take n gold_bars)) Buy /\
     ~ qualifies gold_config
         (confirmations_at undecided no_fib no_daily (take n gold_bars)) Sell) /\
  forall first rest, gold_bars = first :: rest ->
    let st := loop undecided gold_config no_fib no_daily no_slippage gold_bars
                (drop 100 gold_bars) 100 (reset 10000 first) in
    trades st = [] /\ position st = None /\ current_balance st = 10000 /\
    equity <$> equity_curve st = replicate (1 + (length gold_bars - 100)) 10000 /\
    run_backtest undecided gold_config no_fib no_daily no_slippage 10000 gold_bars
      = Some (Error "No trades executed").
Proof.
  split; [exact undecided_never_qualifies|].
  exact (no_signal_no_trade undecided gold_config no_fib no_daily no_slippage
           10000 gold_bars undecided_never_qualifies).
Defined.

Lemma gold_rows_in_time_order :
  StronglySorted (fun a b => (name a <= name b)%Z) (drop 100 gold_bars).
Proof.
  change (drop 100 gold_bars) with [hourly 100 1800; hourly 101 1805; hourly 102 1790].
  repeat constructor; simpl; lia.
Qed.

Lemma trades_never_overlap_witness :
  StronglySorted (fun a b => (name a <= name b)%Z) (drop 100 gold_bars) /\
  forall r,
    run_backtest always_long gold_config no_fib no_daily no_slippage 10000 gold_bars
      = Some (Report r) ->
    StronglySorted before (r_trades r) /\
    Forall (fun t => (Trade.entry_time t <= Trade.exit_time t)%Z) (r_trades r).
Proof.
  split; [exact gold_rows_in_time_order|].
  exact (trades_never_overlap always_long gold_config no_fib no_daily no_slippage
           10000 gold_bars gold_rows_in_time_order).
Defined.

Lemma gold_lot_bounds : 0 < MIN_LOT gold_config /\ MIN_LOT gold_config <= MAX_LOT gold_config.
Proof. simpl. split; lra. Qed.

Lemma trades_follow_the_rules_witness :
  0 < MIN_LOT gold_config /\ MIN_LOT gold_config <= MAX_LOT gold_config /\
  forall r,
    run_backtest always_long gold_config no_fib no_daily no_slippage 10000 gold_bars
      = Some (Report r) ->
    Forall (fun t =>
      MIN_LOT gold_config <= Trade.lots t <= MAX_LOT gold_config /\
      Trade.commission t = COMMISSION_PER_LOT gold_config * Trade.lots t /\
      Trade.symbol t = SYMBOL gold_config /\
      match Trade.direction t with
      | Buy => 0 < Trade.pnl t + Trade.commission t <->
               Trade.entry_price t < Trade.exit_price t
      | Sell => 0 < Trade.pnl t + Trade.commission t <->
                Trade.exit_price t < Trade.entry_price t
      end) (r_trades r).
Proof.
  split; [apply gold_lot_bounds|]. split; [apply gold_lot_bounds|].
  exact (trades_follow_the_rules always_long gold_config no_fib no_daily no_slippage
           10000 gold_bars (proj1 gold_lot_bounds) (proj2 gold_lot_bounds)).
Defined.

End EngineRun.

(** ** The other indicators of [calculate_indicators]

    The price columns of a frame carry no NaN, so they are lists of
    rationals; NaN appears only in what the rolling windows leave
    undefined. *)

Module IndicatorFrame.

Import Indicators.

(** *** [ewm(span=span, adjust=False).mean()] *)

Definition alpha (span : Q) : Q := 2 / (span + 1).

(** [y_t = (1 - alpha) * y_(t-1) + alpha * x_t] *)
Fixpoint ewm_from (a prev : Q) (xs : list Q) : list Q :=
  match xs with
  | [] => []
  | x :: rest => let y := (1 - a) * prev + a * x in y :: ewm_from a y rest
  end.

(** The first value seeds the average.  pandas refuses a span below 1 with
    a [ValueError]: [None]. *)
Definition ewm_mean (span : Q) (xs : list Q) : option (list Q) :=
  if Py.ltb span 1 then None
  else Some match xs with
            | [] => []
            | x :: rest => x :: ewm_from (alpha span) x rest
            end.

(** Column minus column. *)
Definition sub (xs ys : list Q) : list Q := zip_with Qminus xs ys.

(** [BacktestEngine.calculate_macd]: the three columns; [None] when a span
    is refused. *)
Definition calculate_macd (series : list Q) (fast slow signal : Q)
    : option (list Q * list Q * list Q) :=
  fast_ema ← ewm_mean fast series;
  slow_ema ← ewm_mean slow series;
  let macd_line := sub fast_ema slow_ema in
  signal_line ← ewm_mean signal macd_line;
  let hist := sub macd_line signal_line in
  Some (macd_line, signal_line, hist).

(** [DataManager.calculate_macd]: the same, with three columns of zeros
    when it fails. *)
Definition calculate_macd_or_zeros (series : list Q) (fast slow signal : Q)
    : list Q * list Q * list Q :=
  let empty := replicate (length series) 0 in
  default (empty, empty, empty) (calculate_macd series fast slow signal).

(** *** [calculate_atr] *)

(** The true range of a row: the greatest of the three distances; on the
    first row there is no previous close and the two distances to it are
    NaN, which the row maximum skips. *)
Definition true_range (prev_close : option Q) (b : BacktestEngine.bar) : Q :=
  let h := BacktestEngine.high b in
  let l := BacktestEngine.low b in
  match prev_close with
  | None => h - l
  | Some pc => Py.max (Py.max (h - l) (Qabs (h - pc))) (Qabs (l - pc))
  end.

Fixpoint true_ranges (prev_close : option Q) (df : list BacktestEngine.bar)
    : list Q :=
  match df with
  | [] => []
  | b :: rest =>
      true_range prev_close b :: true_ranges (Some (BacktestEngine.close b)) rest
  end.

(** [rolling(window=period).mean()]: [min_periods] is the window, so a cell
    is defined only when the window holds [period] observations. *)
Definition rolling_mean_full_at (period : nat) (s : series) (i : nat) : option Q :=
  let obs := observations (window period i s) in
  match obs with
  | [] => None
  | _ => if decide (period <= length obs)%nat then Some (Py.mean obs) else None
  end.

Definition rolling_mean_full (period : nat) (s : series) : series :=
  rolling_mean_full_at period s <$> seq 0 (length s).

Definition calculate_atr (df : list BacktestEngine.bar) (period : nat) : series :=
  rolling_mean_full period (Some <$> true_ranges None df).

(** *** Facts about the moving average *)


Lemma ewm_from_length a xs : forall prev, length (ewm_from a prev xs) = length xs.
Proof. induction xs as [|x xs IH]; intros prev; simpl; [|rewrite IH]; reflexivity. Qed.


Lemma ewm_from_constant a c n : forall prev,
  prev == c -> Forall (fun y => y == c) (ewm_from a prev (replicate n c)).
Proof.
  induction n as [|n IH]; intros prev Hprev; simpl; [constructor|].
  assert (Hy : (1 - a) * prev + a * c == c) by (rewrite Hprev; ring).
  constructor; [exact Hy | now apply IH].
Qed.

Lemma ewm_from_take a xs : forall prev n,
  ewm_from a prev (take n xs) = take n (ewm_from a prev xs).
Proof.
  induction xs as [|x xs IH]; intros prev [|n]; simpl; try reflexivity.
  now rewrite IH.
Qed.

Lemma ewm_mean_take span xs n :
  ewm_mean span (take n xs) = take n <$> ewm_mean span xs.
Proof.
  unfold ewm_mean. destruct (Py.ltb span 1); [reflexivity|]. simpl. f_equal.
  destruct xs as [|x xs], n as [|n]; simpl; try reflexivity.
  now rewrite ewm_from_take.
Qed.

Lemma sub_take xs ys n : sub (take n xs) (take n ys) = take n (sub xs ys).
Proof. unfold sub. now rewrite zip_with_take. Qed.

Lemma ewm_mean_length span xs ys : ewm_mean span xs = Some ys -> length ys = length xs.
Proof.
  unfold ewm_mean. destruct (Py.ltb span 1); [discriminate|]. intros [= <-].
  destruct xs; simpl; [reflexivity | now rewrite ewm_from_length].
Qed.

Lemma ewm_mean_defined span xs : 1 <= span -> exists ys, ewm_mean span xs = Some ys.
Proof.
  intros H. unfold ewm_mean. apply Py.ltb_ge in H. rewrite H. eauto.
Qed.

Lemma ewm_mean_refused span xs : span < 1 -> ewm_mean span xs = None.
Proof. intros H. unfold ewm_mean. apply Py.ltb_lt in H. now rewrite H. Qed.

Lemma sub_length xs ys : length xs = length ys -> length (sub xs ys) = length xs.
Proof. intros H. unfold sub. rewrite length_zip_with. lia. Qed.

Lemma calculate_macd_lengths series fast slow signal m s h :
  calculate_macd series fast slow signal = Some (m, s, h) ->
  length m = length series /\ length s = length series /\ length h = length series.
Proof.
  unfold calculate_macd.
  destruct (ewm_mean fast series) as [f|] eqn:Ef; simpl; [|discriminate].
  destruct (ewm_mean slow series) as [sl|] eqn:Es; simpl; [|discriminate].
  destruct (ewm_mean signal (sub f sl)) as [sg|] eqn:Eg; simpl; [|discriminate].
  intros [= <- <- <-].
  apply ewm_mean_length in Ef, Es, Eg.
  assert (length (sub f sl) = length series) by (rewrite sub_length; lia).
  split; [assumption|]. split; [lia|]. rewrite sub_length; lia.
Qed.

(** *** Facts about windows on a prefix *)

Lemma window_take period i n (s : series) :
  (i < n)%nat -> window period i (take n s) = window period i s.
Proof.
  intros H. unfold window. rewrite take_take. now replace (min (i + 1) n) with (i + 1)%nat by lia.
Qed.

(** A column computed cell by cell, each cell from the rows up to it, is
    the same on a prefix of the frame. *)
Lemma cells_take {A} (f : series -> nat -> A) (s : series) (n : nat) :
  (forall i, (i < n)%nat -> f (take n s) i = f s i) ->
  f (take n s) <$> seq 0 (length (take n s)) = take n (f s <$> seq 0 (length s)).
Proof.
  intros Hf. apply list_eq. intros i.
  rewrite list_lookup_fmap, length_take.
  destruct (decide (i < n)%nat) as [Hn|Hn].
  - rewrite lookup_take_lt by exact Hn. rewrite list_lookup_fmap.
    destruct (decide (i < length s)%nat) as [Hl|Hl].
    + rewrite !lookup_seq_lt by lia. simpl. now rewrite Hf.
    + rewrite !lookup_seq_ge by lia. reflexivity.
  - rewrite lookup_take_ge by lia. rewrite lookup_seq_ge by lia. reflexivity.
Qed.

Lemma rolling_mean_take period (s : series) n :
  rolling_mean period (take n s) = take n (rolling_mean period s).
Proof.
  unfold rolling_mean. apply (cells_take (rolling_mean_at period)).
  intros i Hi. unfold rolling_mean_at. now rewrite window_take.
Qed.

Lemma rolling_mean_full_take period (s : series) n :
  rolling_mean_full period (take n s) = take n (rolling_mean_full period s).
Proof.
  unfold rolling_mean_full. apply (cells_take (rolling_mean_full_at period)).
  intros i Hi. unfold rolling_mean_full_at. now rewrite window_take.
Qed.

Lemma diff_from_take (s : series) : forall prev n,
  diff_from prev (take n s) = take n (diff_from prev s).
Proof.
  induction s as [|x s IH]; intros prev [|n]; simpl; try reflexivity.
  now rewrite IH.
Qed.

Lemma calculate_rsi_take (s : series) period n :
  calculate_rsi (take n s) period = take n (calculate_rsi s period).
Proof.
  unfold calculate_rsi, diff, clip_lower0, clip_upper0, neg.
  rewrite diff_from_take, !fmap_take, !rolling_mean_take.
  now rewrite <- zip_with_take, fmap_take.
Qed.

Lemma true_ranges_take df : forall prev n,
  true_ranges prev (take n df) = take n (true_ranges prev df).
Proof.
  induction df as [|b df IH]; intros prev [|n]; simpl; try reflexivity.
  now rewrite IH.
Qed.

Lemma true_ranges_length df : forall prev, length (true_ranges prev df) = length df.
Proof. induction df as [|b df IH]; intros prev; simpl; [|rewrite IH]; reflexivity. Qed.

Lemma calculate_atr_take df period n :
  calculate_atr (take n df) period = take n (calculate_atr df period).
Proof.
  unfold calculate_atr. now rewrite true_ranges_take, fmap_take, rolling_mean_full_take.
Qed.

Lemma calculate_macd_take series fast slow signal n :
  calculate_macd (take n series) fast slow signal
  = (fun '(m, s, h) => (take n m, take n s, take n h))
      <$> calculate_macd series fast slow signal.
Proof.
  unfold calculate_macd. rewrite !ewm_mean_take.
  destruct (ewm_mean fast series) as [f|]; simpl; [|reflexivity].
  destruct (ewm_mean slow series) as [sl|]; simpl; [|reflexivity].
  rewrite sub_take, ewm_mean_take.
  destruct (ewm_mean signal (sub f sl)) as [sg|]; simpl; [|reflexivity].
  now rewrite sub_take.
Qed.

(** *** Facts about the true range *)

Lemma observations_full (xs : list Q) : observations (Some <$> xs) = xs.
Proof.
  unfold observations. induction xs as [|x xs IH]; [reflexivity|].
  rewrite fmap_cons. cbn [omap list_omap id]. now rewrite IH.
Qed.

Lemma window_full period i (xs : list Q) :
  observations (window period i (Some <$> xs))
  = drop (i + 1 - period) (take (i + 1) xs).
Proof. unfold window. now rewrite <- fmap_take, <- fmap_drop, observations_full. Qed.

Lemma true_range_nonneg prev b :
  (prev = None -> BacktestEngine.low b <= BacktestEngine.high b) ->
  0 <= true_range prev b.
Proof.
  unfold true_range. destruct prev as [pc|]; intros H.
  - rewrite !Py.max_spec.
    eapply Qle_trans; [apply Qabs_nonneg | apply Q.le_max_r].
  - specialize (H eq_refl). lra.
Qed.

Lemma true_ranges_nonneg df : forall prev,
  (prev = None -> forall b, head df = Some b ->
     BacktestEngine.low b <= BacktestEngine.high b) ->
  Forall (fun v => 0 <= v) (true_ranges prev df).
Proof.
  induction df as [|b df IH]; intros prev H; simpl; [constructor|].
  constructor.
  - apply true_range_nonneg. intros ->. now apply H.
  - apply IH. discriminate.
Qed.

Lemma calculate_atr_lookup df period i :
  (i < length df)%nat ->
  calculate_atr df period !! i
  = Some (rolling_mean_full_at period (Some <$> true_ranges None df) i).
Proof.
  intros Hi. unfold calculate_atr, rolling_mean_full.
  rewrite list_lookup_fmap, length_fmap, true_ranges_length.
  now rewrite lookup_seq_lt by lia.
Qed.

(** *** Facts about flat series *)

Lemma ewm_from_same a c xs : forall prev,
  prev == c -> Forall (fun x => x == c) xs ->
  Forall (fun y => y == c) (ewm_from a prev xs).
Proof.
  induction xs as [|x xs IH]; intros prev Hprev Hxs; simpl; [constructor|].
  inversion Hxs as [|? ? Hx Hrest]; subst.
  assert (Hy : (1 - a) * prev + a * x == c) by (rewrite Hprev, Hx; ring).
  constructor; [exact Hy | now apply IH].
Qed.

Lemma ewm_mean_same span c xs ys :
  Forall (fun x => x == c) xs -> ewm_mean span xs = Some ys ->
  Forall (fun y => y == c) ys.
Proof.
  intros Hxs. unfold ewm_mean. destruct (Py.ltb span 1); [discriminate|].
  intros [= <-]. destruct xs as [|x xs]; [constructor|].
  inversion Hxs; subst. constructor; [assumption | now apply ewm_from_same].
Qed.

Lemma sub_same c d xs : forall ys,
  Forall (fun x => x == c) xs -> Forall (fun y => y == d) ys ->
  Forall (fun z => z == c - d) (sub xs ys).
Proof.
  unfold sub. induction xs as [|x xs IH]; intros [|y ys] Hx Hy; simpl;
    try constructor.
  - inversion Hx; inversion Hy; subst. lra.
  - inversion Hx; inversion Hy; subst. now apply IH.
Qed.



(** X7. On a flat series (every close the same) and spans of at least 1,
    the moving average is that constant and the MACD line, its signal line
    and the histogram are zero on every row. *)
Theorem macd_of_flat_series (c : Q) (n : nat) (fast slow signal : Q) :
  1 <= fast -> 1 <= slow -> 1 <= signal ->
  (exists ys, ewm_mean fast (replicate n c) = Some ys /\ length ys = n /\
     Forall (fun y => y == c) ys) /\
  exists m s h, calculate_macd (replicate n c) fast slow signal = Some (m, s, h) /\
    length h = n /\
    Forall (fun v => v == 0) m /\ Forall (fun v => v == 0) s /\
    Forall (fun v => v == 0) h.
Proof.
  intros Hf Hs Hg.
  assert (Hflat : Forall (fun x => x == c) (replicate n c)).
  { apply Forall_replicate. reflexivity. }
  destruct (ewm_mean_defined fast (replicate n c) Hf) as [f Ef].
  destruct (ewm_mean_defined slow (replicate n c) Hs) as [sl Es].
  destruct (ewm_mean_defined signal (sub f sl) Hg) as [sg Eg].
  pose proof (ewm_mean_same _ c _ _ Hflat Ef) as Hfc.
  pose proof (ewm_mean_same _ c _ _ Hflat Es) as Hsc.
  assert (Hm : Forall (fun v => v == 0) (sub f sl)).
  { eapply Forall_impl; [apply (sub_same c c); eassumption|].
    simpl. intros v Hv. rewrite Hv. ring. }
  pose proof (ewm_mean_same _ 0 _ _ Hm Eg) as Hg0.
  split.
  - exists f. split; [exact Ef|]. split; [|exact Hfc].
    apply ewm_mean_length in Ef. now rewrite length_replicate in Ef.
  - exists (sub f sl), sg, (sub (sub f sl) sg).
    assert (Hmacd : calculate_macd (replicate n c) fast slow signal
                    = Some (sub f sl, sg, sub (sub f sl) sg)).
    { unfold calculate_macd. rewrite Ef, Es. simpl. now rewrite Eg. }
    split; [exact Hmacd|]. split.
    + apply calculate_macd_lengths in Hmacd as (_ & _ & ->).
      apply length_replicate.
    + split; [exact Hm|]. split; [exact Hg0|].
      eapply Forall_impl; [apply (sub_same 0 0); eassumption|].
      simpl. intros v Hv. rewrite Hv. ring.
Qed.

Lemma macd_of_flat_series_witness :
  1 <= 12 /\ 1 <= 26 /\ 1 <= 9 /\
  (exists ys, ewm_mean 12 (replicate 5 1800) = Some ys /\ length ys = 5%nat /\
     Forall (fun y => y == 1800) ys) /\
  exists m s h, calculate_macd (replicate 5 1800) 12 26 9 = Some (m, s, h) /\
    length h = 5%nat /\
    Forall (fun v => v == 0) m /\ Forall (fun v => v == 0) s /\
    Forall (fun v => v == 0) h.
Proof.
  assert (H1 : 1 <= 12) by lra. assert (H2 : 1 <= 26) by lra.
  assert (H3 : 1 <= 9) by lra.
  split; [exact H1|]. split; [exact H2|]. split; [exact H3|].
  exact (macd_of_flat_series 1800 5 12 26 9 H1 H2 H3).
Defined.

(** X8. [DataManager.calculate_macd] never fails: whatever the spans, it
    returns three columns with one value per row of the series, and when a
    span is below 1 (which pandas refuses) the three columns are zeros. *)
Theorem macd_or_zeros_is_total (series : list Q) (fast slow signal : Q) :
  (let '(m, s, h) := calculate_macd_or_zeros series fast slow signal in
   length m = length series /\ length s = length series /\
   length h = length series) /\
  (fast < 1 \/ slow < 1 \/ signal < 1 ->
   calculate_macd series fast slow signal = None /\
   calculate_macd_or_zeros series fast slow signal
   = (replicate (length series) 0, replicate (length series) 0,
      replicate (length series) 0)).
Proof.
  split.
  - unfold calculate_macd_or_zeros.
    destruct (calculate_macd series fast slow signal) as [[[m s] h]|] eqn:E; simpl.
    + now apply calculate_macd_lengths in E.
    + now rewrite length_replicate.
  - intros H.
    assert (Hnone : calculate_macd series fast slow signal = None).
    { unfold calculate_macd. destruct H as [H|[H|H]].
      - now rewrite (ewm_mean_refused fast series H).
      - rewrite (ewm_mean_refused slow series H).
        now destruct (ewm_mean fast series).
      - destruct (ewm_mean fast series); simpl; [|reflexivity].
        destruct (ewm_mean slow series); simpl; [|reflexivity].
        now rewrite (ewm_mean_refused signal _ H). }
    split; [exact Hnone|]. unfold calculate_macd_or_zeros. now rewrite Hnone.
Qed.

(** X9. No indicator looks ahead: computed on the first [n] rows of a
    frame, the RSI, the moving average, the three MACD columns and the ATR
    are the first [n] rows of what they are on the whole frame. *)
Theorem indicators_do_not_look_ahead (n : nat) :
  (forall s period,
     calculate_rsi (take n s) period = take n (calculate_rsi s period)) /\
  (forall span xs, ewm_mean span (take n xs) = take n <$> ewm_mean span xs) /\
  (forall series fast slow signal,
     calculate_macd (take n series) fast slow signal
     = (fun '(m, s, h) => (take n m, take n s, take n h))
         <$> calculate_macd series fast slow signal) /\
  (forall df period,
     calculate_atr (take n df) period = take n (calculate_atr df period)).
Proof.
  split; [intros; apply calculate_rsi_take|].
  split; [intros; apply ewm_mean_take|].
  split; [intros; apply calculate_macd_take | intros; apply calculate_atr_take].
Qed.

(** X10. With a period of at least 1, the ATR of row [i] is defined exactly
    from row [period - 1] on; and when the first bar has [low <= high],
    every defined ATR value is non-negative. *)
Theorem atr_defined_after_window (df : list BacktestEngine.bar) (period : nat) :
  (1 <= period)%nat ->
  (forall i, (i < length df)%nat ->
     (exists v, calculate_atr df period !! i = Some (Some v)) <->
     (period <= i + 1)%nat) /\
  ((forall b, head df = Some b -> BacktestEngine.low b <= BacktestEngine.high b) ->
   forall i v, calculate_atr df period !! i = Some (Some v) -> 0 <= v).
Proof.
  intros Hp.
  assert (Hobs : forall i, (i < length df)%nat ->
            length (observations (window period i (Some <$> true_ranges None df)))
            = Nat.min period (i + 1)).
  { intros i Hi. rewrite window_full, length_drop, length_take, true_ranges_length. lia. }
  split.
  - intros i Hi. rewrite (calculate_atr_lookup df period i Hi).
    unfold rolling_mean_full_at. specialize (Hobs i Hi).
    destruct (observations _) as [|x obs] eqn:E.
    + simpl in Hobs. split; [intros [v Hv]; discriminate | lia].
    + destruct (decide (period <= length (x :: obs))%nat) as [Hd|Hd].
      * split; [lia | eauto].
      * split; [intros [v Hv]; discriminate | lia].
  - intros Hfirst i v Hv.
    assert (Hi : (i < length df)%nat).
    { apply lookup_lt_Some in Hv. unfold calculate_atr, rolling_mean_full in Hv.
      now rewrite length_fmap, length_seq, length_fmap, true_ranges_length in Hv. }
    rewrite (calculate_atr_lookup df period i Hi) in Hv. injection Hv as Hv.
    unfold rolling_mean_full_at in Hv. rewrite window_full in Hv.
    destruct (drop _ _) as [|x obs] eqn:E; [discriminate|].
    destruct (decide _); [|discriminate]. injection Hv as <-.
    apply mean_nonneg; [|discriminate]. rewrite <- E.
    apply Forall_drop, Forall_take, true_ranges_nonneg. intros _. exact Hfirst.
Qed.

(** Five hourly bars and a period of 3: the first two cells are NaN. *)
Definition five_bars : list BacktestEngine.bar :=
  [BacktestEngine.hourly 0 1800; BacktestEngine.hourly 1 1803;
   BacktestEngine.hourly 2 1801; BacktestEngine.hourly 3 1806;
   BacktestEngine.hourly 4 1804].

Example atr_of_five_bars :
  option_map Qred <$> calculate_atr five_bars 3
  = [None; None; Some (5 # 3); Some (10 # 3); Some 3].
Proof. vm_compute. reflexivity. Qed.

Lemma atr_defined_after_window_witness :
  (1 <= 3)%nat /\
  (forall i, (i < length five_bars)%nat ->
     (exists v, calculate_atr five_bars 3 !! i = Some (Some v)) <->
     (3 <= i + 1)%nat) /\
  ((forall b, head five_bars = Some b ->
      BacktestEngine.low b <= BacktestEngine.high b) ->
   forall i v, calculate_atr five_bars 3 !! i = Some (Some v) -> 0 <= v).
Proof.
  split; [lia|]. apply (atr_defined_after_window five_bars 3). lia.
Defined.

End IndicatorFrame.

(** ** [RiskManager]: the account-level circuit breakers *)

Module RiskGate.

(** The attributes of the object. *)
Record t := {
  global_daily_loss_limit : Q;
  global_max_drawdown : Q;
  global_equity_peak : Q;
  global_daily_start : Q;
  position_count : nat
}.

(** [RiskManager(global_daily_loss_limit, global_max_drawdown)] *)
Definition create (daily_loss_limit max_drawdown : Q) : t :=
  {| global_daily_loss_limit := daily_loss_limit;
     global_max_drawdown := max_drawdown;
     global_equity_peak := 0;
     global_daily_start := 0;
     position_count := 0 |}.

Definition set_peak (rm : t) (peak : Q) : t :=
  {| global_daily_loss_limit := global_daily_loss_limit rm;
     global_max_drawdown := global_max_drawdown rm;
     global_equity_peak := peak;
     global_daily_start := global_daily_start rm;
     position_count := position_count rm |}.

Definition set_daily_start (rm : t) (start : Q) : t :=
  {| global_daily_loss_limit := global_daily_loss_limit rm;
     global_max_drawdown := global_max_drawdown rm;
     global_equity_peak := global_equity_peak rm;
     global_daily_start := start;
     position_count := position_count rm |}.

(** Each method returns its result and the object as the call leaves it. *)
Definition initialize (terminal : RiskManager.mt5) (rm : t) : bool * t :=
  match RiskManager.account_info terminal with
  | Some acct =>
      (true, set_daily_start (set_peak rm (RiskManager.equity acct))
               (RiskManager.equity acct))
  | None => (false, rm)
  end.

Definition reset_daily (terminal : RiskManager.mt5) (rm : t) : t :=
  match RiskManager.account_info terminal with
  | Some acct => set_daily_start rm (RiskManager.equity acct)
  | None => rm
  end.

(** [check_global_limits].  The peak is stored before the two tests; a
    division by a zero daily start or a zero peak raises
    [ZeroDivisionError], which the [except] turns into [False]. *)
Definition check_global_limits (terminal : RiskManager.mt5) (rm : t) : bool * t :=
  match RiskManager.account_info terminal with
  | None => (false, rm)
  | Some acct =>
      let equity := RiskManager.equity acct in
      let rm := set_peak rm (Py.max (global_equity_peak rm) equity) in
      if Qeq_bool (global_daily_start rm) 0 then (false, rm)
      else
        let daily_pnl_pct :=
          ((equity - global_daily_start rm) / global_daily_start rm) * 100 in
        if Py.leb daily_pnl_pct (- global_daily_loss_limit rm) then (false, rm)
        else if Qeq_bool (global_equity_peak rm) 0 then (false, rm)
        else
          let drawdown_pct :=
            ((global_equity_peak rm - equity) / global_equity_peak rm) * 100 in
          if Py.leb (global_max_drawdown rm) drawdown_pct then (false, rm)
          else (true, rm)
  end.

(** A terminal whose account shows the given equity. *)
Definition terminal_with (e : Q) : RiskManager.mt5 :=
  {| RiskManager.account_info := Some {| RiskManager.equity := e |};
     RiskManager.symbol_info_tick := fun _ => None;
     RiskManager.symbol_info := fun _ => None |}.

(** *** Facts *)

Lemma check_state terminal rm :
  let rm' := (check_global_limits terminal rm).2 in
  global_daily_start rm' = global_daily_start rm /\
  global_daily_loss_limit rm' = global_daily_loss_limit rm /\
  global_max_drawdown rm' = global_max_drawdown rm /\
  global_equity_peak rm' =
    match RiskManager.account_info terminal with
    | Some acct => Py.max (global_equity_peak rm) (RiskManager.equity acct)
    | None => global_equity_peak rm
    end.
Proof.
  unfold check_global_limits. destruct (RiskManager.account_info terminal); [|simpl; auto].
  cbv zeta. cbn [global_daily_start global_equity_peak global_daily_loss_limit
                 global_max_drawdown set_peak].
  repeat match goal with |- context [if ?c then _ else _] => destruct c end;
    simpl; auto.
Qed.

Lemma div_pct_le a b d : 0 < d -> a <= b -> (a / d) * 100 <= (b / d) * 100.
Proof.
  intros Hd Hab.
  assert (H : a / d <= b / d).
  { unfold Qdiv. apply Qmult_le_compat_r; [exact Hab|].
    apply Qlt_le_weak, Qinv_lt_0_compat, Hd. }
  lra.
Qed.

Lemma zero_start_blocks terminal rm :
  global_daily_start rm == 0 -> (check_global_limits terminal rm).1 = false.
Proof.
  intros H. unfold check_global_limits.
  destruct (RiskManager.account_info terminal); [|reflexivity].
  cbv zeta. cbn [global_daily_start set_peak].
  apply Qeq_bool_iff in H. now rewrite H.
Qed.

(** X11. A risk manager that was never initialised blocks all trading:
    [check_global_limits] returns [False] whatever the account shows,
    because the daily start it divides by is still zero. *)
Theorem uninitialised_manager_blocks terminal daily_loss_limit max_drawdown :
  (check_global_limits terminal (create daily_loss_limit max_drawdown)).1 = false.
Proof. apply zero_start_blocks. reflexivity. Qed.

(** The result of a check on an account showing equity [e], as one
    expression. *)
Definition passes (rm : t) (e : Q) : bool :=
  let peak := Py.max (global_equity_peak rm) e in
  negb (Qeq_bool (global_daily_start rm) 0) &&
  negb (Py.leb (((e - global_daily_start rm) / global_daily_start rm) * 100)
               (- global_daily_loss_limit rm)) &&
  negb (Qeq_bool peak 0) &&
  negb (Py.leb (global_max_drawdown rm) (((peak - e) / peak) * 100)).

Lemma check_with e rm :
  check_global_limits (terminal_with e) rm
  = (passes rm e, set_peak rm (Py.max (global_equity_peak rm) e)).
Proof.
  unfold check_global_limits, passes. simpl.
  destruct (Qeq_bool (global_daily_start rm) 0); [reflexivity|].
  destruct (Py.leb _ (- global_daily_loss_limit rm)); [reflexivity|].
  destruct (Qeq_bool (Py.max (global_equity_peak rm) e) 0); [reflexivity|].
  destruct (Py.leb (global_max_drawdown rm) _); reflexivity.
Qed.

(** X12. Once the gate has shut it stays shut while equity does not
    recover: with a positive daily start and a positive peak, if the check
    fails at equity [e], the next check at any equity [e' <= e] fails
    too. *)
Theorem gate_stays_shut (rm : t) (e e' : Q) :
  0 < global_daily_start rm -> 0 < global_equity_peak rm -> e' <= e ->
  (check_global_limits (terminal_with e) rm).1 = false ->
  (check_global_limits (terminal_with e')
     (check_global_limits (terminal_with e) rm).2).1 = false.
Proof.
  intros Hstart Hpeak Hle. rewrite !check_with. cbn [fst snd].
  set (peak1 := Py.max (global_equity_peak rm) e).
  assert (Hpk : global_equity_peak rm <= peak1 /\ e <= peak1).
  { unfold peak1. rewrite Py.max_spec. split; [apply Q.le_max_l | apply Q.le_max_r]. }
  destruct Hpk as [Hpk1 Hpk2].
  assert (Hsame : Py.max peak1 e' = peak1).
  { unfold Py.max at 1. assert (Hf : Py.ltb peak1 e' = false) by (apply Py.ltb_ge; lra).
    now rewrite Hf. }
  unfold passes. cbn [global_daily_start global_equity_peak global_daily_loss_limit
                       global_max_drawdown set_peak].
  fold peak1. rewrite Hsame.
  assert (Hz1 : Qeq_bool (global_daily_start rm) 0 = false).
  { apply not_true_iff_false. intros H. apply Qeq_bool_eq in H. lra. }
  assert (Hz2 : Qeq_bool peak1 0 = false).
  { apply not_true_iff_false. intros H. apply Qeq_bool_eq in H. lra. }
  rewrite Hz1, Hz2. cbn [negb andb].
  destruct (Py.leb _ (- global_daily_loss_limit rm)) eqn:E1; cbn [negb andb].
  - intros _. apply Py.leb_le in E1.
    assert (H : Py.leb (((e' - global_daily_start rm) / global_daily_start rm) * 100)
                  (- global_daily_loss_limit rm) = true).
    { apply Py.leb_le.
      pose proof (div_pct_le (e' - global_daily_start rm) (e - global_daily_start rm)
                    (global_daily_start rm) Hstart ltac:(lra)). lra. }
    now rewrite H.
  - destruct (Py.leb (global_max_drawdown rm) (((peak1 - e) / peak1) * 100)) eqn:E2;
      [|discriminate].
    intros _. apply Py.leb_le in E2.
    assert (H : Py.leb (global_max_drawdown rm) (((peak1 - e') / peak1) * 100) = true).
    { apply Py.leb_le.
      pose proof (div_pct_le (peak1 - e) (peak1 - e') peak1 ltac:(lra) ltac:(lra)). lra. }
    rewrite H. now rewrite andb_false_r.
Qed.

(** A manager with the default limits, started at 10000 and with its peak
    there; the account then falls to 9700, a daily loss of 3 percent. *)
Definition started : t :=
  (initialize (terminal_with 10000) (create 3 15)).2.

Lemma gate_stays_shut_witness :
  0 < global_daily_start started /\ 0 < global_equity_peak started /\ 9600 <= 9700 /\
  (check_global_limits (terminal_with 9700) started).1 = false /\
  (check_global_limits (terminal_with 9600)
     (check_global_limits (terminal_with 9700) started).2).1 = false.
Proof.
  assert (H1 : 0 < global_daily_start started) by (simpl; lra).
  assert (H2 : 0 < global_equity_peak started) by (simpl; lra).
  assert (H3 : 9600 <= 9700) by lra.
  assert (H4 : (check_global_limits (terminal_with 9700) started).1 = false)
    by reflexivity.
  split; [exact H1|]. split; [exact H2|]. split; [exact H3|]. split; [exact H4|].
  exact (gate_stays_shut started 9700 9600 H1 H2 H3 H4).
Defined.

(** X13. After [initialize] on an account with positive equity, and with
    positive limits, the gate is open at every equity at or above the
    starting one; each check then leaves the peak at that equity. *)
Theorem gate_open_after_initialize (rm : t) (e e2 : Q) :
  0 < e -> e <= e2 ->
  0 < global_daily_loss_limit rm -> 0 < global_max_drawdown rm ->
  let rm1 := (initialize (terminal_with e) rm).2 in
  (initialize (terminal_with e) rm).1 = true /\
  (check_global_limits (terminal_with e2) rm1).1 = true /\
  global_equity_peak (check_global_limits (terminal_with e2) rm1).2 == e2.
Proof.
  intros He Hle Hl Hm rm1. split; [reflexivity|].
  destruct (check_state (terminal_with e2) rm1) as (_ & _ & _ & Hp).
  simpl in Hp.
  assert (Hpeak : Py.max e e2 == e2).
  { rewrite Py.max_spec. apply Q.max_r. exact Hle. }
  split; [|now rewrite Hp].
  unfold check_global_limits. simpl.
  assert (Hz1 : Qeq_bool e 0 = false).
  { apply not_true_iff_false. intros H. apply Qeq_bool_eq in H. lra. }
  rewrite Hz1.
  assert (H1 : Py.leb (((e2 - e) / e) * 100) (- global_daily_loss_limit rm) = false).
  { apply Py.leb_gt.
    pose proof (div_pct_le 0 (e2 - e) e He ltac:(lra)) as H.
    unfold Qdiv in H at 1. rewrite Qmult_0_l in H. lra. }
  rewrite H1.
  assert (Hz2 : Qeq_bool (Py.max e e2) 0 = false).
  { apply not_true_iff_false. intros H. apply Qeq_bool_eq in H. lra. }
  rewrite Hz2.
  assert (H2 : Py.leb (global_max_drawdown rm)
                 (((Py.max e e2 - e2) / Py.max e e2) * 100) = false).
  { apply Py.leb_gt.
    assert (H : (Py.max e e2 - e2) / Py.max e e2 == 0).
    { assert (H0 : Py.max e e2 - e2 == 0) by lra. rewrite H0.
      unfold Qdiv. apply Qmult_0_l. }
    rewrite H. lra. }
  now rewrite H2.
Qed.

Lemma gate_open_after_initialize_witness :
  0 < 10000 /\ 10000 <= 10050 /\
  0 < global_daily_loss_limit (create 3 15) /\ 0 < global_max_drawdown (create 3 15) /\
  let rm1 := (initialize (terminal_with 10000) (create 3 15)).2 in
  (initialize (terminal_with 10000) (create 3 15)).1 = true /\
  (check_global_limits (terminal_with 10050) rm1).1 = true /\
  global_equity_peak (check_global_limits (terminal_with 10050) rm1).2 == 10050.
Proof.
  assert (H1 : 0 < 10000) by lra. assert (H2 : 10000 <= 10050) by lra.
  assert (H3 : 0 < global_daily_loss_limit (create 3 15)) by (simpl; lra).
  assert (H4 : 0 < global_max_drawdown (create 3 15)) by (simpl; lra).
  split; [exact H1|]. split; [exact H2|]. split; [exact H3|]. split; [exact H4|].
  exact (gate_open_after_initialize (create 3 15) 10000 10050 H1 H2 H3 H4).
Defined.

End RiskGate.

(** ** [PerformanceTracker]: the log and its statistics *)

Module TrackerStats.

Import PerformanceTracker.

Abbreviation pnl := BacktestEngine.Trade.pnl.

(** *** The split of a log *)

Section Split.

Context {A : Type} (value : A -> Q).

Lemma split_lengths (l : list A) :
  (length (List.filter (fun t => Py.ltb 0 (value t)) l)
   + length (List.filter (fun t => Py.leb (value t) 0) l) = length l)%nat.
Proof.
  induction l as [|t l IH]; simpl; [reflexivity|].
  unfold Py.ltb, Py.leb in *. destruct (Qle_bool (value t) 0); simpl; lia.
Qed.

End Split.

(** *** Facts *)

(** The balances that the equity curve records while the trades of [l] are
    added to a tracker whose balance is [balance]. *)
Definition balances (balance : Q) (l : list BacktestEngine.Trade.t) : list Q :=
  (fun k => BacktestEngine.credited balance (take (S k) l)) <$> seq 0 (length l).

Lemma balances_cons balance t l :
  balances balance (t :: l) = (balance + pnl t) :: balances (balance + pnl t) l.
Proof.
  unfold balances. cbn [length seq]. rewrite fmap_cons. f_equal.
  rewrite <- fmap_S_seq, <- list_fmap_compose. reflexivity.
Qed.

Lemma add_trades_effect (l : list BacktestEngine.Trade.t) : forall tr,
  let tr' := foldl add_trade tr l in
  trades tr' = trades tr ++ l /\
  initial_balance tr' = initial_balance tr /\
  current_balance tr' = BacktestEngine.credited (current_balance tr) l /\
  BacktestEngine.timestamp <$> equity_curve tr'
    = (BacktestEngine.timestamp <$> equity_curve tr)
      ++ (BacktestEngine.Trade.exit_time <$> l) /\
  BacktestEngine.equity <$> equity_curve tr'
    = (BacktestEngine.equity <$> equity_curve tr)
      ++ balances (current_balance tr) l /\
  (l <> [] ->
   BacktestEngine.equity <$> last (equity_curve tr') = Some (current_balance tr')).
Proof.
  induction l as [|t l IH]; intros tr; cbn [foldl].
  - simpl. rewrite !app_nil_r. repeat split; try reflexivity. congruence.
  - destruct (IH (add_trade tr t)) as (Ht & Hi & Hb & He & Hv & Hlast).
    cbv zeta. split; [|split; [|split; [|split; [|split]]]].
    + rewrite Ht. cbn [add_trade trades]. now rewrite <- app_assoc.
    + rewrite Hi. reflexivity.
    + rewrite Hb. reflexivity.
    + rewrite He. cbn [add_trade equity_curve].
      rewrite fmap_app, fmap_cons, <- app_assoc. reflexivity.
    + rewrite Hv, balances_cons. cbn [add_trade equity_curve current_balance].
      rewrite fmap_app, fmap_cons, <- app_assoc. reflexivity.
    + intros _. destruct l as [|t' l']; [|apply Hlast; discriminate].
      cbn [foldl add_trade equity_curve current_balance].
      now rewrite last_snoc.
Qed.

(** X14. A tracker fed a list of trades holds exactly that log; its
    balance is the initial balance with the PnL of each trade added to it
    in order; its equity curve has the starting point and then one point
    per trade, stamped with the trade's exit time and carrying the balance
    as it was once that trade was added, the last one the current
    balance.  The equalities are syntactic: the sums are the code's own
    additions in the code's order. *)
Theorem tracker_conserves_balance (balance : Q) (now : Z)
    (l : list BacktestEngine.Trade.t) :
  let tr := foldl add_trade (create balance now) l in
  trades tr = l /\
  initial_balance tr = balance /\
  current_balance tr = BacktestEngine.credited balance l /\
  BacktestEngine.timestamp <$> equity_curve tr
    = now :: (BacktestEngine.Trade.exit_time <$> l) /\
  BacktestEngine.equity <$> equity_curve tr = balance :: balances balance l /\
  BacktestEngine.equity <$> last (equity_curve tr) = Some (current_balance tr).
Proof.
  intros tr. destruct (add_trades_effect l (create balance now))
    as (Ht & Hi & Hb & He & Hv & Hlast).
  fold tr in Ht, Hi, Hb, He, Hv, Hlast.
  split; [exact Ht|]. split; [exact Hi|]. split; [exact Hb|]. split; [exact He|].
  split; [exact Hv|].
  destruct l as [|t l']; [reflexivity | apply Hlast; discriminate].
Qed.

(** Three trades of 30, -20 and 10 on an account of 10000. *)
Example balances_of_three_trades :
  let tr := foldl add_trade (create 10000 0) [closed 30; closed (-20); closed 10] in
  BacktestEngine.equity <$> equity_curve tr = [10000; 10030; 10010; 10020].
Proof. vm_compute. reflexivity. Qed.

(** *** The counts and averages of a split log *)

Lemma split_facts (l : list BacktestEngine.Trade.t) :
  l <> [] ->
  let winning := List.filter (fun t => Py.ltb 0 (pnl t)) l in
  let losing := List.filter (fun t => Py.leb (pnl t) 0) l in
  let rate := inject_Z (Z.of_nat (length winning)) / inject_Z (Z.of_nat (length l)) in
  let a_win := match winning with
               | [] => 0
               | _ => Py.mean (pnl <$> winning)
               end in
  let a_loss := match losing with
                | [] => 0
                | _ => Py.mean ((fun t => Qabs (pnl t)) <$> losing)
                end in
  (length winning + length losing = length l)%nat /\
  0 <= rate <= 1 /\ 0 <= a_win /\ 0 <= a_loss /\
  (length winning <> 0%nat -> 0 < a_win).
Proof.
  intros Hne W L rate aW aL.
  pose proof (split_lengths pnl l) as HN. fold W L in HN.
  assert (Hn : 0 < inject_Z (Z.of_nat (length l))).
  { change 0 with (inject_Z 0). rewrite <- Zlt_Qlt.
    destruct l; [congruence | simpl; lia]. }
  assert (HW0 : 0 <= inject_Z (Z.of_nat (length W))).
  { change 0 with (inject_Z 0). rewrite <- Zle_Qle. lia. }
  assert (HWN : inject_Z (Z.of_nat (length W)) <= inject_Z (Z.of_nat (length l))).
  { rewrite <- Zle_Qle. lia. }
  assert (HaW : length W <> 0%nat -> 0 < aW).
  { intros Hw. subst aW. pose proof (TradeLog.winners_positive pnl l) as Hpos.
    fold W in Hpos. destruct W as [|w W'] eqn:EW; [simpl in Hw; congruence|].
    apply TradeLog.mean_pos; [exact Hpos | discriminate]. }
  split; [exact HN|]. split; [|split; [|split; [|exact HaW]]].
  - subst rate. split.
    + apply Qle_shift_div_l; [exact Hn | lra].
    + apply Qle_shift_div_r; [exact Hn | lra].
  - destruct (decide (length W = 0%nat)) as [H0|H0].
    + subst aW. destruct W; [lra | discriminate].
    + apply Qlt_le_weak, HaW, H0.
  - subst aL. destruct L as [|w L'] eqn:EL; [lra|].
    apply Indicators.mean_nonneg; [|discriminate].
    apply Forall_fmap, Forall_forall. intros t _. simpl. apply Qabs_nonneg.
Qed.

(** X16. In the engine's report and in the tracker's statistics, the
    winners and the losers together are all the trades (a PnL of zero
    counts as a loss), the win rate is a fraction between 0 and 1 (between
    0 and 100 in the tracker), the average win and the average loss are
    non-negative, and the average win is positive as soon as there is a
    winner. *)
Theorem report_counts_add_up :
  (forall st r, BacktestEngine.generate_report st = Some (BacktestEngine.Report r) ->
     (BacktestEngine.winning_trades r + BacktestEngine.losing_trades r
      = BacktestEngine.total_trades r)%nat /\
     BacktestEngine.total_trades r = length (BacktestEngine.trades st) /\
     0 <= BacktestEngine.win_rate r <= 1 /\
     0 <= BacktestEngine.avg_win r /\ 0 <= BacktestEngine.avg_loss r /\
     (BacktestEngine.winning_trades r <> 0%nat -> 0 < BacktestEngine.avg_win r)) /\
  (forall tr s, calculate_stats tr = Some (Stats s) ->
     (winning_trades s + losing_trades s = total_trades s)%nat /\
     total_trades s = length (trades tr) /\
     0 <= win_rate s <= 100 /\
     0 <= avg_win s /\ 0 <= avg_loss s /\
     (winning_trades s <> 0%nat -> 0 < avg_win s)).
Proof.
  split.
  - intros st r. unfold BacktestEngine.generate_report.
    destruct (BacktestEngine.trades st) as [|t l] eqn:Ht; [discriminate|].
    destruct (Drawdown.calculate_drawdown _); [|discriminate].
    intros [= <-].
    cbn [BacktestEngine.winning_trades BacktestEngine.losing_trades
         BacktestEngine.total_trades BacktestEngine.win_rate
         BacktestEngine.avg_win BacktestEngine.avg_loss].
    destruct (split_facts (t :: l) ltac:(discriminate)) as (H1 & H2 & H3 & H4 & H5).
    split; [exact H1|]. split; [reflexivity|]. split; [exact H2|].
    split; [exact H3|]. split; [exact H4 | exact H5].
  - intros tr s. unfold calculate_stats.
    destruct (trades tr) as [|t l] eqn:Ht; [discriminate|].
    destruct (Qeq_bool _ 0); [discriminate|].
    destruct (equity_curve tr); [discriminate|].
    intros [= <-].
    cbn [winning_trades losing_trades total_trades win_rate avg_win avg_loss].
    destruct (split_facts (t :: l) ltac:(discriminate)) as (H1 & H2 & H3 & H4 & H5).
    split; [exact H1|]. split; [reflexivity|]. split.
    + cbv zeta in H2.
      match goal with |- 0 <= ?x * 100 <= 100 =>
        assert (Hx : 0 <= x <= 1) by exact H2; revert Hx; generalize x end.
      intros x [Ha Hb]. split; lra.
    + split; [exact H3|]. split; [exact H4 | exact H5].
Qed.

End TrackerStats.

(** ** [StrategyOptimizer]: the grid and the search *)

Module GridSearch.

Import StrategyOptimizer.

Section Grid.

Context {V result : Type}.
Variable base_config : gmap string V.
Variable run_backtest : nat -> gmap string V -> result.
Variable has_error : result -> bool.
Variable get : result -> string -> option xnum.

Local Abbreviation optimize :=
  (optimize_parameters base_config run_backtest has_error get).
Local Abbreviation trials :=
  (trials_of base_config run_backtest has_error get).
Local Abbreviation searching :=
  (search base_config run_backtest has_error get).

(** *** The combinations *)

Lemma product_spec (values : list (list V)) (combination : list V) :
  combination ∈ product values <-> Forall2 (fun v pool => v ∈ pool) combination values.
Proof.
  revert combination. induction values as [|pool rest IH]; intros combination.
  - simpl. rewrite list_elem_of_singleton. split.
    + intros ->. constructor.
    + intros H. now inversion H.
  - cbn [product]. rewrite list_elem_of_bind. split.
    + intros (v & Hin & Hv). apply list_elem_of_fmap in Hin as (c & -> & Hc).
      constructor; [exact Hv | now apply IH].
    + intros H. inversion H as [|v pool' c rest' Hv Hc]; subst.
      exists v. split; [|exact Hv]. apply list_elem_of_fmap.
      exists c. split; [reflexivity | now apply IH].
Qed.

Lemma combination_spec (param_grid : list (string * list V)) (p : gmap string V) :
  p ∈ generate_parameter_combinations param_grid <->
  exists choice,
    Forall2 (fun v item => v ∈ item.2) choice param_grid /\
    p = list_to_map (zip (param_grid.*1) choice).
Proof.
  unfold generate_parameter_combinations. rewrite list_elem_of_fmap. split.
  - intros (c & -> & Hc). exists c. split; [|reflexivity].
    apply product_spec in Hc. rewrite Forall2_fmap_r in Hc. exact Hc.
  - intros (c & Hc & ->). exists c. split; [reflexivity|].
    apply product_spec. rewrite Forall2_fmap_r. exact Hc.
Qed.

Lemma chosen_lookup (param_grid : list (string * list V)) (choice : list V) :
  NoDup (param_grid.*1) ->
  Forall2 (fun v item => v ∈ item.2) choice param_grid ->
  forall i k vs, param_grid !! i = Some (k, vs) ->
    exists v, v ∈ vs /\
      (list_to_map (zip (param_grid.*1) choice) : gmap string V) !! k = Some v.
Proof.
  intros Hnd Hc i k vs Hi.
  destruct (Forall2_lookup_r _ _ _ _ _ Hc Hi) as (v & Hv & Hin).
  exists v. split; [exact Hin|].
  apply elem_of_list_to_map_1.
  - rewrite fst_zip; [exact Hnd|]. rewrite length_fmap.
    apply Forall2_length in Hc. lia.
  - apply list_elem_of_lookup. exists i.
    apply lookup_zip_with_Some. exists k, v. split; [reflexivity|].
    split; [|exact Hv]. now rewrite list_lookup_fmap, Hi.
Qed.

Lemma chosen_keys (param_grid : list (string * list V)) (choice : list V) :
  Forall2 (fun v item => v ∈ item.2) choice param_grid ->
  forall k, is_Some ((list_to_map (zip (param_grid.*1) choice) : gmap string V) !! k)
            <-> k ∈ param_grid.*1.
Proof.
  intros Hc k.
  assert (Hfst : (zip (param_grid.*1) choice).*1 = param_grid.*1).
  { apply fst_zip. rewrite length_fmap. apply Forall2_length in Hc. lia. }
  split.
  - intros [v Hv]. apply elem_of_list_to_map_2 in Hv.
    rewrite <- Hfst. apply list_elem_of_fmap. exists (k, v). auto.
  - intros Hk. destruct (list_to_map (zip (param_grid.*1) choice) !! k) eqn:E; [eauto|].
    apply not_elem_of_list_to_map in E. rewrite Hfst in E. contradiction.
Qed.

(** X17. The combinations of a grid are exactly the dicts obtained by
    choosing, for every key in order, one of its candidate values.  With
    distinct keys, a combination binds every key of the grid to one of the
    candidates of that key, and binds no other key. *)
Theorem combinations_are_the_choices (param_grid : list (string * list V)) :
  (forall p, p ∈ generate_parameter_combinations param_grid <->
     exists choice,
       Forall2 (fun v item => v ∈ item.2) choice param_grid /\
       p = list_to_map (zip (param_grid.*1) choice)) /\
  (NoDup (param_grid.*1) ->
   forall p, p ∈ generate_parameter_combinations param_grid ->
     (forall i k vs, param_grid !! i = Some (k, vs) ->
        exists v, v ∈ vs /\ p !! k = Some v) /\
     (forall k, is_Some (p !! k) <-> k ∈ param_grid.*1)).
Proof.
  split; [apply combination_spec|].
  intros Hnd p Hp. apply combination_spec in Hp as (choice & Hc & ->). split.
  - now apply chosen_lookup.
  - now apply chosen_keys.
Qed.

(** *** Searches that find nothing, or nothing to tell apart *)

Lemma search_all_fail metric combinations : forall i s,
  (forall j p, has_error (run_backtest j p) = true) ->
  searching metric combinations i s = s.
Proof.
  induction combinations as [|p rest IH]; intros i s Hfail; cbn [search]; [reflexivity|].
  unfold try_combination. rewrite Hfail. now apply IH.
Qed.

Lemma calculate_metric_get r metric :
  calculate_metric get r metric = default (Fin 0) (get r metric).
Proof.
  unfold calculate_metric.
  repeat match goal with
         | |- context [String.eqb metric ?k] =>
             destruct (String.eqb metric k) eqn:E;
             [apply String.eqb_eq in E; subst; reflexivity | clear E]
         end.
  reflexivity.
Qed.

Lemma trials_score_zero metric combinations : forall i,
  (forall j p, get (run_backtest j p) metric = None) ->
  Forall (fun t => score t = Fin 0) (trials metric combinations i).
Proof.
  induction combinations as [|p rest IH]; intros i Hnone; cbn [trials_of];
    [constructor|].
  destruct (has_error _); [now apply IH|].
  constructor; [|now apply IH]. simpl. now rewrite calculate_metric_get, Hnone.
Qed.

(** X18. When every backtest of the grid fails, the search finds nothing:
    no best parameters, no best result, a best score of minus infinity,
    and the results list as it was. *)
Theorem failing_grid_finds_nothing (results : list trial)
    (param_grid : list (string * list V)) (metric : string) :
  (forall j p, has_error (run_backtest j p) = true) ->
  optimize results param_grid metric
  = {| best_params := None; best_score := NInf; best_result := None;
       all_results := results |}.
Proof. intros Hfail. unfold optimize_parameters. now apply search_all_fail. Qed.

(** X19. When the result dicts have no entry under the metric's name,
    every trial scores 0, so on a new optimizer the search cannot tell the
    combinations apart: it returns the first combination whose backtest
    did not fail, with a best score of 0. *)
Theorem missing_metric_picks_first (param_grid : list (string * list V))
    (metric : string) :
  (forall j p, get (run_backtest j p) metric = None) ->
  let out := optimize [] param_grid metric in
  Forall (fun t => score t = Fin 0) (all_results out) /\
  match all_results out with
  | [] => best_score out = NInf /\ best_params out = None
  | first :: _ =>
      best_score out = Fin 0 /\ best_params out = Some (params first) /\
      best_result out = Some (outcome first)
  end.
Proof.
  intros Hnone out.
  set (new := trials metric (generate_parameter_combinations param_grid) 0).
  assert (Hres : all_results out = new).
  { unfold out, optimize_parameters. now rewrite search_results. }
  pose proof (trials_score_zero metric (generate_parameter_combinations param_grid) 0
                Hnone) as Hzero.
  fold new in Hzero.
  assert (Hnan : Forall (fun t => X.is_nan (score t) = false) new).
  { eapply Forall_impl; [exact Hzero|]. simpl. intros t ->. reflexivity. }
  pose proof (search_best base_config run_backtest has_error get metric
                (generate_parameter_combinations param_grid) 0 _ []
                (initial_best []) Hnan) as (_ & _ & Hbest).
  simpl in Hbest. fold new in Hbest.
  change (searching metric (generate_parameter_combinations param_grid) 0 _)
    with out in Hbest.
  rewrite Hres. split; [exact Hzero|].
  destruct new as [|t0 rest] eqn:En.
  - destruct Hbest as [(Hb & Hp & _) | (k & t & Hk & _)]; [auto | discriminate].
  - inversion Hzero as [|? ? Ht0 _]; subst.
    destruct Hbest as [(Hb & _ & _ & Hall) | (k & t & Hk & Ht & Hp & Hr & Hfirst)].
    + inversion Hall; subst. congruence.
    + assert (Hscore : score t = Fin 0).
      { eapply (proj1 (Forall_lookup _ _) Hzero), Hk. }
      destruct k as [|k].
      * injection Hk as <-. rewrite <- Ht. auto.
      * specialize (Hfirst 0%nat t0 ltac:(lia) eq_refl).
        rewrite <- Ht, Hscore, Ht0 in Hfirst. discriminate.
Qed.

End Grid.

(** *** Instances *)

(** A backtest that always returns the error dict. *)
Definition no_trades (_ : nat) (_ : gmap string Q) : option xnum := None.

Lemma failing_grid_finds_nothing_witness :
  (forall j p, failed (no_trades j p) = true) /\
  optimize_parameters ∅ no_trades failed read [earlier_trial] two_values "total_pnl"
  = {| best_params := None; best_score := NInf; best_result := None;
       all_results := [earlier_trial] |}.
Proof.
  assert (H : forall j p, failed (no_trades j p) = true) by reflexivity.
  split; [exact H|].
  exact (failing_grid_finds_nothing ∅ no_trades failed read [earlier_trial]
           two_values "total_pnl" H).
Defined.

(** A backtest whose report has a profit factor and nothing else. *)
Definition only_profit_factor (r : option xnum) (key : string) : option xnum :=
  if String.eqb key "profit_factor" then r else None.

Definition varying_backtest (i : nat) (_ : gmap string Q) : option xnum :=
  Some (Fin (inject_Z (Z.of_nat i))).

Lemma missing_metric_picks_first_witness :
  (forall j p, only_profit_factor (varying_backtest j p) "sharpe_ratio" = None) /\
  let out := optimize_parameters ∅ varying_backtest failed only_profit_factor
               [] two_values "sharpe_ratio" in
  Forall (fun t => score t = Fin 0) (all_results out) /\
  match all_results out with
  | [] => best_score out = NInf /\ best_params out = None
  | first :: _ =>
      best_score out = Fin 0 /\ best_params out = Some (params first) /\
      best_result out = Some (outcome first)
  end.
Proof.
  assert (H : forall j p, only_profit_factor (varying_backtest j p) "sharpe_ratio" = None)
    by reflexivity.
  split; [exact H|].
  exact (missing_metric_picks_first ∅ varying_backtest failed only_profit_factor
           two_values "sharpe_ratio" H).
Defined.

(** With the metric present the same grid is ranked by it. *)
Example present_metric_ranks :
  let out := optimize_parameters ∅ varying_backtest failed only_profit_factor
               [] two_values "profit_factor" in
  best_score out = Fin 1 /\ best_params out = Some {["MIN_CONFIRMATIONS" := 3]}.
Proof. vm_compute. split; reflexivity. Qed.

End GridSearch.

(** ** [StrategyOptimizer.walk_forward_optimization] *)

Module WalkForward.

Import StrategyOptimizer.

(** One entry of the returned list. *)
Module Window.
Record t {V result : Type} := {
  window : nat;
  train_period : Z * Z;
  test_period : Z * Z;
  best_params : gmap string V;
  train_score : xnum;
  test_score : xnum;
  test_result : result
}.
Arguments t : clear implicits.
End Window.

(** [int(x)]: truncation towards zero. *)
Definition int (x : Q) : Z := if Py.ltb x 0 then Qceiling x else Qfloor x.

(** A slice bound as Python normalises it for a sequence of length [n]. *)
Definition slice_bound (n x : Z) : Z :=
  if (x <? 0)%Z then Z.max (x + n) 0 else Z.min x n.

(** [df.iloc[a:b]] *)
Definition iloc {D : Type} (l : list D) (a b : Z) : list D :=
  let n := Z.of_nat (length l) in
  let first := Z.to_nat (slice_bound n a) in
  let stop := Z.to_nat (slice_bound n b) in
  take (stop - first) (drop first l).

Section Walk.

Context {V result D : Type}.

Variable base_config : gmap string V.
Variable data : list D.

(** The backtests of a training slice, one per combination, and the one
    out-of-sample backtest of a test slice. *)
Variable run_backtest : list D -> nat -> gmap string V -> result.
Variable test_backtest : list D -> gmap string V -> result.
Variable has_error : result -> bool.
Variable get : result -> string -> option xnum.

(** What one iteration does. *)
Inductive step := Raise | Continue | Append (r : Window.t V result).

Definition window_step (param_grid : list (string * list V)) (metric : string)
    (total_length train_length window_size : Z) (i : nat) : step :=
  let train_start := (Z.of_nat i * window_size)%Z in
  let train_end := (train_start + train_length)%Z in
  let test_start := train_end in
  let test_end := Z.min (test_start + window_size) total_length in
  let train_data := iloc data train_start train_end in
  let test_data := iloc data test_start test_end in
  if (length train_data =? 0)%nat || (length test_data =? 0)%nat then Continue
  else
    let optimization_result :=
      optimize_parameters base_config (run_backtest train_data) has_error get
        [] param_grid metric in
    match best_params optimization_result with
    | None => Raise
    | Some best =>
        let test_config := best ∪ base_config in
        let test_result := test_backtest test_data test_config in
        Append {| Window.window := i;
                  Window.train_period := (train_start, train_end);
                  Window.test_period := (test_start, test_end);
                  Window.best_params := best;
                  Window.train_score := best_score optimization_result;
                  Window.test_score := calculate_metric get test_result metric;
                  Window.test_result := test_result |}
    end.

Fixpoint windows (param_grid : list (string * list V)) (metric : string)
    (total_length train_length window_size : Z) (indices : list nat)
    (results : list (Window.t V result)) : option (list (Window.t V result)) :=
  match indices with
  | [] => Some results
  | i :: rest =>
      match window_step param_grid metric total_length train_length window_size i with
      | Raise => None
      | Continue =>
          windows param_grid metric total_length train_length window_size rest results
      | Append r =>
          windows param_grid metric total_length train_length window_size rest
            (results ++ [r])
      end
  end.

(** [None] is an exception: the [ZeroDivisionError] of [n_windows = 0], or
    the [TypeError] of [test_config.update(None)] when a window's search
    found no parameters. *)
Definition walk_forward_optimization (param_grid : list (string * list V))
    (train_ratio : Q) (n_windows : Z) (metric : string)
    : option (list (Window.t V result)) :=
  let total_length := Z.of_nat (length data) in
  let train_length := int (inject_Z total_length * train_ratio) in
  if (n_windows =? 0)%Z then None
  else
    let window_size := (train_length / n_windows)%Z in
    windows param_grid metric total_length train_length window_size
      (seq 0 (Z.to_nat n_windows)) [].

(** *** Facts about slices *)

Lemma iloc_inside (l : list D) (a b : Z) :
  (0 <= a <= b)%Z -> (b <= Z.of_nat (length l))%Z ->
  iloc l a b = take (Z.to_nat (b - a)) (drop (Z.to_nat a) l).
Proof.
  intros Hab Hb. unfold iloc, slice_bound.
  destruct (Z.ltb_spec a 0); [lia|]. destruct (Z.ltb_spec b 0); [lia|].
  rewrite !Z.min_l by lia. f_equal. lia.
Qed.

Lemma iloc_length (l : list D) (a b : Z) :
  (0 <= a)%Z -> (0 <= b)%Z ->
  Z.of_nat (length (iloc l a b))
  = Z.max 0 (Z.min b (Z.of_nat (length l)) - Z.min a (Z.of_nat (length l))).
Proof.
  intros Ha Hb. unfold iloc, slice_bound.
  destruct (Z.ltb_spec a 0); [lia|]. destruct (Z.ltb_spec b 0); [lia|].
  rewrite length_take, length_drop. lia.
Qed.

Lemma iloc_adjacent (l : list D) (a b c : Z) :
  (0 <= a <= b)%Z -> (b <= c)%Z -> (c <= Z.of_nat (length l))%Z ->
  iloc l a b ++ iloc l b c = iloc l a c.
Proof.
  intros Hab Hbc Hc. rewrite !iloc_inside by lia.
  replace (Z.to_nat b) with (Z.to_nat a + Z.to_nat (b - a))%nat by lia.
  rewrite <- drop_drop, take_take_drop. f_equal. lia.
Qed.

(** *** Facts about the windows *)

(** A reported window: the training rows are [train_length] rows inside
    the data, the test rows follow them directly and are inside the data
    too. *)
Definition out_of_sample (train_length : Z) (r : Window.t V result) : Prop :=
  let '(a, b) := Window.train_period r in
  let '(c, d) := Window.test_period r in
  (0 <= a < b)%Z /\ c = b /\ (b < d <= Z.of_nat (length data))%Z /\
  (b - a = train_length)%Z /\
  length (iloc data a b) = Z.to_nat train_length /\
  iloc data a b ++ iloc data c d = iloc data a d.

Lemma window_step_append param_grid metric train_length window_size i r :
  (0 <= train_length)%Z -> (0 <= window_size)%Z ->
  window_step param_grid metric (Z.of_nat (length data)) train_length window_size i
    = Append r ->
  out_of_sample train_length r.
Proof.
  intros HL Hw. unfold window_step.
  set (a := (Z.of_nat i * window_size)%Z).
  set (b := (a + train_length)%Z).
  set (d := Z.min (b + window_size) (Z.of_nat (length data))).
  assert (Ha : (0 <= a)%Z) by (unfold a; lia).
  destruct ((length (iloc data a b) =? 0)%nat || (length (iloc data b d) =? 0)%nat)
    eqn:Eguard; [discriminate|].
  apply orb_false_iff in Eguard as [E1 E2].
  apply Nat.eqb_neq in E1, E2.
  pose proof (iloc_length data a b Ha ltac:(lia)) as H1.
  pose proof (iloc_length data b d ltac:(lia) ltac:(lia)) as H2.
  assert (Hbd : (a < b /\ b < d /\ d <= Z.of_nat (length data))%Z) by lia.
  destruct (best_params _) as [best|]; [|discriminate].
  intros [= <-]. unfold out_of_sample. cbn [Window.train_period Window.test_period].
  split; [lia|]. split; [reflexivity|]. split; [lia|]. split; [lia|]. split.
  - rewrite iloc_inside by lia. rewrite length_take, length_drop. lia.
  - apply iloc_adjacent; lia.
Qed.

Lemma windows_out_of_sample param_grid metric train_length window_size indices :
  (0 <= train_length)%Z -> (0 <= window_size)%Z ->
  forall results out,
    Forall (out_of_sample train_length) results ->
    windows param_grid metric (Z.of_nat (length data)) train_length window_size
      indices results = Some out ->
    Forall (out_of_sample train_length) out /\
    (length out <= length results + length indices)%nat.
Proof.
  intros HL Hw. induction indices as [|i rest IH]; intros results out Hres; cbn [windows].
  - intros [= <-]. split; [exact Hres | lia].
  - destruct (window_step _ _ _ _ _ i) as [| |r] eqn:E; [discriminate| |].
    + intros H. apply IH in H as [H1 H2]; [|exact Hres]. split; [exact H1 | simpl; lia].
    + intros H. apply IH in H as [H1 H2].
      * split; [exact H1|]. rewrite length_app in H2. simpl in *. lia.
      * apply Forall_app. split; [exact Hres|]. constructor; [|constructor].
        eapply window_step_append; eassumption.
Qed.

Lemma int_nonneg x : 0 <= x -> (0 <= int x)%Z.
Proof.
  intros H. unfold int. assert (Hf : Py.ltb x 0 = false) by now apply Py.ltb_ge.
  rewrite Hf. change 0%Z with (Qfloor 0). now apply Qfloor_resp_le.
Qed.

Lemma windows_raise param_grid metric total_length train_length window_size i :
  forall indices results,
    In i indices ->
    window_step param_grid metric total_length train_length window_size i = Raise ->
    windows param_grid metric total_length train_length window_size indices results
      = None.
Proof.
  induction indices as [|j rest IH]; intros results Hin Hraise; [destruct Hin|].
  cbn [windows]. destruct Hin as [->|Hin]; [now rewrite Hraise|].
  destruct (window_step _ _ _ _ _ j); [reflexivity | now apply IH | now apply IH].
Qed.

(** X20. With a non-negative training ratio, every window that
    [walk_forward_optimization] reports is out of sample and complete: its
    training slice is exactly [int(len(data) * train_ratio)] rows of the
    data, not cut short at the end, its test slice is non-empty, lies
    inside the data and begins on the row where the training slice ends,
    so that the two slices share no row.  There are at most [n_windows]
    of them. *)
Theorem walk_forward_windows_are_out_of_sample
    (param_grid : list (string * list V)) (train_ratio : Q) (n_windows : Z)
    (metric : string) :
  0 <= train_ratio ->
  forall out,
    walk_forward_optimization param_grid train_ratio n_windows metric = Some out ->
    Forall (out_of_sample (int (inject_Z (Z.of_nat (length data)) * train_ratio))) out /\
    (length out <= Z.to_nat n_windows)%nat.
Proof.
  intros Hratio out. unfold walk_forward_optimization.
  destruct (Z.eqb_spec n_windows 0) as [|Hn]; [discriminate|].
  set (L := int (inject_Z (Z.of_nat (length data)) * train_ratio)).
  assert (HL : (0 <= L)%Z).
  { apply int_nonneg. apply Qmult_le_0_compat; [|exact Hratio].
    change 0 with (inject_Z 0). rewrite <- Zle_Qle. lia. }
  destruct (Z_lt_le_dec n_windows 0) as [Hneg|Hpos].
  - assert (E : Z.to_nat n_windows = 0%nat) by lia. rewrite E. cbn [seq windows].
    intros H. injection H as <-. split; [constructor | simpl; lia].
  - intros H.
    destruct (windows_out_of_sample param_grid metric L (L / n_windows)%Z
                (seq 0 (Z.to_nat n_windows)) HL ltac:(apply Z.div_pos; lia)
                [] out ltac:(constructor) H) as [H1 H2].
    split; [exact H1|]. rewrite length_seq in H2. simpl in H2. exact H2.
Qed.

(** X21. [walk_forward_optimization] raises when some window with
    non-empty training and test slices has a training search in which
    every backtest fails: the search returns no parameters and the
    configuration cannot be updated with them, whatever the other windows
    gave. *)
Theorem walk_forward_raises_without_parameters
    (param_grid : list (string * list V)) (train_ratio : Q) (n_windows : Z)
    (metric : string) (i : nat) :
  let total_length := Z.of_nat (length data) in
  let train_length := int (inject_Z total_length * train_ratio) in
  let window_size := (train_length / n_windows)%Z in
  let train_start := (Z.of_nat i * window_size)%Z in
  let train_end := (train_start + train_length)%Z in
  let test_end := Z.min (train_end + window_size) total_length in
  (Z.of_nat i < n_windows)%Z ->
  iloc data train_start train_end <> [] ->
  iloc data train_end test_end <> [] ->
  (forall j p,
     has_error (run_backtest (iloc data train_start train_end) j p) = true) ->
  walk_forward_optimization param_grid train_ratio n_windows metric = None.
Proof.
  intros total_length train_length window_size train_start train_end test_end
    Hi Htrain Htest Hfail.
  unfold walk_forward_optimization.
  destruct (Z.eqb_spec n_windows 0) as [|Hn]; [reflexivity|].
  fold total_length train_length window_size.
  apply (windows_raise _ _ _ _ _ i).
  - apply in_seq. lia.
  - unfold window_step. fold train_start train_end test_end.
    assert (E1 : (length (iloc data train_start train_end) =? 0)%nat = false).
    { apply Nat.eqb_neq. destruct (iloc data train_start train_end); [congruence|].
      simpl. lia. }
    assert (E2 : (length (iloc data train_end test_end) =? 0)%nat = false).
    { apply Nat.eqb_neq. destruct (iloc data train_end test_end); [congruence|].
      simpl. lia. }
    rewrite E1, E2. cbn [orb].
    unfold optimize_parameters.
    rewrite (GridSearch.search_all_fail base_config
               (run_backtest (iloc data train_start train_end)) has_error get
               metric _ 0 _ Hfail).
    reflexivity.
Qed.

End Walk.

(** *** Ten rows, half of them for training, two windows *)

Definition ten_rows : list nat := seq 0 10.

(** A training backtest that scores the combination by its position, and a
    test backtest that scores the slice by its length. *)
Definition slice_backtest (rows : list nat) (i : nat) (_ : gmap string Q)
    : option xnum :=
  Some (Fin (inject_Z (Z.of_nat (length rows + i)))).

Definition test_backtest (rows : list nat) (_ : gmap string Q) : option xnum :=
  Some (Fin (inject_Z (Z.of_nat (length rows)))).

Definition two_windows : list (Window.t Q (option xnum)) :=
  [ {| Window.window := 0; Window.train_period := (0, 5)%Z;
       Window.test_period := (5, 7)%Z;
       Window.best_params := {["MIN_CONFIRMATIONS" := 3]};
       Window.train_score := Fin 6; Window.test_score := Fin 2;
       Window.test_result := Some (Fin 2) |};
    {| Window.window := 1; Window.train_period := (2, 7)%Z;
       Window.test_period := (7, 9)%Z;
       Window.best_params := {["MIN_CONFIRMATIONS" := 3]};
       Window.train_score := Fin 6; Window.test_score := Fin 2;
       Window.test_result := Some (Fin 2) |} ].

Example walk_forward_of_ten_rows :
  walk_forward_optimization ∅ ten_rows slice_backtest test_backtest failed read
    two_values (1 # 2) 2 "total_pnl" = Some two_windows.
Proof. vm_compute. reflexivity. Qed.

Lemma walk_forward_windows_are_out_of_sample_witness :
  Forall (out_of_sample ten_rows 5) two_windows /\ (length two_windows <= 2)%nat.
Proof.
  apply (walk_forward_windows_are_out_of_sample ∅ ten_rows slice_backtest
           test_backtest failed read two_values (1 # 2) 2 "total_pnl").
  - discriminate.
  - vm_compute. reflexivity.
Defined.

(** With three windows the third has no test rows left and is skipped. *)
Example third_window_skipped :
  walk_forward_optimization ∅ (seq 0 7) slice_backtest test_backtest failed read
    two_values (5 # 7) 3 "total_pnl"
  = Some [ {| Window.window := 0; Window.train_period := (0, 5)%Z;
              Window.test_period := (5, 6)%Z;
              Window.best_params := {["MIN_CONFIRMATIONS" := 3]};
              Window.train_score := Fin 6; Window.test_score := Fin 1;
              Window.test_result := Some (Fin 1) |};
           {| Window.window := 1; Window.train_period := (1, 6)%Z;
              Window.test_period := (6, 7)%Z;
              Window.best_params := {["MIN_CONFIRMATIONS" := 3]};
              Window.train_score := Fin 6; Window.test_score := Fin 1;
              Window.test_result := Some (Fin 1) |} ].
Proof. vm_compute. reflexivity. Qed.

Lemma walk_forward_raises_without_parameters_witness :
  walk_forward_optimization ∅ ten_rows
    (fun _ : list nat => GridSearch.no_trades) test_backtest failed read
    two_values (1 # 2) 2 "total_pnl" = None.
Proof.
  apply (walk_forward_raises_without_parameters ∅ ten_rows
           (fun _ : list nat => GridSearch.no_trades) test_backtest failed read
           two_values (1 # 2) 2 "total_pnl" 1).
  - reflexivity.
  - vm_compute. discriminate.
  - vm_compute. discriminate.
  - reflexivity.
Defined.

End WalkForward.

(** ** Exit management of the live bot: [TradingBot.check_sl_tp],
    [TradingBot.check_advanced_exits] and the exit rules they call *)

Module LiveExits.

Import Indicators.

(** The dict that [execute_trade] stores in [open_positions]; times are in
    seconds. *)
Record position := {
  direction : side;
  entry_price : Q;
  sl_price : Q;
  tp_price : Q;
  lots : Q;
  entry_time : Q
}.

(** [position['sl_price'] = new_sl] *)
Definition set_sl (pos : position) (new_sl : Q) : position :=
  {| direction := direction pos;
     entry_price := entry_price pos;
     sl_price := new_sl;
     tp_price := tp_price pos;
     lots := lots pos;
     entry_time := entry_time pos |}.

(** The same dict as the exit rules read it: ['sl_price'] is present. *)
Definition as_dict (pos : position) : ExitStrategies.position :=
  {| ExitStrategies.direction := direction pos;
     ExitStrategies.entry_price := entry_price pos;
     ExitStrategies.sl_price := Some (sl_price pos);
     ExitStrategies.flags := ∅ |}.

Inductive reason := sl | tp | time | volatility | rsi_extreme.

(** [check_sl_tp]; the price is [None] when no tick could be read. *)
Definition check_sl_tp (pos : position) (current_price : option Q) : option reason :=
  match current_price with
  | None => None
  | Some price =>
      match direction pos with
      | Buy =>
          if Py.leb price (sl_price pos) then Some sl
          else if Py.leb (tp_price pos) price then Some tp
          else None
      | Sell =>
          if Py.leb (sl_price pos) price then Some sl
          else if Py.leb price (tp_price pos) then Some tp
          else None
      end
  end.

(** A row of the frame that [calculate_indicators] returns, with the two
    columns the exit rules read. *)
Record row := { ATR : option Q; RSI : option Q }.

(** [ExitStrategies.time_based_exit] *)
Definition time_based_exit (pos : position) (current_time max_hours : Q) : bool :=
  let hours_in_trade := (current_time - entry_time pos) / 3600 in
  Py.leb max_hours hours_in_trade.

(** [ExitStrategies.volatility_expansion_exit]; a comparison with NaN is
    false. *)
Definition volatility_expansion_exit (df : list row) (threshold : Q) : bool :=
  if (length df <? 20)%nat then false
  else
    match last (ATR <$> df),
          last (IndicatorFrame.rolling_mean_full 20 (ATR <$> df)) with
    | Some (Some recent_atr), Some (Some avg_atr) =>
        Py.ltb (avg_atr * threshold) recent_atr
    | _, _ => false
    end.

(** [ExitStrategies.rsi_extreme_exit] *)
Definition rsi_extreme_exit (df : list row) (pos : position)
    (rsi_period : nat) (exit_level : Q) : bool :=
  if (length df <? rsi_period)%nat then false
  else
    match last (RSI <$> df) with
    | Some (Some rsi_value) =>
        match direction pos with
        | Buy => Py.ltb exit_level rsi_value
        | Sell => Py.ltb rsi_value (100 - exit_level)
        end
    | _ => false
    end.

(** The trailing-stop block of [check_advanced_exits] for an ATR that is a
    number. *)
Definition trail (pos : position) (current_price atr_val : Q) : position :=
  let new_sl :=
    ExitStrategies.trailing_stop_atr current_price (as_dict pos) atr_val
      ExitStrategies.default_multiplier in
  match direction pos with
  | Buy => if Py.ltb (sl_price pos) new_sl then set_sl pos new_sl else pos
  | Sell => if Py.ltb new_sl (sl_price pos) then set_sl pos new_sl else pos
  end.

Definition is_null (c : option Q) : bool :=
  match c with None => true | Some _ => false end.

(** [check_advanced_exits]: the reason returned and the dict as the call
    leaves it.  When the last ATR is NaN the new stop is NaN, both
    comparisons with the current stop are false and the dict is not
    touched. *)
Definition check_advanced_exits (get_current_price : option Q) (df : list row)
    (pos : position) (current_time max_trade_hours : Q)
    : option reason * position :=
  match get_current_price with
  | None => (None, pos)
  | Some current_price =>
      let pos' :=
        if negb (forallb is_null (ATR <$> df)) then
          match last (ATR <$> df) with
          | Some (Some atr_val) => trail pos current_price atr_val
          | _ => pos
          end
        else pos in
      let exit :=
        if time_based_exit pos' current_time max_trade_hours then Some time
        else if volatility_expansion_exit df 2 then Some volatility
        else if rsi_extreme_exit df pos' 14 70 then Some rsi_extreme
        else None in
      (exit, pos')
  end.

(** One call per cycle on the one dict: the price read, the frame and the
    time of each cycle. *)
Fixpoint cycles (pos : position) (calls : list (option Q * list row * Q))
    (max_trade_hours : Q) : position :=
  match calls with
  | [] => pos
  | (price, df, now) :: rest =>
      cycles (snd (check_advanced_exits price df pos now max_trade_hours)) rest
        max_trade_hours
  end.

(** *** Facts *)

(** The stop is on the side of the position's loss at least as far as
    before. *)
Definition tightened (old new : position) : Prop :=
  direction new = direction old /\ entry_price new = entry_price old /\
  tp_price new = tp_price old /\ lots new = lots old /\
  entry_time new = entry_time old /\
  match direction old with
  | Buy => sl_price old <= sl_price new
  | Sell => sl_price new <= sl_price old
  end.

Lemma tightened_refl pos : tightened pos pos.
Proof. unfold tightened. destruct (direction pos); repeat split; apply Qle_refl. Qed.

Lemma tightened_trans a b c : tightened a b -> tightened b c -> tightened a c.
Proof.
  unfold tightened. intros (Hd & He & Ht & Hl & Hn & Hs) (Hd' & He' & Ht' & Hl' & Hn' & Hs').
  rewrite Hd in Hs'. repeat split; try congruence.
  destruct (direction a); eapply Qle_trans; eassumption.
Qed.

Lemma trail_tightened pos price atr_val : tightened pos (trail pos price atr_val).
Proof.
  unfold trail, tightened.
  destruct (direction pos) eqn:Ed.
  - destruct (Py.ltb _ _) eqn:E; cbn [set_sl direction entry_price tp_price lots
      entry_time sl_price]; rewrite ?Ed; repeat split; try apply Qle_refl.
    apply Py.ltb_lt in E. now apply Qlt_le_weak.
  - destruct (Py.ltb _ _) eqn:E; cbn [set_sl direction entry_price tp_price lots
      entry_time sl_price]; rewrite ?Ed; repeat split; try apply Qle_refl.
    apply Py.ltb_lt in E. now apply Qlt_le_weak.
Qed.

Lemma check_advanced_exits_tightened price df pos now max_trade_hours :
  tightened pos (snd (check_advanced_exits price df pos now max_trade_hours)).
Proof.
  unfold check_advanced_exits. destruct price as [p|]; [|apply tightened_refl].
  cbn [snd]. destruct (negb _); [|apply tightened_refl].
  destruct (last _) as [[a|]|]; try apply tightened_refl. apply trail_tightened.
Qed.

(** The stop that the trailing rule proposes ([new_sl] in
    [trailing_stop_atr]), and what it is for a stop to lie strictly on the
    losing side of a price. *)
Definition proposed_stop (d : side) (current_price atr_val : Q) : Q :=
  match d with
  | Buy => current_price - atr_val * ExitStrategies.default_multiplier
  | Sell => current_price + atr_val * ExitStrategies.default_multiplier
  end.

Definition behind (d : side) (stop price : Q) : Prop :=
  match d with
  | Buy => stop < price
  | Sell => price < stop
  end.

(** When the proposed stop is behind the price, so is the stop that
    [trail] leaves, unless the old stop already was not. *)
Lemma trail_behind pos price atr_val :
  behind (direction pos) (proposed_stop (direction pos) price atr_val) price ->
  behind (direction pos) (sl_price pos) price ->
  behind (direction pos) (sl_price (trail pos price atr_val)) price.
Proof.
  unfold behind, proposed_stop, trail, ExitStrategies.trailing_stop_atr, as_dict.
  cbn [ExitStrategies.direction ExitStrategies.sl_price default].
  destruct (direction pos) eqn:Ed; intros Hp Hs.
  - destruct (Py.ltb _ _) eqn:E; [|exact Hs]. cbn [set_sl sl_price].
    unfold Py.max. destruct (Py.ltb (price - _) _) eqn:E2; [exact Hs | exact Hp].
  - destruct (Py.ltb _ _) eqn:E; [|exact Hs]. cbn [set_sl sl_price].
    unfold Py.min. destruct (Py.ltb (sl_price pos) _) eqn:E2; [exact Hs | exact Hp].
Qed.

(** X22. A trailing update does not stop the position out by itself: when
    the stop that the rule proposes from the last ATR of the frame, the
    price minus (for a short, plus) 1.5 times the ATR as computed, lies
    strictly on the losing side of the current price, and the position is
    neither at its stop nor at its target at that price, then after
    [check_advanced_exits] has moved the stop, [check_sl_tp] at that same
    price still reports nothing, and the update has only tightened the
    stop and left the rest of the position alone.  (A positive ATR gives
    such a proposal unless it is so small that the subtraction rounds back
    to the price.) *)
Theorem trailing_update_stays_behind_price (pos : position) (price : Q)
    (df : list row) (now max_trade_hours : Q) :
  (forall a, last (ATR <$> df) = Some (Some a) ->
     behind (direction pos) (proposed_stop (direction pos) price a) price) ->
  check_sl_tp pos (Some price) = None ->
  let pos' := snd (check_advanced_exits (Some price) df pos now max_trade_hours) in
  check_sl_tp pos' (Some price) = None /\ tightened pos pos'.
Proof.
  intros Hatr Hnone pos'. split; [|apply check_advanced_exits_tightened].
  subst pos'. unfold check_advanced_exits. cbn [snd].
  destruct (negb _); [|exact Hnone].
  destruct (last (ATR <$> df)) as [[a|]|] eqn:El; try exact Hnone.
  specialize (Hatr a eq_refl).
  pose proof (trail_behind pos price a Hatr) as Hb.
  pose proof (trail_tightened pos price a) as (Hd & _ & Ht & _).
  unfold check_sl_tp in *. rewrite Hd, Ht. unfold behind in Hb.
  destruct (direction pos).
  - destruct (Py.leb price (sl_price pos)) eqn:E1; [discriminate|].
    destruct (Py.leb (tp_price pos) price) eqn:E2; [discriminate|].
    apply Py.leb_gt in E1. apply Hb in E1.
    assert (E3 : Py.leb price (sl_price (trail pos price a)) = false)
      by now apply Py.leb_gt.
    now rewrite E3.
  - destruct (Py.leb (sl_price pos) price) eqn:E1; [discriminate|].
    destruct (Py.leb price (tp_price pos)) eqn:E2; [discriminate|].
    apply Py.leb_gt in E1. apply Hb in E1.
    assert (E3 : Py.leb (sl_price (trail pos price a)) price = false)
      by now apply Py.leb_gt.
    now rewrite E3.
Qed.

(** X23. Over any sequence of cycles, whatever prices, frames and times
    they see, the stop of a long position never moves down and the stop of
    a short position never moves up, and nothing else of the position
    changes: not the direction, the entry, the target, the size or the
    entry time. *)
Theorem stop_only_ratchets (calls : list (option Q * list row * Q))
    (max_trade_hours : Q) (pos : position) :
  tightened pos (cycles pos calls max_trade_hours).
Proof.
  revert pos. induction calls as [|[[price df] now] rest IH]; intros pos.
  - apply tightened_refl.
  - cbn [cycles]. eapply tightened_trans; [|apply IH].
    apply check_advanced_exits_tightened.
Qed.

(** *** The volatility exit on a frame whose ATR column is the bot's *)

Lemma observations_length (w : series) : (length (observations w) <= length w)%nat.
Proof.
  unfold observations. induction w as [|[v|] w IH]; [reflexivity| |].
  - change (omap id (Some v :: w)) with (v :: omap id w). simpl. lia.
  - change (omap id (None :: w)) with (omap id w). simpl. lia.
Qed.

Lemma observations_short (w : series) :
  head w = Some None -> (length (observations w) < length w)%nat.
Proof.
  destruct w as [|c w]; [discriminate|]. intros [= ->].
  pose proof (observations_length w) as H. unfold observations in *.
  change (omap id (None :: w)) with (omap id w). simpl. lia.
Qed.

Lemma calculate_atr_length bars period :
  length (IndicatorFrame.calculate_atr bars period) = length bars.
Proof.
  unfold IndicatorFrame.calculate_atr, IndicatorFrame.rolling_mean_full.
  now rewrite length_fmap, length_seq, length_fmap, IndicatorFrame.true_ranges_length.
Qed.

Lemma calculate_atr_undefined bars period i :
  (i < length bars)%nat -> (i + 1 < period)%nat ->
  IndicatorFrame.calculate_atr bars period !! i = Some None.
Proof.
  intros Hi Hp. rewrite (IndicatorFrame.calculate_atr_lookup bars period i Hi).
  f_equal. unfold IndicatorFrame.rolling_mean_full_at.
  rewrite IndicatorFrame.window_full.
  destruct (drop _ _) as [|x obs] eqn:E; [reflexivity|].
  destruct (decide _) as [Hd|Hd]; [|reflexivity].
  exfalso. rewrite <- E in Hd.
  rewrite length_drop, length_take, IndicatorFrame.true_ranges_length in Hd. lia.
Qed.

(** X24. On a frame whose ATR column is [calculate_atr] of its bars, the
    volatility exit cannot fire before the frame has [period + 19] rows:
    the 20-row average of the ATR needs twenty ATR values and the first
    [period - 1] rows have none. *)
Theorem volatility_exit_needs_history (bars : list BacktestEngine.bar)
    (period : nat) (df : list row) (threshold : Q) :
  ATR <$> df = IndicatorFrame.calculate_atr bars period ->
  (length bars < period + 19)%nat ->
  volatility_expansion_exit df threshold = false.
Proof.
  intros Hcol Hlen. unfold volatility_expansion_exit.
  assert (Hn : length df = length bars).
  { rewrite <- (length_fmap ATR df), Hcol. apply calculate_atr_length. }
  destruct (Nat.ltb_spec (length df) 20) as [|H20]; [reflexivity|].
  rewrite Hcol.
  set (s := IndicatorFrame.calculate_atr bars period).
  assert (Hs : length s = length bars) by apply calculate_atr_length.
  assert (Havg : last (IndicatorFrame.rolling_mean_full 20 s) = Some None).
  { rewrite last_lookup. unfold IndicatorFrame.rolling_mean_full.
    rewrite length_fmap, length_seq, list_lookup_fmap, lookup_seq_lt by lia.
    cbn [fmap option_fmap option_map]. f_equal. rewrite Nat.add_0_l.
    unfold IndicatorFrame.rolling_mean_full_at.
    set (w := window 20 (Nat.pred (length s)) s).
    assert (Hw : length w = 20%nat).
    { unfold w, window. rewrite length_drop, length_take. lia. }
    assert (Hhead : head w = Some None).
    { unfold w, window. rewrite head_lookup, lookup_drop, lookup_take_lt by lia.
      apply calculate_atr_undefined; lia. }
    pose proof (observations_short w Hhead) as Hshort.
    destruct (observations w) as [|x obs]; [reflexivity|].
    destruct (decide _) as [Hd|Hd]; [lia | reflexivity]. }
  rewrite Havg. now destruct (last s) as [[r|]|].
Qed.

(** *** A long position at 1800 and a frame after a price jump *)

Definition long_1800 : position :=
  {| direction := Buy; entry_price := 1800; sl_price := 1790; tp_price := 1815;
     lots := 1 # 10; entry_time := 0 |}.

Definition one_row (atr_val : Q) : list row :=
  [ {| ATR := Some atr_val; RSI := Some 50 |} ].

(** At 1810 with an ATR of 4 the stop moves from 1790 to 1804. *)
Example stop_moves_to_1804 :
  check_advanced_exits (Some 1810) (one_row 4) long_1800 3600 48
  = (None, set_sl long_1800 (1810 - 4 * (15 # 10))).
Proof. reflexivity. Qed.

Lemma trailing_update_stays_behind_price_witness :
  let pos' := snd (check_advanced_exits (Some 1810) (one_row 4) long_1800 3600 48) in
  check_sl_tp pos' (Some 1810) = None /\ tightened long_1800 pos'.
Proof.
  apply (trailing_update_stays_behind_price long_1800 1810 (one_row 4) 3600 48).
  - intros a H. injection H as <-. reflexivity.
  - reflexivity.
Defined.

(** On doubles an ATR of 2^-50 is absorbed: 1810 minus 1.5 times it is
    1810 again, and the proposed stop is not behind the price. *)
Example tiny_atr_is_absorbed :
  Binary64.sub 1810 (Binary64.mul (Binary64.pow2 (-50)) (15 # 10)) = 1810.
Proof. vm_compute. reflexivity. Qed.

(** With an ATR of zero the stop moves onto the price, and the next check
    at that price is a stop-out. *)
Example zero_atr_stops_out :
  let pos' := snd (check_advanced_exits (Some 1810) (one_row 0) long_1800 3600 48) in
  check_sl_tp long_1800 (Some 1810) = None /\
  check_sl_tp pos' (Some 1810) = Some sl.
Proof. split; reflexivity. Qed.

(** The frame of a list of bars: its ATR column is [calculate_atr]. *)
Definition frame_of (bars : list BacktestEngine.bar) (period : nat) : list row :=
  (fun c => {| ATR := c; RSI := None |}) <$> IndicatorFrame.calculate_atr bars period.

(** [n] hours at 1800, then a bar at 1900. *)
Definition quiet_then_jump (n : nat) : list BacktestEngine.bar :=
  ((fun i => BacktestEngine.hourly i 1800) <$> seq 0 n)
  ++ [BacktestEngine.hourly n 1900].

(** With a period of 3 the jump is seen on the 22nd row, not on the 21st. *)
Example jump_seen_on_row_22 :
  volatility_expansion_exit (frame_of (quiet_then_jump 21) 3) 2 = true.
Proof. vm_compute. reflexivity. Qed.

Lemma volatility_exit_needs_history_witness :
  volatility_expansion_exit (frame_of (quiet_then_jump 20) 3) 2 = false.
Proof.
  apply (volatility_exit_needs_history (quiet_then_jump 20) 3
           (frame_of (quiet_then_jump 20) 3) 2).
  - vm_compute. reflexivity.
  - vm_compute. lia.
Defined.

End LiveExits.

(** ** Weekly Fibonacci levels: [TradingBot.get_fibonacci_levels] and
    [DataManager.get_fibonacci_levels] *)

Module WeeklyLevels.

Import Indicators.

(** A weekly rate as the terminal returns it. *)
Record week := { high : Q; low : Q; close : Q }.

(** [Series.max()] and [Series.min()] of a column without NaN; the column
    is not empty where they are called. *)
Definition series_max (first : Q) (rest : list Q) : Q := fold_left Py.max rest first.
Definition series_min (first : Q) (rest : list Q) : Q := fold_left Py.min rest first.

(** The trend bias: the last close against the mean of the last four; with
    fewer than four rows the mean is NaN and the comparison false. *)
Definition trend_bias (closes : list Q) : BacktestEngine.bias :=
  match last closes, last (IndicatorFrame.rolling_mean_full 4 (Some <$> closes)) with
  | Some c, Some (Some m) =>
      if Py.ltb m c then BacktestEngine.bull else BacktestEngine.bear
  | _, _ => BacktestEngine.bear
  end.

(** The dict of levels in insertion order, and the bias.  [rates] is [None]
    when the terminal returned nothing. *)
Definition get_fibonacci_levels (rates : option (list week))
    : list (Q * Q) * BacktestEngine.bias :=
  match rates with
  | None | Some [] => ([], BacktestEngine.neutral)
  | Some (w :: ws) =>
      let highest := series_max (high w) (high <$> ws) in
      let lowest := series_min (low w) (low <$> ws) in
      let diff := highest - lowest in
      if Py.leb diff 0 then ([], BacktestEngine.neutral)
      else
        ([ (0, highest);
           (236 # 1000, highest - (236 # 1000) * diff);
           (382 # 1000, highest - (382 # 1000) * diff);
           (5 # 10, highest - (5 # 10) * diff);
           (618 # 1000, highest - (618 # 1000) * diff);
           (1, lowest) ],
         trend_bias (close <$> (w :: ws)))
  end.

(** *** Facts *)

Lemma series_max_upper rest : forall first,
  first <= series_max first rest /\
  Forall (fun x => x <= series_max first rest) rest.
Proof.
  unfold series_max. induction rest as [|x rest IH]; intros first; cbn [fold_left].
  - split; [apply Qle_refl | constructor].
  - destruct (IH (Py.max first x)) as [H1 H2].
    assert (Hm : first <= Py.max first x /\ x <= Py.max first x).
    { unfold Py.max. destruct (Py.ltb first x) eqn:E.
      - apply Py.ltb_lt in E. split; [now apply Qlt_le_weak | apply Qle_refl].
      - apply Py.ltb_ge in E. split; [apply Qle_refl | exact E]. }
    destruct Hm as [Hf Hx]. split; [eapply Qle_trans; eassumption|].
    constructor; [eapply Qle_trans; eassumption | exact H2].
Qed.

Lemma series_min_lower rest : forall first,
  series_min first rest <= first /\
  Forall (fun x => series_min first rest <= x) rest.
Proof.
  unfold series_min. induction rest as [|x rest IH]; intros first; cbn [fold_left].
  - split; [apply Qle_refl | constructor].
  - destruct (IH (Py.min first x)) as [H1 H2].
    assert (Hm : Py.min first x <= first /\ Py.min first x <= x).
    { unfold Py.min. destruct (Py.ltb x first) eqn:E.
      - apply Py.ltb_lt in E. split; [now apply Qlt_le_weak | apply Qle_refl].
      - apply Py.ltb_ge in E. split; [apply Qle_refl | exact E]. }
    destruct Hm as [Hf Hx]. split; [eapply Qle_trans; eassumption|].
    constructor; [eapply Qle_trans; eassumption | exact H2].
Qed.

Lemma trend_bias_decided closes : trend_bias closes <> BacktestEngine.neutral.
Proof.
  unfold trend_bias. destruct (last closes) as [c|]; [|discriminate].
  destruct (last _) as [[m|]|]; try discriminate.
  destruct (Py.ltb m c); discriminate.
Qed.

Lemma trend_bias_short closes :
  (length closes < 4)%nat -> trend_bias closes = BacktestEngine.bear.
Proof.
  intros Hlen. unfold trend_bias. destruct (last closes) as [c|] eqn:Ec; [|reflexivity].
  assert (Hpos : (0 < length closes)%nat).
  { destruct closes; [discriminate | simpl; lia]. }
  rewrite last_lookup. unfold IndicatorFrame.rolling_mean_full.
  rewrite length_fmap, length_seq, length_fmap, list_lookup_fmap,
    lookup_seq_lt by lia.
  cbn [fmap option_fmap option_map]. rewrite Nat.add_0_l.
  unfold IndicatorFrame.rolling_mean_full_at. rewrite IndicatorFrame.window_full.
  destruct (drop _ _) as [|x obs] eqn:E; [reflexivity|].
  destruct (decide _) as [Hd|Hd]; [|reflexivity].
  exfalso. rewrite <- E, length_drop, length_take in Hd. lia.
Qed.

(** The values of the levels, top down. *)
Definition descending (values : list Q) : Prop :=
  StronglySorted (fun upper lower => lower < upper) values.

(** X25. When [get_fibonacci_levels] returns levels, they are the six
    retracements 0, 0.236, 0.382, 0.5, 0.618 and 1 in this order with
    strictly descending prices; the first is at or above every weekly high
    and the last at or below every weekly low; and the bias is then bull
    or bear, never neutral, and bear whenever fewer than four weeks are
    available. *)
Theorem fibonacci_levels_descend (rates : list week) :
  fst (get_fibonacci_levels (Some rates)) <> [] ->
  let levels := fst (get_fibonacci_levels (Some rates)) in
  let weekly_bias := snd (get_fibonacci_levels (Some rates)) in
  fst <$> levels = [0; 236 # 1000; 382 # 1000; 5 # 10; 618 # 1000; 1] /\
  descending (snd <$> levels) /\
  (exists top bottom,
     head (snd <$> levels) = Some top /\ last (snd <$> levels) = Some bottom /\
     Forall (fun w => high w <= top /\ bottom <= low w) rates) /\
  weekly_bias <> BacktestEngine.neutral /\
  ((length rates < 4)%nat -> weekly_bias = BacktestEngine.bear).
Proof.
  unfold get_fibonacci_levels. destruct rates as [|w ws]; [intros H; now elim H|].
  set (highest := series_max (high w) (high <$> ws)).
  set (lowest := series_min (low w) (low <$> ws)).
  destruct (Py.leb (highest - lowest) 0) eqn:E; [intros H; now elim H|].
  intros _. cbn [fst snd]. apply Py.leb_gt in E.
  split; [reflexivity|]. split.
  - unfold descending. cbn [fmap list_fmap snd].
    repeat (apply SSorted_cons;
            [|repeat (constructor; [cbv beta; lra|]); constructor]).
    apply SSorted_nil.
  - split.
    + exists highest, lowest. split; [reflexivity|]. split; [reflexivity|].
      destruct (series_max_upper (high <$> ws) (high w)) as [Hh Hhs].
      destruct (series_min_lower (low <$> ws) (low w)) as [Hl Hls].
      fold highest in Hh, Hhs. fold lowest in Hl, Hls.
      constructor; [split; assumption|].
      rewrite Forall_fmap in Hhs, Hls. rewrite Forall_forall in *.
      intros x Hx. split; [apply (Hhs x Hx) | apply (Hls x Hx)].
    + split; [apply trend_bias_decided|]. intros Hlen.
      apply trend_bias_short. now rewrite length_fmap.
Qed.

(** Five weeks between 1750 and 1850 closing on a high. *)
Definition five_weeks : list week :=
  [ {| high := 1800; low := 1750; close := 1790 |};
    {| high := 1820; low := 1780; close := 1810 |};
    {| high := 1830; low := 1790; close := 1800 |};
    {| high := 1840; low := 1795; close := 1835 |};
    {| high := 1850; low := 1820; close := 1845 |} ].

Example levels_of_five_weeks :
  let '(levels, weekly_bias) := get_fibonacci_levels (Some five_weeks) in
  Qred <$> (snd <$> levels) = [1850; 9132 # 5; 9059 # 5; 1800; 8941 # 5; 1750] /\
  weekly_bias = BacktestEngine.bull.
Proof. vm_compute. split; reflexivity. Qed.

(** A flat market has no levels. *)
Example flat_market_is_neutral :
  get_fibonacci_levels (Some [ {| high := 1800; low := 1800; close := 1800 |} ])
  = ([], BacktestEngine.neutral).
Proof. reflexivity. Qed.

Lemma fibonacci_levels_descend_witness :
  let levels := fst (get_fibonacci_levels (Some (take 3 five_weeks))) in
  let weekly_bias := snd (get_fibonacci_levels (Some (take 3 five_weeks))) in
  fst <$> levels = [0; 236 # 1000; 382 # 1000; 5 # 10; 618 # 1000; 1] /\
  descending (snd <$> levels) /\
  (exists top bottom,
     head (snd <$> levels) = Some top /\ last (snd <$> levels) = Some bottom /\
     Forall (fun w => high w <= top /\ bottom <= low w) (take 3 five_weeks)) /\
  weekly_bias <> BacktestEngine.neutral /\
  ((length (take 3 five_weeks) < 4)%nat -> weekly_bias = BacktestEngine.bear).
Proof.
  apply (fibonacci_levels_descend (take 3 five_weeks)). vm_compute. discriminate.
Defined.

End WeeklyLevels.
